(** * Design System Assistant: import-boundary purity and refactor risk

    A shallow embedding of [src/import-boundary-analyzer.ts] and of the
    business-logic analyzer ([detectNativeHtmlElements], [assessRisk]),
    with the properties the specification states about them.

    JavaScript strings are modelled as [string] (code units below 256),
    [Map<string,string>] as an insertion-ordered association list,
    [Set<string>] as [gset string], plain objects used as dictionaries as
    [gmap string _], numbers that hold counts and scores as [Z].  What the
    analyzers take from their runtime (node:path, node:fs, the RegExp
    engine, the TypeScript parser) is gathered in the record [Platform];
    every general theorem holds for every platform, and [Demo] supplies a
    POSIX one on which the definitions can be evaluated. *)

From Stdlib Require Import String Ascii List ZArith Lia Bool DecimalString.
From stdpp Require Import base gmap strings list.

Open Scope string_scope.
Open Scope list_scope.
Open Scope Z_scope.

(** ** JavaScript strings *)

Module Js.

(** The double quote, for the messages built with template strings. *)
Definition dq : string := String "034"%char "".

(** [s.startsWith(p)] *)
Definition startsWith (s p : string) : bool := String.prefix p s.

(** [s.endsWith(p)] *)
Definition endsWith (s p : string) : bool :=
  let n := String.length s in
  let m := String.length p in
  (m <=? n)%nat && String.eqb (String.substring (n - m) m s) p.

(** [s.includes(m)] *)
Fixpoint includes (s m : string) : bool :=
  String.prefix m s ||
  match s with
  | EmptyString => false
  | String _ s' => includes s' m
  end.

(** [s.slice(1)] *)
Definition slice1 (s : string) : string :=
  match s with
  | EmptyString => EmptyString
  | String _ s' => s'
  end.

(** Truthiness of a string value: only the empty string is falsy. *)
Definition truthy (s : string) : bool := negb (String.eqb s "").

(** [x || ""] for [x : string | undefined] *)
Definition orEmpty (x : option string) : string :=
  match x with
  | Some s => s
  | None => ""
  end.

(** [x || undefined] for [x : string | null] *)
Definition orUndefined (x : option string) : option string :=
  match x with
  | Some s => if truthy s then Some s else None
  | None => None
  end.

(** [s.replace(/\\/g, "/")] *)
Fixpoint backslashesToSlashes (s : string) : string :=
  match s with
  | EmptyString => EmptyString
  | String c s' =>
      String (if Ascii.eqb c "\" then "/"%char else c) (backslashesToSlashes s')
  end.

(** The expansion [String.prototype.replace] applies to a replacement
    given as a string, for a pattern without capture groups: [$$] is a
    dollar, [$&] the matched text, [$`] what precedes the match and [$']
    what follows it; any other [$] stands for itself. *)
Fixpoint getSubstitution (tmpl matched before after : string) : string :=
  match tmpl with
  | EmptyString => EmptyString
  | String a t =>
      if Ascii.eqb a "$" then
        match t with
        | EmptyString => String a EmptyString
        | String c rest =>
            if Ascii.eqb c "$" then String "$" (getSubstitution rest matched before after)
            else if Ascii.eqb c "&" then matched +:+ getSubstitution rest matched before after
            else if Ascii.eqb c "`" then before +:+ getSubstitution rest matched before after
            else if Ascii.eqb c "'" then after +:+ getSubstitution rest matched before after
            else String a (getSubstitution t matched before after)
        end
      else String a (getSubstitution t matched before after)
  end.

Fixpoint replaceStarFrom (pre s tmpl : string) : string :=
  match s with
  | EmptyString => EmptyString
  | String c rest =>
      if Ascii.eqb c "*" then
        getSubstitution tmpl "*" pre rest +:+ replaceStarFrom (pre +:+ "*") rest tmpl
      else String c (replaceStarFrom (pre +:+ String c EmptyString) rest tmpl)
  end.

(** [s.replace(/\*/g, tmpl)] *)
Definition replaceStar (s tmpl : string) : string := replaceStarFrom "" s tmpl.

(** Every [*] of [s] replaced by [by_] taken literally. *)
Fixpoint substituteStar (s by_ : string) : string :=
  match s with
  | EmptyString => EmptyString
  | String c rest =>
      if Ascii.eqb c "*" then by_ +:+ substituteStar rest by_
      else String c (substituteStar rest by_)
  end.

(** No [$] in the string. *)
Fixpoint dollarFree (s : string) : bool :=
  match s with
  | EmptyString => true
  | String c rest => negb (Ascii.eqb c "$") && dollarFree rest
  end.

(** Decimal rendering of an integer inside a template string. *)
Definition numberToString (n : Z) : string := NilEmpty.string_of_int (Z.to_int n).

End Js.

(** ** Exceptions *)

Inductive Exc (A : Type) : Type :=
| Returns (a : A)
| Throws.
Arguments Returns {A} a.
Arguments Throws {A}.

Definition bindExc {A B : Type} (m : Exc A) (k : A -> Exc B) : Exc B :=
  match m with
  | Returns a => k a
  | Throws => Throws
  end.

Notation "'let*' x ':=' m 'in' k" := (bindExc m (fun x => k))
  (at level 10, x name, m at level 100, k at level 200).

(** [try { for (const x of xs) body } catch { }] over a state declared
    outside the [try]: what the body did before it threw is kept. *)
Fixpoint tryForOf {A S : Type} (body : S -> A -> Exc S) (xs : list A) (s : S) : S :=
  match xs with
  | [] => s
  | x :: xs' =>
      match body s x with
      | Returns s' => tryForOf body xs' s'
      | Throws => s
      end
  end.

(** ** The syntax tree, as far as [extractImports] looks at it *)

Inductive Expr : Type :=
| StringLiteral (text : string)
| OtherExpr.

Inductive Callee : Type :=
| ImportKeyword
| Identifier (text : string)
| OtherCallee.

(** [line0] is [getLineAndCharacterOfPosition(node.getStart()).line]. *)
#[warnings="-register-all"]
Inductive Node : Type :=
| ImportDeclaration (line0 : Z) (moduleSpecifier : option Expr) (children : list Node)
| CallExpression (line0 : Z) (expression : Callee) (argument0 : option Expr)
    (children : list Node)
| OtherNode (children : list Node).

Inductive ScriptKind : Type := TS | TSX.

Record ImportInfo : Type := mkImportInfo {
  path : string;
  line : Z;
  isDynamic : bool;
  isRequire : bool
}.

Definition stringLiteralText (e : option Expr) : option string :=
  match e with
  | Some (StringLiteral text) => Some text
  | _ => None
  end.

Definition nodeChildren (node : Node) : list Node :=
  match node with
  | ImportDeclaration _ _ cs => cs
  | CallExpression _ _ _ cs => cs
  | OtherNode cs => cs
  end.

(** What the three tests of [visit] push for the node itself. *)
Definition importsOfNode (node : Node) : list ImportInfo :=
  match node with
  | ImportDeclaration l spec _ =>
      match stringLiteralText spec with
      | Some text => [mkImportInfo text (l + 1) false false]
      | None => []
      end
  | CallExpression l callee arg _ =>
      (match callee, stringLiteralText arg with
       | ImportKeyword, Some text => [mkImportInfo text (l + 1) true false]
       | _, _ => []
       end) ++
      (match callee, stringLiteralText arg with
       | Identifier name, Some text =>
           if String.eqb name "require" then [mkImportInfo text (l + 1) false true] else []
       | _, _ => []
       end)
  | OtherNode _ => []
  end.

(** [visit]: the node itself, then [ts.forEachChild(node, visit)]. *)
Fixpoint visit (node : Node) (imports : list ImportInfo) : list ImportInfo :=
  let forEachChild :=
    fix forEachChild (cs : list Node) (acc : list ImportInfo) : list ImportInfo :=
      match cs with
      | [] => acc
      | child :: cs' => forEachChild cs' (visit child acc)
      end in
  let imports := imports ++ importsOfNode node in
  match node with
  | ImportDeclaration _ _ cs => forEachChild cs imports
  | CallExpression _ _ _ cs => forEachChild cs imports
  | OtherNode cs => forEachChild cs imports
  end.

Definition extractImports (sourceFile : Node) : list ImportInfo := visit sourceFile [].

(** ** Configuration *)

Record TsConfigPaths : Type := mkTsConfigPaths {
  baseUrl : option string;
  (** the entries of [paths], in the order of [Object.entries] *)
  paths : option (list (string * list string))
}.

Definition noTsConfig : TsConfigPaths := mkTsConfigPaths None None.

Record PurityConfig : Type := mkPurityConfig {
  enabled : bool;
  uiCandidateDirs : list string;
  forbiddenImportMatchers : list string;
  nextServerImportMatchers : list string;
  businessDirMatchers : list string
}.

(** ** The runtime the analyzers call into *)

Record Platform : Type := mkPlatform {
  (** node:path *)
  resolve : list string -> string;
  join : list string -> string;
  dirname : string -> string;
  extname : string -> string;
  relative : string -> string -> string;
  (** node:fs *)
  existsSync : string -> bool;
  (** [subject.match(new RegExp(source))]: [Throws] when the source is not
      a regular expression, [Returns None] for [null], and for a match
      [Returns (Some g)] with [g] the value of [match[1]]. *)
  regExpMatch : string -> string -> Exc (option (option string));
  (** [subject.match(new RegExp(source, "g"))]: the matched substrings,
      [[]] for [null]. *)
  regExpMatchAll : string -> string -> Exc (list string);
  (** [/source/g.test(subject)] for a regular expression literal *)
  regExpTest : string -> string -> bool;
  (** [ts.createSourceFile(fileName, text, Latest, true, kind)] *)
  createSourceFile : string -> string -> ScriptKind -> Exc Node;
  (** [ts.readConfigFile] followed by [ts.parseJsonConfigFileContent]:
      [Returns None] when [configFile.error] is set, otherwise the
      [baseUrl] and [paths] of the parsed options. *)
  readTsConfig : string -> string -> Exc (option TsConfigPaths)
}.

(** [path.resolve] never answers the empty string. *)
Definition resolveNonEmpty (P : Platform) : Prop :=
  forall segments, resolve P segments <> "".

(** ** The import-boundary analyzer ([src/import-boundary-analyzer.ts]) *)

Module ImportBoundary.

(** *** Reports *)

Inductive ReasonType : Type :=
| ForbiddenImport
| ServerApi
| Transitive
| DataFetching.

Record Reason : Type := mkReason {
  type : ReasonType;
  importPath : string;
  resolvedPath : option string;
  atLine : option Z;
  message : string
}.

Inductive Purity : Type := Pure | Impure.

Record ImportBoundaryReport : Type := mkImportBoundaryReport {
  reportPath : string;
  isUiCandidate : bool;
  purity : Purity;
  score : Z;
  reasons : list Reason
}.

(** *** [Map<string, string>] and plain objects *)

Abbreviation FileContents := (list (string * string)).

(** [fileContents.get(key)] *)
Fixpoint mapGet (fileContents : FileContents) (key : string) : option string :=
  match fileContents with
  | [] => None
  | (k, v) :: rest => if String.eqb k key then Some v else mapGet rest key
  end.

(** [fileContents.has(key)] *)
Definition mapHas (fileContents : FileContents) (key : string) : bool :=
  match mapGet fileContents key with
  | Some _ => true
  | None => false
  end.

(** [obj[key] = value] on an object literal: the key [__proto__] reaches
    the prototype setter and adds no entry of the object's own. *)
Definition objSet {V : Type} (key : string) (value : V) (obj : gmap string V) : gmap string V :=
  if String.eqb key "__proto__" then obj else <[key := value]> obj.

Section ImportBoundaryAnalyzer.

Context (P : Platform).

(** *** Path alias resolution *)

Definition aliasRegExpSource (pattern : string) : string :=
  "^" +:+ Js.replaceStar pattern "(.+)" +:+ "$".

(** The [for] loop over [Object.entries(tsConfig.paths)]: [Returns (Some r)]
    when an iteration returns [r], [Returns None] when the loop ends. *)
Fixpoint aliasLoop (importPath : string) (tsConfig : TsConfigPaths) (projectRoot : string)
    (entries : list (string * list string)) : Exc (option string) :=
  match entries with
  | [] => Returns None
  | (pattern, replacements) :: rest =>
      let* matched := regExpMatch P (aliasRegExpSource pattern) importPath in
      match matched with
      | Some group1 =>
          match replacements with
          | replacement :: _ =>
              if Js.truthy replacement then
                let resolved := Js.replaceStar replacement (Js.orEmpty group1) in
                let base :=
                  match baseUrl tsConfig with
                  | Some b => if Js.truthy b then b else projectRoot
                  | None => projectRoot
                  end in
                Returns (Some (resolve P [projectRoot; base; resolved]))
              else aliasLoop importPath tsConfig projectRoot rest
          | [] => aliasLoop importPath tsConfig projectRoot rest
          end
      | None => aliasLoop importPath tsConfig projectRoot rest
      end
  end.

Definition resolvePathAlias (importPath : string) (tsConfig : TsConfigPaths)
    (projectRoot currentFileDir : string) : Exc (option string) :=
  let* aliased :=
    match paths tsConfig with
    | Some entries => aliasLoop importPath tsConfig projectRoot entries
    | None => Returns None
    end in
  match aliased with
  | Some resolved => Returns (Some resolved)
  | None =>
      if Js.startsWith importPath "." || Js.startsWith importPath "/" then
        if Js.startsWith importPath "/" then
          Returns (Some (resolve P [projectRoot; Js.slice1 importPath]))
        else Returns (Some (resolve P [currentFileDir; importPath]))
      else Returns None
  end.

Definition loadTsConfig (projectRoot : string) : TsConfigPaths :=
  let tsConfigPath := join P [projectRoot; "tsconfig.json"] in
  if negb (existsSync P tsConfigPath) then noTsConfig
  else
    match readTsConfig P tsConfigPath projectRoot with
    | Returns (Some options) => options
    | Returns None => noTsConfig
    | Throws => noTsConfig
    end.

(** *** Purity checking *)

Definition checkImportAgainstMatchers (importPath : string) (matchers : list string) : bool :=
  existsb
    (fun matcher =>
       if Js.endsWith matcher "/" then Js.startsWith importPath matcher
       else String.eqb importPath matcher || Js.startsWith importPath (matcher +:+ "/"))
    matchers.

Definition isBusinessDir (resolvedPath : option string) (businessDirMatchers : list string)
    : bool :=
  match resolvedPath with
  | None => false
  | Some resolvedPath =>
      if negb (Js.truthy resolvedPath) then false
      else
        existsb
          (fun matcher =>
             let normalizedPath := Js.backslashesToSlashes resolvedPath in
             Js.includes normalizedPath matcher)
          businessDirMatchers
  end.

Definition scriptKindOf (filePath : string) : ScriptKind :=
  if String.eqb (extname P filePath) ".tsx" || String.eqb (extname P filePath) ".jsx"
  then TSX else TS.

(** One iteration of the loop of [analyzeFileImports] over the reasons
    pushed so far. *)
Definition directStep (tsConfig : TsConfigPaths) (projectRoot currentFileDir : string)
    (purityConfig : PurityConfig) (reasons : list Reason) (imp : ImportInfo)
    : Exc (list Reason) :=
  if checkImportAgainstMatchers (path imp) (forbiddenImportMatchers purityConfig) then
    let* resolved := resolvePathAlias (path imp) tsConfig projectRoot currentFileDir in
    Returns (reasons ++
      [mkReason ForbiddenImport (path imp) (Js.orUndefined resolved) (Some (line imp))
         ("Forbidden import: " +:+ Js.dq +:+ path imp +:+ Js.dq)])
  else if checkImportAgainstMatchers (path imp) (nextServerImportMatchers purityConfig) then
    Returns (reasons ++
      [mkReason ServerApi (path imp) None (Some (line imp))
         ("Next.js server API: " +:+ Js.dq +:+ path imp +:+ Js.dq)])
  else
    let* resolved := resolvePathAlias (path imp) tsConfig projectRoot currentFileDir in
    if isBusinessDir resolved (businessDirMatchers purityConfig) then
      Returns (reasons ++
        [mkReason ForbiddenImport (path imp) (Js.orUndefined resolved) (Some (line imp))
           ("Business logic zone import: " +:+ Js.dq +:+ path imp +:+ Js.dq)])
    else Returns reasons.

(** [visited] is received and never consulted. *)
Definition analyzeFileImports (filePath : string) (fileContents : FileContents)
    (projectRoot : string) (tsConfig : TsConfigPaths) (purityConfig : PurityConfig)
    (visited : gset string) : list Reason :=
  match mapGet fileContents filePath with
  | None => []
  | Some content =>
      if negb (Js.truthy content) then []
      else
        let currentFileDir := dirname P filePath in
        match createSourceFile P filePath content (scriptKindOf filePath) with
        | Throws => []
        | Returns sourceFile =>
            tryForOf (directStep tsConfig projectRoot currentFileDir purityConfig)
              (extractImports sourceFile) []
        end
  end.

(** *** Transitive checking *)

Definition extensions : list string := [".ts"; ".tsx"; ".js"; ".jsx"].

Definition candidateFor (resolved ext : string) : string :=
  if Js.endsWith resolved ext then resolved else resolved +:+ ext.

(** The inner loop over [extensions]: [foundFile], and the candidates
    handed to [existsSync] on the way, in order. *)
Fixpoint probe (fileContents : FileContents) (resolved : string) (exts : list string)
    : option string * list string :=
  match exts with
  | [] => (None, [])
  | ext :: rest =>
      let candidate := candidateFor resolved ext in
      if existsSync P candidate && mapHas fileContents candidate then (Some candidate, [candidate])
      else
        let (foundFile, probed) := probe fileContents resolved rest in
        (foundFile, candidate :: probed)
  end.

Definition transitiveStep (fileContents : FileContents) (projectRoot : string)
    (tsConfig : TsConfigPaths) (purityConfig : PurityConfig) (visited : gset string)
    (currentFileDir : string) (reasons : list Reason) (imp : ImportInfo)
    : Exc (list Reason) :=
  if negb (Js.startsWith (path imp) ".") then Returns reasons
  else
    let* resolved := resolvePathAlias (path imp) tsConfig projectRoot currentFileDir in
    match resolved with
    | None => Returns reasons
    | Some resolved =>
        if negb (Js.truthy resolved) then Returns reasons
        else
          match fst (probe fileContents resolved extensions) with
          | None => Returns reasons
          | Some foundFile =>
              if negb (Js.truthy foundFile) then Returns reasons
              else
                let transitiveReasons :=
                  analyzeFileImports foundFile fileContents projectRoot tsConfig
                    purityConfig visited in
                if (0 <? Z.of_nat (length transitiveReasons)) then
                  Returns (reasons ++
                    [mkReason Transitive (path imp) (Some foundFile) None
                       ("Transitive dependency via " +:+ Js.dq +:+ path imp +:+ Js.dq
                        +:+ " imports business logic")])
                else Returns reasons
          end
    end.

(** The reasons returned, and [visited] as the call leaves it. *)
Definition checkTransitiveImports (filePath : string) (fileContents : FileContents)
    (projectRoot : string) (tsConfig : TsConfigPaths) (purityConfig : PurityConfig)
    (visited : gset string) : list Reason * gset string :=
  if bool_decide (filePath ∈ visited) then ([], visited)
  else
    let visited := {[filePath]} ∪ visited in
    match mapGet fileContents filePath with
    | None => ([], visited)
    | Some content =>
        if negb (Js.truthy content) then ([], visited)
        else
          let currentFileDir := dirname P filePath in
          match createSourceFile P filePath content (scriptKindOf filePath) with
          | Throws => ([], visited)
          | Returns sourceFile =>
              (tryForOf
                 (transitiveStep fileContents projectRoot tsConfig purityConfig visited
                    currentFileDir)
                 (extractImports sourceFile) [],
               visited)
          end
    end.

(** [transitiveStep] beside a log of the files handed to
    [analyzeFileImports], in the order of the calls. *)
Definition transitiveStepTraced (fileContents : FileContents) (projectRoot : string)
    (tsConfig : TsConfigPaths) (purityConfig : PurityConfig) (visited : gset string)
    (currentFileDir : string) (state : list Reason * list string) (imp : ImportInfo)
    : Exc (list Reason * list string) :=
  let '(reasons, analysed) := state in
  if negb (Js.startsWith (path imp) ".") then Returns (reasons, analysed)
  else
    let* resolved := resolvePathAlias (path imp) tsConfig projectRoot currentFileDir in
    match resolved with
    | None => Returns (reasons, analysed)
    | Some resolved =>
        if negb (Js.truthy resolved) then Returns (reasons, analysed)
        else
          match fst (probe fileContents resolved extensions) with
          | None => Returns (reasons, analysed)
          | Some foundFile =>
              if negb (Js.truthy foundFile) then Returns (reasons, analysed)
              else
                let transitiveReasons :=
                  analyzeFileImports foundFile fileContents projectRoot tsConfig
                    purityConfig visited in
                let analysed := analysed ++ [foundFile] in
                if (0 <? Z.of_nat (length transitiveReasons)) then
                  Returns (reasons ++
                    [mkReason Transitive (path imp) (Some foundFile) None
                       ("Transitive dependency via " +:+ Js.dq +:+ path imp +:+ Js.dq
                        +:+ " imports business logic")],
                    analysed)
                else Returns (reasons, analysed)
          end
    end.

(** [checkTransitiveImports] with that log as a third result. *)
Definition checkTransitiveImportsTraced (filePath : string) (fileContents : FileContents)
    (projectRoot : string) (tsConfig : TsConfigPaths) (purityConfig : PurityConfig)
    (visited : gset string) : list Reason * gset string * list string :=
  if bool_decide (filePath ∈ visited) then ([], visited, [])
  else
    let visited := {[filePath]} ∪ visited in
    match mapGet fileContents filePath with
    | None => ([], visited, [])
    | Some content =>
        if negb (Js.truthy content) then ([], visited, [])
        else
          let currentFileDir := dirname P filePath in
          match createSourceFile P filePath content (scriptKindOf filePath) with
          | Throws => ([], visited, [])
          | Returns sourceFile =>
              let '(reasons, analysed) :=
                tryForOf
                  (transitiveStepTraced fileContents projectRoot tsConfig purityConfig visited
                     currentFileDir)
                  (extractImports sourceFile) ([], []) in
              (reasons, visited, analysed)
          end
    end.

(** *** File analysis *)

Definition dataFetchingPatterns : list string := ["\bfetch\s*\("; "\baxios\."].

Definition weight (t : ReasonType) : Z :=
  match t with
  | ForbiddenImport => 30
  | ServerApi => 25
  | Transitive => 15
  | DataFetching => 10
  end.

Definition rawScore (reasons : list Reason) : Z :=
  fold_left (fun score reason => score + weight (type reason)) reasons 0.

Definition isUiCandidatePath (relativePath : string) (purityConfig : PurityConfig) : bool :=
  existsb
    (fun dir => Js.startsWith relativePath dir || Js.startsWith relativePath (dir +:+ "/"))
    (uiCandidateDirs purityConfig).

(** The reasons of [analyzeFile] before the score is computed. *)
Definition collectReasons (filePath content : string) (fileContents : FileContents)
    (projectRoot : string) (tsConfig : TsConfigPaths) (purityConfig : PurityConfig)
    : list Reason :=
  let visited : gset string := ∅ in
  let directReasons :=
    analyzeFileImports filePath fileContents projectRoot tsConfig purityConfig visited in
  let reasons := [] ++ directReasons in
  let '(transitiveReasons, _) :=
    checkTransitiveImports filePath fileContents projectRoot tsConfig purityConfig visited in
  let reasons := reasons ++ transitiveReasons in
  if existsb (fun pattern => regExpTest P pattern content) dataFetchingPatterns then
    reasons ++ [mkReason DataFetching "" None None "Data fetching detected (fetch/axios)"]
  else reasons.

Definition analyzeFile (filePath relativePath : string) (fileContents : FileContents)
    (projectRoot : string) (tsConfig : TsConfigPaths) (purityConfig : PurityConfig)
    : option ImportBoundaryReport :=
  if negb (isUiCandidatePath relativePath purityConfig) then None
  else
    match mapGet fileContents filePath with
    | None => None
    | Some content =>
        if negb (Js.truthy content) then None
        else
          let reasons :=
            collectReasons filePath content fileContents projectRoot tsConfig purityConfig in
          let score := Z.min 100 (rawScore reasons) in
          let purity := if 0 <? score then Impure else Pure in
          Some (mkImportBoundaryReport relativePath true purity score reasons)
    end.

(** *** Public API *)

Definition analyzeImportBoundaries (fileContents : FileContents) (projectRoot : string)
    (purityConfig : PurityConfig) : gmap string ImportBoundaryReport :=
  if negb (enabled purityConfig) then ∅
  else
    let tsConfig := loadTsConfig projectRoot in
    fold_left
      (fun reports '(filePath, _) =>
         let relativePath := relative P projectRoot filePath in
         match
           analyzeFile filePath relativePath fileContents projectRoot tsConfig purityConfig
         with
         | Some report => objSet relativePath report reports
         | None => reports
         end)
      fileContents ∅.

End ImportBoundaryAnalyzer.

End ImportBoundary.

(** ** The business-logic analyzer *)

Module BusinessLogic.

Record BusinessSignals : Type := mkBusinessSignals {
  apiCalls : Z;
  useStateCount : Z;
  useEffectCount : Z;
  fileUploads : bool;
  authFlows : bool;
  formHandling : bool
}.

Record Ceilings : Type := mkCeilings {
  maxApiCalls : Z;
  maxStateHooks : Z;
  maxEffects : Z
}.

Record RiskThresholds : Type := mkRiskThresholds {
  safe : Ceilings;
  careful : Ceilings
}.

Inductive RiskLevel : Type := Safe | Careful | PageLevel.

Record Complexity : Type := mkComplexity {
  riskLevel : RiskLevel;
  score : Z;
  signals : list string
}.

(** *** Native HTML element detection *)

Definition nativePattern (element : string) : string :=
  "<" +:+ element +:+ "(?:[\s/>]|$)".

(** The loop filling [counts]; nothing catches what [new RegExp] throws. *)
Fixpoint countElements (P : Platform) (content : string) (elements : list string)
    (counts : gmap string Z) : Exc (gmap string Z) :=
  match elements with
  | [] => Returns counts
  | element :: rest =>
      let* matches := regExpMatchAll P (nativePattern element) content in
      countElements P content rest
        (ImportBoundary.objSet element (Z.of_nat (length matches)) counts)
  end.

(** [Object.values(counts).reduce((sum, count) => sum + count, 0)] *)
Definition sumValues (counts : gmap string Z) : Z :=
  map_fold (fun _ count sum => sum + count) 0 counts.

(** The record [{ ...counts, total }]. *)
Definition detectNativeHtmlElements (P : Platform) (content : string)
    (elements : list string) : Exc (gmap string Z) :=
  let* counts := countElements P content elements ∅ in
  let total := sumValues counts in
  Returns (<["total" := total]> counts).

(** *** Risk assessment *)

Definition plural (n : Z) : string := if 1 <? n then "s" else "".

(** The weighted score and the detected signals, before the tier is
    decided. *)
Definition riskFactors (signals : BusinessSignals) (nativeHtmlCount fileLines : Z)
    : Z * list string :=
  let detectedSignals : list string := [] in
  let score := 0 in
  let '(score, detectedSignals) :=
    if 0 <? apiCalls signals then
      (score + apiCalls signals * 15,
       detectedSignals ++
         [Js.numberToString (apiCalls signals) +:+ " API call" +:+ plural (apiCalls signals)])
    else (score, detectedSignals) in
  let '(score, detectedSignals) :=
    if 0 <? useStateCount signals then
      (score + useStateCount signals * 5,
       detectedSignals ++
         [Js.numberToString (useStateCount signals) +:+ " useState hook"
          +:+ plural (useStateCount signals)])
    else (score, detectedSignals) in
  let '(score, detectedSignals) :=
    if 0 <? useEffectCount signals then
      (score + useEffectCount signals * 10,
       detectedSignals ++
         [Js.numberToString (useEffectCount signals) +:+ " useEffect hook"
          +:+ plural (useEffectCount signals)])
    else (score, detectedSignals) in
  let '(score, detectedSignals) :=
    if fileUploads signals then (score + 25, detectedSignals ++ ["File uploads"])
    else (score, detectedSignals) in
  let '(score, detectedSignals) :=
    if authFlows signals then (score + 30, detectedSignals ++ ["Auth flows"])
    else (score, detectedSignals) in
  let '(score, detectedSignals) :=
    if formHandling signals then (score + 10, detectedSignals ++ ["Form handling"])
    else (score, detectedSignals) in
  let '(score, detectedSignals) :=
    if 0 <? nativeHtmlCount then
      (score + nativeHtmlCount * 2,
       detectedSignals ++
         [Js.numberToString nativeHtmlCount +:+ " native HTML element"
          +:+ plural nativeHtmlCount])
    else (score, detectedSignals) in
  if 300 <? fileLines then
    (score + 10,
     detectedSignals ++ ["Large file (" +:+ Js.numberToString fileLines +:+ " lines)"])
  else (score, detectedSignals).

Definition assessRisk (signals : BusinessSignals) (nativeHtmlCount fileLines : Z)
    (thresholds : RiskThresholds) : Complexity :=
  let '(score, detectedSignals) := riskFactors signals nativeHtmlCount fileLines in
  let riskLevel :=
    if (maxApiCalls (careful thresholds) <? apiCalls signals)
       || (maxStateHooks (careful thresholds) <? useStateCount signals)
       || (maxEffects (careful thresholds) <? useEffectCount signals)
       || fileUploads signals
       || authFlows signals
       || (50 <=? score)
    then PageLevel
    else if (maxApiCalls (safe thresholds) <? apiCalls signals)
       || (maxStateHooks (safe thresholds) <? useStateCount signals)
       || (maxEffects (safe thresholds) <? useEffectCount signals)
       || (0 <? nativeHtmlCount)
       || (20 <=? score)
    then Careful
    else Safe in
  mkComplexity riskLevel (Z.min 100 score) detectedSignals.

(** *** Business logic signal detection *)

(** [content.match(/source/g)] for a regular expression literal, counted
    as [matches ? matches.length : 0]; a literal is a valid expression, so
    the engine has nothing to throw. *)
Definition matchCount (P : Platform) (source content : string) : Z :=
  match regExpMatchAll P source content with
  | Returns matches => Z.of_nat (length matches)
  | Throws => 0
  end.

Definition apiPatterns : list string :=
  ["\bfetch\s*\("; "\bsupabase\."; "\baxios\."; "\bapi\.";
   "\.get\(|\.post\(|\.put\(|\.delete\("].

Definition fileUploadPatterns : list string :=
  ["\bFileReader\b"; "\bFormData\b";
   "type=[" +:+ Js.dq +:+ "']file[" +:+ Js.dq +:+ "']";
   "\.upload\s*\(";
   "input\s+type=[" +:+ Js.dq +:+ "']file[" +:+ Js.dq +:+ "']"].

Definition authPatterns : list string :=
  ["\bsignIn\s*\("; "\bsignUp\s*\("; "\bsignOut\s*\("; "\bgetUser\s*\(";
   "\bgetSession\s*\("; "\bauth\."].

Definition formPatterns : list string :=
  ["\bonSubmit\s*="; "\bhandleSubmit\s*\("; "\bvalidate\s*\("; "<form"].

Definition detectBusinessLogicSignals (P : Platform) (content : string) : BusinessSignals :=
  let apiCalls :=
    fold_left (fun apiCalls pattern => apiCalls + matchCount P pattern content) apiPatterns 0 in
  let useStateCount := matchCount P "\buseState\s*\(" content in
  let useEffectCount := matchCount P "\buseEffect\s*\(" content in
  let fileUploads := existsb (fun pattern => regExpTest P pattern content) fileUploadPatterns in
  let authFlows := existsb (fun pattern => regExpTest P pattern content) authPatterns in
  let formHandling := existsb (fun pattern => regExpTest P pattern content) formPatterns in
  mkBusinessSignals apiCalls useStateCount useEffectCount fileUploads authFlows formHandling.

(** *** File analysis *)

Module Config.

Record NativeHtmlElements : Type := mkNativeHtmlElements {
  enabled : bool;
  elements : list string
}.

End Config.

Record BusinessLogicAnalysisConfig : Type := mkBusinessLogicAnalysisConfig {
  enabled : bool;
  excludeDirectories : list string;
  nativeHtmlElements : Config.NativeHtmlElements;
  riskThresholds : RiskThresholds
}.

Record SuggestedRefactor : Type := mkSuggestedRefactor {
  category : RiskLevel;
  rationale : string;
  suggestedActions : list string
}.

Record BusinessLogicReport : Type := mkBusinessLogicReport {
  path : string;
  nativeHtmlCounts : gmap string Z;
  businessLogicSignals : BusinessSignals;
  complexity : Complexity;
  suggestedRefactor : SuggestedRefactor
}.

(** [nativeHtmlElements.total]; both records the analyzer builds have the
    key. *)
Definition totalOf (nativeHtmlElements : gmap string Z) : Z :=
  default 0 (nativeHtmlElements !! "total").

(** [content.split("\n").length] *)
Fixpoint lineCount (content : string) : Z :=
  match content with
  | EmptyString => 1
  | String c rest => (if Ascii.eqb c "010" then 1 else 0) + lineCount rest
  end.

Definition actionsFor (riskLevel : RiskLevel) : list string :=
  match riskLevel with
  | Safe => ["Direct UI swap — replace native elements with design system components"]
  | Careful =>
      ["Extract business logic to custom hook/service first";
       "Then replace UI elements incrementally";
       "Test thoroughly after each step"]
  | PageLevel =>
      ["Extract business logic to hooks (one hook per feature)";
       "Replace form elements incrementally (one section at a time)";
       "Test after each section";
       "Consider splitting into sub-components";
       "Propose plan first, never auto-apply"]
  end.

Definition rationaleFor (riskLevel : RiskLevel) : string :=
  match riskLevel with
  | Safe => "Pure presentational component with minimal logic"
  | Careful => "Contains API calls or state management that needs careful extraction"
  | PageLevel => "Complex flows with multiple APIs, critical business logic, or high complexity"
  end.

(** [Throws] is what [detectNativeHtmlElements] throws; nothing here
    catches it. *)
Definition analyzeFile (P : Platform) (content relativePath : string)
    (config : BusinessLogicAnalysisConfig) : Exc (option BusinessLogicReport) :=
  let shouldExclude :=
    existsb (fun dir => Js.startsWith relativePath dir) (excludeDirectories config) in
  if shouldExclude then Returns None
  else
    let* nativeHtmlElements :=
      if Config.enabled (nativeHtmlElements config)
      then detectNativeHtmlElements P content (Config.elements (nativeHtmlElements config))
      else Returns {["total" := 0]} in
    let businessLogicSignals := detectBusinessLogicSignals P content in
    let fileLines := lineCount content in
    let complexity :=
      assessRisk businessLogicSignals (totalOf nativeHtmlElements) fileLines
        (riskThresholds config) in
    let suggestedActions := actionsFor (riskLevel complexity) in
    let rationale := rationaleFor (riskLevel complexity) in
    Returns (Some (mkBusinessLogicReport relativePath nativeHtmlElements businessLogicSignals
                     complexity
                     (mkSuggestedRefactor (riskLevel complexity) rationale suggestedActions))).

(** *** Public API *)

(** The loop of [analyzeBusinessLogic] over the entries of the content
    mapping. *)
Fixpoint reportLoop (P : Platform) (scanDir : string) (config : BusinessLogicAnalysisConfig)
    (entries : list (string * string)) (reports : gmap string BusinessLogicReport)
    : Exc (gmap string BusinessLogicReport) :=
  match entries with
  | [] => Returns reports
  | (filePath, content) :: rest =>
      let relativePath := relative P scanDir filePath in
      let* report := analyzeFile P content relativePath config in
      match report with
      | Some report =>
          reportLoop P scanDir config rest (ImportBoundary.objSet relativePath report reports)
      | None => reportLoop P scanDir config rest reports
      end
  end.

(** [fileReports] is received and never read. *)
Definition analyzeBusinessLogic {FileReport : Type} (P : Platform)
    (fileReports : list FileReport) (fileContents : list (string * string))
    (scanDir : string) (config : BusinessLogicAnalysisConfig)
    : Exc (gmap string BusinessLogicReport) :=
  if negb (enabled config) then Returns ∅
  else reportLoop P scanDir config fileContents ∅.

End BusinessLogic.

(** ** A POSIX platform to evaluate the analyzers on *)

Module Posix.

(** The segments between the slashes of a path. *)
Fixpoint splitSlash (s : string) : list string :=
  match s with
  | EmptyString => [EmptyString]
  | String c rest =>
      if Ascii.eqb c "/" then EmptyString :: splitSlash rest
      else
        match splitSlash rest with
        | seg :: segs => String c seg :: segs
        | [] => [String c EmptyString]
        end
  end.

Definition joinSlash (segs : list string) : string := String.concat "/" segs.

(** [normalizeString] of node:path, on segments; [stack] holds the
    segments kept so far, last one first. *)
Fixpoint normalizeSegments (allowAboveRoot : bool) (segs stack : list string) : list string :=
  match segs with
  | [] => rev stack
  | seg :: rest =>
      if String.eqb seg "" || String.eqb seg "." then normalizeSegments allowAboveRoot rest stack
      else if String.eqb seg ".." then
        match stack with
        | top :: stack' =>
            if String.eqb top ".." then
              normalizeSegments allowAboveRoot rest (if allowAboveRoot then ".." :: stack else stack)
            else normalizeSegments allowAboveRoot rest stack'
        | [] => normalizeSegments allowAboveRoot rest (if allowAboveRoot then [".."] else [])
        end
      else normalizeSegments allowAboveRoot rest (seg :: stack)
  end.

Definition normalizeString (p : string) (allowAboveRoot : bool) : string :=
  joinSlash (normalizeSegments allowAboveRoot (splitSlash p) []).

(** The right-to-left loop of [path.resolve] over its arguments, the
    working directory last. *)
Fixpoint resolveLoop (reversed : list string) (resolvedPath : string) : string * bool :=
  match reversed with
  | [] => (resolvedPath, false)
  | p :: rest =>
      if String.eqb p "" then resolveLoop rest resolvedPath
      else
        let resolvedPath := p +:+ "/" +:+ resolvedPath in
        if Js.startsWith p "/" then (resolvedPath, true) else resolveLoop rest resolvedPath
  end.

Definition resolve (cwd : string) (segments : list string) : string :=
  let '(resolvedPath, resolvedAbsolute) := resolveLoop (rev segments ++ [cwd]) "" in
  let normalized := normalizeString resolvedPath (negb resolvedAbsolute) in
  if resolvedAbsolute then String "/" normalized
  else if Js.truthy normalized then normalized else ".".

Definition normalize (p : string) : string :=
  if String.eqb p "" then "."
  else
    let isAbsolute := Js.startsWith p "/" in
    let trailingSeparator := Js.endsWith p "/" in
    let normalized := normalizeString p (negb isAbsolute) in
    if String.eqb normalized "" then
      if isAbsolute then "/" else if trailingSeparator then "./" else "."
    else
      let normalized := if trailingSeparator then normalized +:+ "/" else normalized in
      if isAbsolute then String "/" normalized else normalized.

Definition join (segments : list string) : string :=
  match List.filter Js.truthy segments with
  | [] => "."
  | parts => normalize (joinSlash parts)
  end.

(** The scan of [path.dirname] from the last character down to index 1. *)
Fixpoint dirnameScan (reversed : list ascii) (i : nat) (matchedSlash : bool) : option nat :=
  match reversed with
  | [] => None
  | [_] => None
  | c :: rest =>
      if Ascii.eqb c "/" then
        if matchedSlash then dirnameScan rest (i - 1) true else Some i
      else dirnameScan rest (i - 1) false
  end.

Definition dirname (p : string) : string :=
  if String.eqb p "" then "."
  else
    let hasRoot := Js.startsWith p "/" in
    match dirnameScan (rev (list_ascii_of_string p)) (String.length p - 1) true with
    | None => if hasRoot then "/" else "."
    | Some e => if hasRoot && (e =? 1)%nat then "//" else String.substring 0 e p
    end.

Fixpoint lastDot (s : string) (i : nat) (found : option nat) : option nat :=
  match s with
  | EmptyString => found
  | String c rest => lastDot rest (S i) (if Ascii.eqb c "." then Some i else found)
  end.

Definition extname (p : string) : string :=
  let base := List.last (List.filter Js.truthy (splitSlash p)) "" in
  if String.eqb base ".." then ""
  else
    match lastDot base 0 None with
    | None => ""
    | Some O => ""
    | Some i => String.substring i (String.length base - i) base
    end.

Fixpoint dropCommon (xs ys : list string) : list string * list string :=
  match xs, ys with
  | x :: xs', y :: ys' => if String.eqb x y then dropCommon xs' ys' else (xs, ys)
  | _, _ => (xs, ys)
  end.

Definition relative (cwd from to : string) : string :=
  let segmentsOf p := List.filter Js.truthy (splitSlash (resolve cwd [p])) in
  let '(up, down) := dropCommon (segmentsOf from) (segmentsOf to) in
  joinSlash (map (fun _ => "..") up ++ down).

End Posix.

(** A regular-expression engine for the sources the analyzers build or
    write down: literal characters, [.], [^], [$], [\b], [\s*], the
    escapes [\.] and [\(], the group [(.+)] and the tail [(?:[\s/>]|$)].
    Any other use of a metacharacter is reported as a syntax error. *)

Module MiniRegExp.

Inductive Token : Type :=
| TChar (c : ascii)
| TAny
| TBol
| TEol
| TWordBoundary
| TSpaces
| TGroupAnyPlus
| TDelimiterOrEnd.

Definition isLineTerminator (c : ascii) : bool :=
  Ascii.eqb c "010" || Ascii.eqb c "013".

Definition isSpace (c : ascii) : bool :=
  let n := nat_of_ascii c in
  ((9 <=? n) && (n <=? 13))%nat || (n =? 32)%nat || (n =? 160)%nat.

Definition isWordChar (c : ascii) : bool :=
  let n := nat_of_ascii c in
  (((48 <=? n) && (n <=? 57)) || ((65 <=? n) && (n <=? 90))
   || ((97 <=? n) && (n <=? 122)) || (n =? 95))%nat.

Definition isMeta (c : ascii) : bool :=
  existsb (Ascii.eqb c) (list_ascii_of_string "\*+?()[]{}|").

(** The token at the head of [s] and the number of characters it spans. *)
Definition tokenAt (s : string) : option (Token * nat) :=
  if String.prefix "(.+)" s then Some (TGroupAnyPlus, 4%nat)
  else if String.prefix "(?:[\s/>]|$)" s then Some (TDelimiterOrEnd, 12%nat)
  else if String.prefix "\b" s then Some (TWordBoundary, 2%nat)
  else if String.prefix "\s*" s then Some (TSpaces, 3%nat)
  else if String.prefix "\." s then Some (TChar ".", 2%nat)
  else if String.prefix "\(" s then Some (TChar "(", 2%nat)
  else
    match s with
    | EmptyString => None
    | String c _ =>
        if Ascii.eqb c "^" then Some (TBol, 1%nat)
        else if Ascii.eqb c "$" then Some (TEol, 1%nat)
        else if Ascii.eqb c "." then Some (TAny, 1%nat)
        else if isMeta c then None
        else Some (TChar c, 1%nat)
    end.

Fixpoint tokenize (skip : nat) (s : string) : option (list Token) :=
  match s with
  | EmptyString => Some []
  | String _ rest =>
      match skip with
      | S n => tokenize n rest
      | O =>
          match tokenAt s with
          | None => None
          | Some (t, width) =>
              match tokenize (width - 1) rest with
              | Some ts => Some (t :: ts)
              | None => None
              end
          end
      end
  end.

(** A match in progress: the character before the position, what is left
    of the subject, and the text of the first group once it is closed. *)
Definition Continuation : Type := option ascii -> string -> option string -> option (string * option string).

(** [.+], longest first, then the rest of the pattern. *)
Fixpoint anyPlus (k : Continuation) (rest : string) (taken : string) (group1 : option string)
    : option (string * option string) :=
  match rest with
  | EmptyString => None
  | String c rest' =>
      if isLineTerminator c then None
      else
        let taken := taken +:+ String c EmptyString in
        match anyPlus k rest' taken group1 with
        | Some r => Some r
        | None => k (Some c) rest' (match group1 with Some g => Some g | None => Some taken end)
        end
  end.

(** [\s*], longest first, then the rest of the pattern. *)
Fixpoint spaces (k : Continuation) (prev : option ascii) (rest : string) (group1 : option string)
    : option (string * option string) :=
  match rest with
  | EmptyString => k prev rest group1
  | String c rest' =>
      if isSpace c then
        match spaces k (Some c) rest' group1 with
        | Some r => Some r
        | None => k prev rest group1
        end
      else k prev rest group1
  end.

Definition atWordBoundary (prev : option ascii) (rest : string) : bool :=
  let before := match prev with Some c => isWordChar c | None => false end in
  let after := match rest with String c _ => isWordChar c | EmptyString => false end in
  xorb before after.

(** The tokens matched at the current position: what is left of the
    subject after the match, and the first group. *)
Fixpoint matchHere (tokens : list Token) (prev : option ascii) (rest : string)
    (group1 : option string) : option (string * option string) :=
  match tokens with
  | [] => Some (rest, group1)
  | TChar c :: ts =>
      match rest with
      | String d rest' => if Ascii.eqb c d then matchHere ts (Some d) rest' group1 else None
      | EmptyString => None
      end
  | TAny :: ts =>
      match rest with
      | String d rest' => if isLineTerminator d then None else matchHere ts (Some d) rest' group1
      | EmptyString => None
      end
  | TBol :: ts => match prev with None => matchHere ts prev rest group1 | Some _ => None end
  | TEol :: ts =>
      match rest with EmptyString => matchHere ts prev rest group1 | String _ _ => None end
  | TWordBoundary :: ts =>
      if atWordBoundary prev rest then matchHere ts prev rest group1 else None
  | TSpaces :: ts => spaces (matchHere ts) prev rest group1
  | TGroupAnyPlus :: ts => anyPlus (matchHere ts) rest "" group1
  | TDelimiterOrEnd :: ts =>
      match rest with
      | String d rest' =>
          if isSpace d || Ascii.eqb d "/" || Ascii.eqb d ">" then matchHere ts (Some d) rest' group1
          else None
      | EmptyString => matchHere ts prev rest group1
      end
  end.

(** The leftmost match: its start as the remaining subject, the subject
    after it, and the first group. *)
Fixpoint search (tokens : list Token) (prev : option ascii) (rest : string)
    : option (string * string * option string) :=
  match matchHere tokens prev rest None with
  | Some (after, group1) => Some (rest, after, group1)
  | None =>
      match rest with
      | EmptyString => None
      | String c rest' => search tokens (Some c) rest'
      end
  end.

Definition lastChar (s : string) : option ascii :=
  match rev (list_ascii_of_string s) with
  | c :: _ => Some c
  | [] => None
  end.

(** All the matches of a global expression, left to right without
    overlap; an empty match moves on by one character. *)
Fixpoint searchAll (fuel : nat) (tokens : list Token) (prev : option ascii) (rest : string)
    : list string :=
  match fuel with
  | O => []
  | S fuel' =>
      match search tokens prev rest with
      | None => []
      | Some (start, after, _) =>
          let matched := String.substring 0 (String.length start - String.length after) start in
          if String.eqb matched "" then
            match after with
            | EmptyString => [matched]
            | String c after' => matched :: searchAll fuel' tokens (Some c) after'
            end
          else matched :: searchAll fuel' tokens (lastChar matched) after
      end
  end.

Definition regExpMatch (source subject : string) : Exc (option (option string)) :=
  match tokenize 0 source with
  | None => Throws
  | Some tokens =>
      match search tokens None subject with
      | Some (_, _, group1) => Returns (Some group1)
      | None => Returns None
      end
  end.

Definition regExpMatchAll (source subject : string) : Exc (list string) :=
  match tokenize 0 source with
  | None => Throws
  | Some tokens => Returns (searchAll (S (String.length subject)) tokens None subject)
  end.

Definition regExpTest (source subject : string) : bool :=
  match regExpMatch source subject with
  | Returns (Some _) => true
  | _ => false
  end.

End MiniRegExp.

(** A parser for the sources of the examples: every import declaration
    stands on a line of its own, with its specifier between apostrophes;
    the other lines hold no import. *)

Module MiniParser.

Fixpoint splitLines (s : string) : list string :=
  match s with
  | EmptyString => [EmptyString]
  | String c rest =>
      if Ascii.eqb c "010" then EmptyString :: splitLines rest
      else
        match splitLines rest with
        | l :: ls => String c l :: ls
        | [] => [String c EmptyString]
        end
  end.

Fixpoint upToApostrophe (s : string) : option string :=
  match s with
  | EmptyString => None
  | String c rest =>
      if Ascii.eqb c "'" then Some EmptyString
      else
        match upToApostrophe rest with
        | Some t => Some (String c t)
        | None => None
        end
  end.

Fixpoint quoted (s : string) : option string :=
  match s with
  | EmptyString => None
  | String c rest => if Ascii.eqb c "'" then upToApostrophe rest else quoted rest
  end.

Fixpoint statements (lines : list string) (line0 : Z) : list Node :=
  match lines with
  | [] => []
  | l :: ls =>
      (if String.prefix "import " l then
         match quoted l with
         | Some text => ImportDeclaration line0 (Some (StringLiteral text)) []
         | None => OtherNode []
         end
       else OtherNode [])
      :: statements ls (line0 + 1)
  end.

Definition createSourceFile (fileName text : string) (kind : ScriptKind) : Exc Node :=
  Returns (OtherNode (statements (splitLines text) 0)).

End MiniParser.

Module Demo.

Definition cwd : string := "/work".

(** The platform of a machine whose disk holds the files [disk] and whose
    project has the alias table [tsconfig], if any. *)
Definition platform (disk : list string) (tsconfig : option TsConfigPaths) : Platform :=
  {| resolve := Posix.resolve cwd;
     join := Posix.join;
     dirname := Posix.dirname;
     extname := Posix.extname;
     relative := Posix.relative cwd;
     existsSync := fun p => existsb (String.eqb p) disk;
     regExpMatch := MiniRegExp.regExpMatch;
     regExpMatchAll := MiniRegExp.regExpMatchAll;
     regExpTest := MiniRegExp.regExpTest;
     createSourceFile := MiniParser.createSourceFile;
     readTsConfig := fun _ _ => Returns tsconfig |}.

End Demo.

(** ** Inputs for the examples *)

Module Examples.

Import ImportBoundary.

Definition nl : string := String "010" "".

(** A project under [/p] whose UI directory is [ui]. *)
Definition purityConfig : PurityConfig :=
  mkPurityConfig true ["ui"] ["@/lib/"; "@/db/"] ["next/headers"; "next/cache"] ["lib/"; "db/"].

Definition disk : list string :=
  ["/p/ui/card.tsx"; "/p/ui/helper.ts"; "/p/ui/a.ts"; "/p/ui/b.ts"; "/p/ui/empty.tsx";
   "/p/other/x.ts"].

Definition node : Platform := Demo.platform disk None.

(** [card.tsx] imports business logic itself and through [./helper];
    [a.ts] and [b.ts] import each other; [empty.tsx] has no text. *)
Definition fileContents : FileContents :=
  [("/p/ui/card.tsx",
    "import { db } from '@/lib/db';" +:+ nl +:+ "import { fmt } from './helper';");
   ("/p/ui/helper.ts", "import { q } from '@/db/client';");
   ("/p/ui/a.ts", "import { b } from './b';");
   ("/p/ui/b.ts", "import { a } from './a';");
   ("/p/ui/empty.tsx", "");
   ("/p/other/x.ts", "import { q } from '@/lib/query';")].

Definition aliases : TsConfigPaths :=
  mkTsConfigPaths (Some "/p") (Some [("@/*", ["src/*"])]).

(** An alias table whose first entry has no replacement. *)
Definition aliasesWithGap : TsConfigPaths :=
  mkTsConfigPaths (Some "/p") (Some [("@/*", []); ("@/lib/*", ["src/lib/*"])]).

Definition thresholds : BusinessLogic.RiskThresholds :=
  BusinessLogic.mkRiskThresholds (BusinessLogic.mkCeilings 0 3 1) (BusinessLogic.mkCeilings 3 6 3).

Definition noSignals : BusinessLogic.BusinessSignals :=
  BusinessLogic.mkBusinessSignals 0 0 0 false false false.

(** An alias table whose first key is no regular expression. *)
Definition brokenAliases : TsConfigPaths :=
  mkTsConfigPaths (Some "/p") (Some [("c++/*", ["native/*"]); ("@/*", ["src/*"])]).

Definition riskConfig : BusinessLogic.BusinessLogicAnalysisConfig :=
  BusinessLogic.mkBusinessLogicAnalysisConfig true ["node_modules/"; "dist/"]
    (BusinessLogic.Config.mkNativeHtmlElements true ["button"; "input"; "div"]) thresholds.

(** The same with an element name that is no regular expression. *)
Definition brokenRiskConfig : BusinessLogic.BusinessLogicAnalysisConfig :=
  BusinessLogic.mkBusinessLogicAnalysisConfig true ["node_modules/"; "dist/"]
    (BusinessLogic.Config.mkNativeHtmlElements true ["button"; "h(1"]) thresholds.

(** The same machine with a parser that throws on every file. *)
Definition nodeWithFailingParser : Platform :=
  mkPlatform (resolve node) (join node) (dirname node) (extname node) (relative node)
    (existsSync node) (regExpMatch node) (regExpMatchAll node) (regExpTest node)
    (fun _ _ _ => Throws) (readTsConfig node).

(** [twice.tsx] imports [./helper] on two lines. *)
Definition twiceContents : FileContents :=
  [("/p/ui/twice.tsx",
    "import { fmt } from './helper';" +:+ nl +:+ "import type { Fmt } from './helper';");
   ("/p/ui/helper.ts", "import { q } from '@/db/client';")].

(** A machine whose project has a [tsconfig.json] with the given alias
    table. *)
Definition nodeWithTsConfig (tsConfig : TsConfigPaths) : Platform :=
  Demo.platform ("/p/tsconfig.json" :: "/p/ui/x.tsx" :: disk) (Some tsConfig).

(** [x.tsx] imports from two forbidden zones. *)
Definition forbiddenContents : FileContents :=
  [("/p/ui/x.tsx", "import a from '@/lib/a';" +:+ nl +:+ "import b from '@/db/b';")].

End Examples.

(** ** The vocabulary of the specification *)

Module Spec.

Import ImportBoundary.

Definition reasonTypeEqb (a b : ReasonType) : bool :=
  match a, b with
  | ForbiddenImport, ForbiddenImport
  | ServerApi, ServerApi
  | Transitive, Transitive
  | DataFetching, DataFetching => true
  | _, _ => false
  end.

(** How many reasons of a list have the given type. *)
Definition countOfType (t : ReasonType) (reasons : list Reason) : Z :=
  Z.of_nat (length (List.filter (fun r => reasonTypeEqb (type r) t) reasons)).

(** The sum of the per-reason weights, 30/25/15/10. *)
Definition weightSum (reasons : list Reason) : Z :=
  30 * countOfType ForbiddenImport reasons + 25 * countOfType ServerApi reasons
  + 15 * countOfType Transitive reasons + 10 * countOfType DataFetching reasons.

(** Some reason of the list has the given type. *)
Definition carries (t : ReasonType) (reasons : list Reason) : Prop :=
  exists r, In r reasons /\ type r = t.

(** The weighted score of the risk analyzer: 15 per API call, 5 and 10 per
    occurrence of the two hooks, 25, 30 and 10 flat for uploads, auth
    flows and form handling, 2 per native element, 10 flat above 300 lines. *)
Definition weightedScore (signals : BusinessLogic.BusinessSignals)
    (nativeHtmlCount fileLines : Z) : Z :=
  15 * BusinessLogic.apiCalls signals
  + 5 * BusinessLogic.useStateCount signals
  + 10 * BusinessLogic.useEffectCount signals
  + (if BusinessLogic.fileUploads signals then 25 else 0)
  + (if BusinessLogic.authFlows signals then 30 else 0)
  + (if BusinessLogic.formHandling signals then 10 else 0)
  + 2 * nativeHtmlCount
  + (if 300 <? fileLines then 10 else 0).

(** The conditions of the two upper risk tiers. *)
Definition pageLevelCondition (signals : BusinessLogic.BusinessSignals)
    (nativeHtmlCount fileLines : Z) (thresholds : BusinessLogic.RiskThresholds) : Prop :=
  BusinessLogic.maxApiCalls (BusinessLogic.careful thresholds) < BusinessLogic.apiCalls signals
  \/ BusinessLogic.maxStateHooks (BusinessLogic.careful thresholds)
       < BusinessLogic.useStateCount signals
  \/ BusinessLogic.maxEffects (BusinessLogic.careful thresholds)
       < BusinessLogic.useEffectCount signals
  \/ BusinessLogic.fileUploads signals = true
  \/ BusinessLogic.authFlows signals = true
  \/ 50 <= weightedScore signals nativeHtmlCount fileLines.

Definition carefulCondition (signals : BusinessLogic.BusinessSignals)
    (nativeHtmlCount fileLines : Z) (thresholds : BusinessLogic.RiskThresholds) : Prop :=
  BusinessLogic.maxApiCalls (BusinessLogic.safe thresholds) < BusinessLogic.apiCalls signals
  \/ BusinessLogic.maxStateHooks (BusinessLogic.safe thresholds)
       < BusinessLogic.useStateCount signals
  \/ BusinessLogic.maxEffects (BusinessLogic.safe thresholds)
       < BusinessLogic.useEffectCount signals
  \/ 1 <= nativeHtmlCount
  \/ 20 <= weightedScore signals nativeHtmlCount fileLines.

(** The first replacement of an alias entry, when the resolver can use it. *)
Definition replacementOf (entry : string * list string) : option string :=
  match snd entry with
  | replacement :: _ => if Js.truthy replacement then Some replacement else None
  | [] => None
  end.

(** The pattern of the entry matches the specifier, with the wildcard
    capture [group1]. *)
Definition matchesWith (P : Platform) (importPath : string) (entry : string * list string)
    (group1 : option string) : Prop :=
  regExpMatch P (aliasRegExpSource (fst entry)) importPath = Returns (Some group1).

(** An entry the resolver passes over: its pattern does not match the
    specifier, or it matches and there is no replacement to use. *)
Definition passedOver (P : Platform) (importPath : string) (entry : string * list string)
    : Prop :=
  regExpMatch P (aliasRegExpSource (fst entry)) importPath = Returns None
  \/ (exists group1, matchesWith P importPath entry group1 /\ replacementOf entry = None).

(** The configured base directory, or the project root if unset. *)
Definition baseOf (tsConfig : TsConfigPaths) (projectRoot : string) : string :=
  match baseUrl tsConfig with
  | Some b => if Js.truthy b then b else projectRoot
  | None => projectRoot
  end.

(** How often the pattern of a native element matches in the content. *)
Definition occurrences (P : Platform) (content element : string) : Z :=
  match regExpMatchAll P (BusinessLogic.nativePattern element) content with
  | Returns matches => Z.of_nat (length matches)
  | Throws => 0
  end.


(** The number of nodes of a syntax tree. *)
Fixpoint nodeCount (node : Node) : nat :=
  let countAll :=
    fix countAll (cs : list Node) : nat :=
      match cs with
      | [] => O
      | child :: cs' => (nodeCount child + countAll cs')%nat
      end in
  match node with
  | ImportDeclaration _ _ cs => S (countAll cs)
  | CallExpression _ _ _ cs => S (countAll cs)
  | OtherNode cs => S (countAll cs)
  end.

(** What a matcher accepts: with a trailing slash, every specifier it is
    a prefix of; without, itself and what continues it after a slash. *)
Definition matcherAccepts (matcher importPath : string) : Prop :=
  if Js.endsWith matcher "/" then exists rest, importPath = matcher +:+ rest
  else importPath = matcher \/ exists rest, importPath = matcher +:+ "/" +:+ rest.

(** The risk tiers in increasing order. *)
Definition tierRank (tier : BusinessLogic.RiskLevel) : Z :=
  match tier with
  | BusinessLogic.Safe => 0
  | BusinessLogic.Careful => 1
  | BusinessLogic.PageLevel => 2
  end.

(** One signal configuration has at least the signals of another. *)
Definition signalsLe (a b : BusinessLogic.BusinessSignals) : Prop :=
  BusinessLogic.apiCalls a <= BusinessLogic.apiCalls b
  /\ BusinessLogic.useStateCount a <= BusinessLogic.useStateCount b
  /\ BusinessLogic.useEffectCount a <= BusinessLogic.useEffectCount b
  /\ (BusinessLogic.fileUploads a = true -> BusinessLogic.fileUploads b = true)
  /\ (BusinessLogic.authFlows a = true -> BusinessLogic.authFlows b = true)
  /\ (BusinessLogic.formHandling a = true -> BusinessLogic.formHandling b = true).

(** The import edges of a file of the content mapping: those of its
    syntax tree; none when the file is missing, empty or not parsed. *)
Definition edgesOf (P : Platform) (filePath : string) (fileContents : FileContents)
    : list ImportInfo :=
  match mapGet fileContents filePath with
  | Some content =>
      if Js.truthy content then
        match createSourceFile P filePath content (scriptKindOf P filePath) with
        | Returns sourceFile => extractImports sourceFile
        | Throws => []
        end
      else []
  | None => []
  end.

Definition isRelative (imp : ImportInfo) : bool := Js.startsWith (path imp) ".".

(** The edges of a file whose specifier starts with a dot. *)
Definition relativeEdges (P : Platform) (filePath : string) (fileContents : FileContents)
    : list ImportInfo :=
  List.filter isRelative (edgesOf P filePath fileContents).

(** The direct check finds a reason in the file. *)
Definition impureTarget (P : Platform) (fileContents : FileContents) (projectRoot : string)
    (tsConfig : TsConfigPaths) (purityConfig : PurityConfig) (target : string) : bool :=
  0 <? Z.of_nat (length (analyzeFileImports P target fileContents projectRoot tsConfig
                           purityConfig ∅)).

End Spec.

(** * Properties *)

Import ImportBoundary.

(** ** Strings *)

Lemma prefix_append_l (a b s : string) :
  String.prefix (a +:+ b) s = true -> String.prefix a s = true.
Proof.
  revert s. induction a as [|c a IH]; intros s H.
  - destruct s; reflexivity.
  - destruct s as [|d s]; simpl in *; [discriminate|].
    destruct (ascii_dec c d); [apply IH; assumption | discriminate].
Qed.

Lemma append_length (a b : string) :
  String.length (a +:+ b) = (String.length a + String.length b)%nat.
Proof. induction a; simpl; [reflexivity | rewrite IHa; reflexivity]. Qed.

Lemma append_same_empty (s ext : string) : s +:+ ext = s -> ext = "".
Proof.
  intros H. apply (f_equal String.length) in H. rewrite append_length in H.
  destruct ext; [reflexivity | simpl in H; lia].
Qed.

Lemma truthy_true (s : string) : Js.truthy s = true <-> s <> "".
Proof.
  unfold Js.truthy. destruct (String.eqb_spec s ""); simpl; split; intros; congruence.
Qed.

Lemma truthy_false (s : string) : Js.truthy s = false <-> s = "".
Proof.
  unfold Js.truthy. destruct (String.eqb_spec s ""); simpl; split; intros; congruence.
Qed.

Lemma getSubstitution_dollarFree (tmpl matched before after : string) :
  Js.dollarFree tmpl = true -> Js.getSubstitution tmpl matched before after = tmpl.
Proof.
  induction tmpl as [|a t IH]; simpl; [reflexivity|].
  intros H. apply andb_true_iff in H as [Ha Ht].
  apply negb_true_iff in Ha. rewrite Ha. rewrite IH by assumption. reflexivity.
Qed.

Lemma replaceStarFrom_dollarFree (pre s tmpl : string) :
  Js.dollarFree tmpl = true -> Js.replaceStarFrom pre s tmpl = Js.substituteStar s tmpl.
Proof.
  intros H. revert pre. induction s as [|c s IH]; intros pre; simpl; [reflexivity|].
  destruct (Ascii.eqb c "*").
  - rewrite getSubstitution_dollarFree by assumption. rewrite IH. reflexivity.
  - rewrite IH. reflexivity.
Qed.

Lemma replaceStar_dollarFree (s tmpl : string) :
  Js.dollarFree tmpl = true -> Js.replaceStar s tmpl = Js.substituteStar s tmpl.
Proof. apply replaceStarFrom_dollarFree. Qed.

(** ** The report mapping *)

Lemma lookup_objSet {V : Type} (key k : string) (value : V) (obj : gmap string V) (v : V) :
  objSet key value obj !! k = Some v -> obj !! k = Some v \/ (k = key /\ v = value).
Proof.
  unfold objSet. destruct (String.eqb key "__proto__"); [auto|].
  destruct (decide (key = k)) as [->|Hne].
  - rewrite lookup_insert_eq. intros [= <-]. auto.
  - rewrite lookup_insert_ne by assumption. auto.
Qed.

(** Every entry of the mapping was produced by [analyzeFile] on a file of
    the content mapping with that relative path. *)
Lemma analyzeImportBoundaries_entry (P : Platform) (fileContents : FileContents)
    (projectRoot : string) (purityConfig : PurityConfig) (key : string)
    (report : ImportBoundaryReport) :
  analyzeImportBoundaries P fileContents projectRoot purityConfig !! key = Some report ->
  exists filePath content,
    In (filePath, content) fileContents /\
    relative P projectRoot filePath = key /\
    analyzeFile P filePath key fileContents projectRoot (loadTsConfig P projectRoot)
      purityConfig = Some report.
Proof.
  unfold analyzeImportBoundaries. destruct (negb (enabled purityConfig)).
  { rewrite lookup_empty. discriminate. }
  set (step := fun reports (entry : string * string) => _).
  assert (Hgen : forall entries reports0,
    fold_left step entries reports0 !! key = Some report ->
    reports0 !! key = Some report \/
    exists filePath content,
      In (filePath, content) entries /\
      relative P projectRoot filePath = key /\
      analyzeFile P filePath key fileContents projectRoot (loadTsConfig P projectRoot)
        purityConfig = Some report).
  { induction entries as [|[filePath content] entries IH]; intros reports0 H; simpl in H.
    - left. exact H.
    - apply IH in H as [H | (f & c & Hin & Hrel & Han)].
      + unfold step in H.
        destruct (analyzeFile P filePath (relative P projectRoot filePath) fileContents
                    projectRoot (loadTsConfig P projectRoot) purityConfig) as [rep|] eqn:Han.
        * apply lookup_objSet in H as [H | [-> ->]]; [left; exact H|].
          right. exists filePath, content. split; [left; reflexivity|]. split; [reflexivity|].
          exact Han.
        * left. exact H.
      + right. exists f, c. split; [right; exact Hin|]. split; assumption. }
  intros H. apply Hgen in H as [H | H]; [rewrite lookup_empty in H; discriminate | exact H].
Qed.

Lemma isUiCandidatePath_false (relativePath : string) (purityConfig : PurityConfig) :
  (forall dir, In dir (uiCandidateDirs purityConfig) -> Js.startsWith relativePath dir = false) ->
  isUiCandidatePath relativePath purityConfig = false.
Proof.
  intros H. unfold isUiCandidatePath.
  induction (uiCandidateDirs purityConfig) as [|dir dirs IH]; simpl; [reflexivity|].
  rewrite (H dir) by (left; reflexivity). simpl.
  destruct (Js.startsWith relativePath (dir +:+ "/")) eqn:E.
  - apply prefix_append_l in E. unfold Js.startsWith in H.
    rewrite (H dir) in E by (left; reflexivity). discriminate.
  - simpl. apply IH. intros d Hd. apply H. right. exact Hd.
Qed.

(** C8. A relative path that starts with none of the configured
    [uiCandidateDirs] prefixes is not a key of the purity-report mapping
    returned by [analyzeImportBoundaries]: such a file has no entry at all. *)
Theorem non_candidate_has_no_entry (P : Platform) (fileContents : FileContents)
    (projectRoot : string) (purityConfig : PurityConfig) (relativePath : string) :
  (forall dir, In dir (uiCandidateDirs purityConfig) -> Js.startsWith relativePath dir = false) ->
  analyzeImportBoundaries P fileContents projectRoot purityConfig !! relativePath = None.
Proof.
  intros Hdirs.
  destruct (analyzeImportBoundaries P fileContents projectRoot purityConfig !! relativePath)
    as [report|] eqn:E; [|reflexivity].
  apply analyzeImportBoundaries_entry in E as (filePath & content & _ & _ & Han).
  unfold analyzeFile in Han. rewrite isUiCandidatePath_false in Han by assumption.
  discriminate.
Qed.

Lemma non_candidate_has_no_entry_witness :
  (forall dir, In dir (uiCandidateDirs Examples.purityConfig) ->
     Js.startsWith "other/x.ts" dir = false) /\
  analyzeImportBoundaries Examples.node Examples.fileContents "/p" Examples.purityConfig
    !! "other/x.ts" = None.
Proof.
  assert (H : forall dir, In dir (uiCandidateDirs Examples.purityConfig) ->
     Js.startsWith "other/x.ts" dir = false).
  { intros dir [<- | []]. reflexivity. }
  split; [exact H|].
  exact (non_candidate_has_no_entry Examples.node Examples.fileContents "/p"
           Examples.purityConfig "other/x.ts" H).
Defined.

(** C9. A file of the content mapping whose text is the empty string gets
    no report: [analyzeFile] answers [null] for it whatever its relative
    path, and its key is absent from the mapping returned by
    [analyzeImportBoundaries] as long as no other file of the content
    mapping has the same relative path. *)
Theorem empty_file_has_no_entry (P : Platform) (fileContents : FileContents)
    (projectRoot : string) (purityConfig : PurityConfig) (filePath : string) :
  mapGet fileContents filePath = Some "" ->
  (forall relativePath tsConfig,
     analyzeFile P filePath relativePath fileContents projectRoot tsConfig purityConfig = None)
  /\
  ((forall other content,
      In (other, content) fileContents ->
      relative P projectRoot other = relative P projectRoot filePath -> other = filePath) ->
   analyzeImportBoundaries P fileContents projectRoot purityConfig
     !! relative P projectRoot filePath = None).
Proof.
  intros Hempty.
  assert (Hnull : forall relativePath tsConfig,
     analyzeFile P filePath relativePath fileContents projectRoot tsConfig purityConfig = None).
  { intros relativePath tsConfig. unfold analyzeFile.
    destruct (negb (isUiCandidatePath relativePath purityConfig)); [reflexivity|].
    rewrite Hempty. reflexivity. }
  split; [exact Hnull|].
  intros Hunique.
  destruct (analyzeImportBoundaries P fileContents projectRoot purityConfig
              !! relative P projectRoot filePath) as [report|] eqn:E; [|reflexivity].
  apply analyzeImportBoundaries_entry in E as (other & content & Hin & Hrel & Han).
  apply Hunique in Hin; [|exact Hrel]. subst other.
  rewrite Hnull in Han. discriminate.
Qed.

Lemma empty_file_has_no_entry_witness :
  mapGet Examples.fileContents "/p/ui/empty.tsx" = Some "" /\
  isUiCandidatePath "ui/empty.tsx" Examples.purityConfig = true /\
  analyzeImportBoundaries Examples.node Examples.fileContents "/p" Examples.purityConfig
    !! "ui/empty.tsx" = None.
Proof.
  split; [reflexivity|]. split; [reflexivity|].
  refine (proj2 (empty_file_has_no_entry Examples.node Examples.fileContents "/p"
                   Examples.purityConfig "/p/ui/empty.tsx" eq_refl) _).
  intros other content Hin Hrel.
  repeat (destruct Hin as [[= <- <-] | Hin]; [vm_compute in Hrel; congruence|]).
  destruct Hin.
Defined.

(** ** The purity score *)

Lemma rawScore_from (reasons : list Reason) (start : Z) :
  fold_left (fun score reason => score + weight (type reason)) reasons start
  = start + Spec.weightSum reasons.
Proof.
  revert start. induction reasons as [|r reasons IH]; intros start.
  - unfold Spec.weightSum, Spec.countOfType. simpl. lia.
  - simpl. rewrite IH. unfold Spec.weightSum, Spec.countOfType. simpl.
    destruct (type r); simpl; lia.
Qed.

Lemma rawScore_weightSum (reasons : list Reason) : rawScore reasons = Spec.weightSum reasons.
Proof. unfold rawScore. rewrite rawScore_from. lia. Qed.

Lemma weightSum_nonneg (reasons : list Reason) : 0 <= Spec.weightSum reasons.
Proof. unfold Spec.weightSum, Spec.countOfType. lia. Qed.

Lemma weightSum_pos_nonempty (reasons : list Reason) :
  0 < Spec.weightSum reasons -> reasons <> [].
Proof. intros H ->. unfold Spec.weightSum, Spec.countOfType in H. simpl in H. lia. Qed.

(** C2. In every purity report, the score is the sum of the weights of
    the reasons (30 per forbidden-import, 25 per server-api, 15 per
    transitive, 10 per data-fetching) clamped to 100, so it lies between 0
    and 100; the purity is impure exactly when the score is positive; and
    an impure report has at least one reason. *)
Theorem purity_report_invariant (P : Platform) (filePath relativePath : string)
    (fileContents : FileContents) (projectRoot : string) (tsConfig : TsConfigPaths)
    (purityConfig : PurityConfig) (report : ImportBoundaryReport) :
  analyzeFile P filePath relativePath fileContents projectRoot tsConfig purityConfig
    = Some report ->
  score report = Z.min 100 (Spec.weightSum (reasons report))
  /\ 0 <= score report <= 100
  /\ (purity report = Impure <-> 0 < score report)
  /\ (purity report = Impure -> reasons report <> []).
Proof.
  unfold analyzeFile.
  destruct (negb (isUiCandidatePath relativePath purityConfig)); [discriminate|].
  destruct (mapGet fileContents filePath) as [content|]; [|discriminate].
  destruct (negb (Js.truthy content)); [discriminate|].
  intros [= <-]. simpl.
  set (rs := collectReasons P filePath content fileContents projectRoot tsConfig purityConfig).
  rewrite rawScore_weightSum.
  pose proof (weightSum_nonneg rs) as Hnn.
  split; [reflexivity|]. split; [lia|].
  destruct (Z.ltb_spec 0 (Z.min 100 (Spec.weightSum rs))) as [Hpos|Hle].
  - split; [split; [intros _; exact Hpos | reflexivity]|].
    intros _. apply weightSum_pos_nonempty. lia.
  - split; [split; [discriminate | lia]|]. discriminate.
Qed.

Lemma purity_report_invariant_witness :
  exists report,
    analyzeFile Examples.node "/p/ui/card.tsx" "ui/card.tsx" Examples.fileContents "/p"
      noTsConfig Examples.purityConfig = Some report
    /\ score report = 45
    /\ score report = Z.min 100 (Spec.weightSum (reasons report))
    /\ purity report = Impure.
Proof.
  eexists. split; [vm_compute; reflexivity|]. split; [reflexivity|].
  split.
  - refine (proj1 (purity_report_invariant Examples.node "/p/ui/card.tsx" "ui/card.tsx"
                     Examples.fileContents "/p" noTsConfig Examples.purityConfig _ _)).
    vm_compute. reflexivity.
  - reflexivity.
Defined.

(** ** The risk tier *)

Lemma riskFactors_score (signals : BusinessLogic.BusinessSignals) (nativeHtmlCount fileLines : Z) :
  0 <= BusinessLogic.apiCalls signals ->
  0 <= BusinessLogic.useStateCount signals ->
  0 <= BusinessLogic.useEffectCount signals ->
  0 <= nativeHtmlCount ->
  fst (BusinessLogic.riskFactors signals nativeHtmlCount fileLines)
  = Spec.weightedScore signals nativeHtmlCount fileLines.
Proof.
  intros Ha Hs He Hn. unfold BusinessLogic.riskFactors, Spec.weightedScore.
  destruct (Z.ltb_spec 0 (BusinessLogic.apiCalls signals));
  destruct (Z.ltb_spec 0 (BusinessLogic.useStateCount signals));
  destruct (Z.ltb_spec 0 (BusinessLogic.useEffectCount signals));
  destruct (BusinessLogic.fileUploads signals);
  destruct (BusinessLogic.authFlows signals);
  destruct (BusinessLogic.formHandling signals);
  destruct (Z.ltb_spec 0 nativeHtmlCount);
  destruct (300 <? fileLines); simpl; lia.
Qed.

(** C5. The risk tier is decided in order. It is page-level when the
    API-call count or one of the two hook counts exceeds its careful
    ceiling, or file uploads or auth flows are present, or the weighted
    score is at least 50; otherwise careful when the API-call count or one
    of the hook counts exceeds its safe ceiling, or a native element is
    present, or the score is at least 20; otherwise safe. In particular a
    file with exactly one native element and no other signal is careful
    (for ceilings that are not negative). *)
Theorem risk_tier_decision (signals : BusinessLogic.BusinessSignals)
    (nativeHtmlCount fileLines : Z) (thresholds : BusinessLogic.RiskThresholds) :
  0 <= BusinessLogic.apiCalls signals ->
  0 <= BusinessLogic.useStateCount signals ->
  0 <= BusinessLogic.useEffectCount signals ->
  0 <= nativeHtmlCount ->
  let tier :=
    BusinessLogic.riskLevel
      (BusinessLogic.assessRisk signals nativeHtmlCount fileLines thresholds) in
  let pageLevel := Spec.pageLevelCondition signals nativeHtmlCount fileLines thresholds in
  let careful := Spec.carefulCondition signals nativeHtmlCount fileLines thresholds in
  (pageLevel -> tier = BusinessLogic.PageLevel)
  /\ (~ pageLevel -> careful -> tier = BusinessLogic.Careful)
  /\ (~ pageLevel -> ~ careful -> tier = BusinessLogic.Safe)
  /\ (signals = BusinessLogic.mkBusinessSignals 0 0 0 false false false ->
      nativeHtmlCount = 1 ->
      0 <= BusinessLogic.maxApiCalls (BusinessLogic.careful thresholds) ->
      0 <= BusinessLogic.maxStateHooks (BusinessLogic.careful thresholds) ->
      0 <= BusinessLogic.maxEffects (BusinessLogic.careful thresholds) ->
      tier = BusinessLogic.Careful).
Proof.
  intros Ha Hs He Hn tier pageLevel careful.
  assert (Htier : (pageLevel -> tier = BusinessLogic.PageLevel)
                  /\ (~ pageLevel -> careful -> tier = BusinessLogic.Careful)
                  /\ (~ pageLevel -> ~ careful -> tier = BusinessLogic.Safe)).
  { subst tier pageLevel careful.
    unfold BusinessLogic.assessRisk, Spec.pageLevelCondition, Spec.carefulCondition.
    pose proof (riskFactors_score signals nativeHtmlCount fileLines Ha Hs He Hn) as Hscore.
    destruct (BusinessLogic.riskFactors signals nativeHtmlCount fileLines) as [sc detected].
    simpl in Hscore. subst sc. simpl.
    set (w := Spec.weightedScore signals nativeHtmlCount fileLines).
    destruct (Z.ltb_spec (BusinessLogic.maxApiCalls (BusinessLogic.careful thresholds))
                (BusinessLogic.apiCalls signals));
    destruct (Z.ltb_spec (BusinessLogic.maxStateHooks (BusinessLogic.careful thresholds))
                (BusinessLogic.useStateCount signals));
    destruct (Z.ltb_spec (BusinessLogic.maxEffects (BusinessLogic.careful thresholds))
                (BusinessLogic.useEffectCount signals));
    destruct (BusinessLogic.fileUploads signals);
    destruct (BusinessLogic.authFlows signals);
    destruct (Z.leb_spec 50 w); simpl;
    try (split; [reflexivity | split; intros Hn'; exfalso; apply Hn'; tauto]).
    split; [intros [?|[?|[?|[?|[?|?]]]]]; (lia || discriminate)|].
    destruct (Z.ltb_spec (BusinessLogic.maxApiCalls (BusinessLogic.safe thresholds))
                (BusinessLogic.apiCalls signals));
    destruct (Z.ltb_spec (BusinessLogic.maxStateHooks (BusinessLogic.safe thresholds))
                (BusinessLogic.useStateCount signals));
    destruct (Z.ltb_spec (BusinessLogic.maxEffects (BusinessLogic.safe thresholds))
                (BusinessLogic.useEffectCount signals));
    destruct (Z.ltb_spec 0 nativeHtmlCount);
    destruct (Z.leb_spec 20 w); simpl;
    try (split; [reflexivity | intros _ Hn'; exfalso; apply Hn'; first [tauto | lia]]).
    split; [|reflexivity].
    intros _ [?|[?|[?|[?|?]]]]; lia. }
  destruct Htier as (Hp & Hc & Hsafe).
  split; [exact Hp|]. split; [exact Hc|]. split; [exact Hsafe|].
  intros -> -> Hca Hcs Hce. apply Hc.
  - unfold pageLevel, Spec.pageLevelCondition, Spec.weightedScore. simpl.
    destruct (300 <? fileLines); intros [?|[?|[?|[?|[?|?]]]]]; (lia || discriminate).
  - unfold careful, Spec.carefulCondition. right. right. right. left. lia.
Qed.

Lemma risk_tier_decision_witness :
  BusinessLogic.riskLevel
    (BusinessLogic.assessRisk Examples.noSignals 1 12 Examples.thresholds)
  = BusinessLogic.Careful.
Proof.
  refine (proj2 (proj2 (proj2 (risk_tier_decision Examples.noSignals 1 12 Examples.thresholds
                                 _ _ _ _))) eq_refl eq_refl _ _ _);
    simpl; lia.
Defined.

(** ** Loops that push reasons *)

(** A loop whose iterations each push at most one item satisfying [Q]
    pushes at most one such item per element, whether or not it is cut
    short by an exception. *)
Lemma tryForOf_pushes {A R : Type} (Q : R -> Prop) (body : list R -> A -> Exc (list R)) :
  (forall s x s', body s x = Returns s' ->
     exists e, s' = s ++ e /\ (length e <= 1)%nat /\ Forall Q e) ->
  forall xs s,
    exists e, tryForOf body xs s = s ++ e /\ (length e <= length xs)%nat /\ Forall Q e.
Proof.
  intros Hbody. induction xs as [|x xs IH]; intros s; simpl.
  - exists []. rewrite app_nil_r. repeat split; [simpl; lia | constructor].
  - destruct (body s x) as [s'|] eqn:E.
    + apply Hbody in E as (e1 & -> & Hlen1 & HQ1).
      destruct (IH (s ++ e1)) as (e2 & -> & Hlen2 & HQ2).
      exists (e1 ++ e2). rewrite <- app_assoc. split; [reflexivity|].
      split; [rewrite length_app; lia | apply Forall_app; split; assumption].
    + exists []. rewrite app_nil_r. repeat split; [simpl; lia | constructor].
Qed.

(** ** The boundary rules *)

Lemma aliasLoop_nonempty (P : Platform) (importPath : string) (tsConfig : TsConfigPaths)
    (projectRoot : string) (entries : list (string * list string)) (r : string) :
  resolveNonEmpty P ->
  aliasLoop P importPath tsConfig projectRoot entries = Returns (Some r) -> r <> "".
Proof.
  intros HP. induction entries as [|[pattern replacements] entries IH]; simpl.
  - discriminate.
  - destruct (regExpMatch P (aliasRegExpSource pattern) importPath) as [[group1|]|]; simpl;
      [| exact IH | discriminate].
    destruct replacements as [|replacement more]; [exact IH|].
    destruct (Js.truthy replacement); [|exact IH].
    intros [= <-]. apply HP.
Qed.

Lemma resolvePathAlias_nonempty (P : Platform) (importPath : string) (tsConfig : TsConfigPaths)
    (projectRoot currentFileDir r : string) :
  resolveNonEmpty P ->
  resolvePathAlias P importPath tsConfig projectRoot currentFileDir = Returns (Some r) ->
  r <> "".
Proof.
  intros HP. unfold resolvePathAlias.
  destruct (paths tsConfig) as [entries|]; simpl.
  - destruct (aliasLoop P importPath tsConfig projectRoot entries) as [[a|]|] eqn:E; simpl.
    + intros [= <-]. eapply aliasLoop_nonempty; eassumption.
    + destruct (Js.startsWith importPath "." || Js.startsWith importPath "/"); [|discriminate].
      destruct (Js.startsWith importPath "/"); intros [= <-]; apply HP.
    + discriminate.
  - destruct (Js.startsWith importPath "." || Js.startsWith importPath "/"); [|discriminate].
    destruct (Js.startsWith importPath "/"); intros [= <-]; apply HP.
Qed.

Lemma isBusinessDir_true (r : string) (matchers : list string) :
  r <> "" ->
  (isBusinessDir (Some r) matchers = true <->
   exists matcher, In matcher matchers /\ Js.includes (Js.backslashesToSlashes r) matcher = true).
Proof.
  intros Hr. unfold isBusinessDir. apply truthy_true in Hr. rewrite Hr. simpl.
  apply existsb_exists.
Qed.

Lemma directStep_pushes (P : Platform) (tsConfig : TsConfigPaths)
    (projectRoot currentFileDir : string) (purityConfig : PurityConfig)
    (reasons : list Reason) (imp : ImportInfo) (reasons' : list Reason) :
  directStep P tsConfig projectRoot currentFileDir purityConfig reasons imp = Returns reasons' ->
  exists e, reasons' = reasons ++ e /\ (length e <= 1)%nat
            /\ Forall (fun r => type r = ForbiddenImport \/ type r = ServerApi) e.
Proof.
  unfold directStep.
  destruct (checkImportAgainstMatchers (path imp) (forbiddenImportMatchers purityConfig)).
  { destruct (resolvePathAlias P (path imp) tsConfig projectRoot currentFileDir); simpl;
      [|discriminate].
    intros [= <-]. eexists. split; [reflexivity|]. split; [simpl; lia|].
    repeat constructor. }
  destruct (checkImportAgainstMatchers (path imp) (nextServerImportMatchers purityConfig)).
  { intros [= <-]. eexists. split; [reflexivity|]. split; [simpl; lia|].
    constructor; [right; reflexivity | constructor]. }
  destruct (resolvePathAlias P (path imp) tsConfig projectRoot currentFileDir) as [resolved|];
    simpl; [|discriminate].
  destruct (isBusinessDir resolved (businessDirMatchers purityConfig)); intros [= <-].
  - eexists. split; [reflexivity|]. split; [simpl; lia|]. repeat constructor.
  - exists []. rewrite app_nil_r. split; [reflexivity|]. split; [simpl; lia | constructor].
Qed.

(** The direct check pushes at most one reason per import edge, each of
    type forbidden-import or server-api. *)
Lemma analyzeFileImports_reasons (P : Platform) (filePath : string)
    (fileContents : FileContents) (projectRoot : string) (tsConfig : TsConfigPaths)
    (purityConfig : PurityConfig) (visited : gset string) :
  Forall (fun r => type r = ForbiddenImport \/ type r = ServerApi)
    (analyzeFileImports P filePath fileContents projectRoot tsConfig purityConfig visited).
Proof.
  unfold analyzeFileImports.
  destruct (mapGet fileContents filePath) as [content|]; [|constructor].
  destruct (negb (Js.truthy content)); [constructor|].
  destruct (createSourceFile P filePath content (scriptKindOf P filePath)) as [sourceFile|];
    [|constructor].
  destruct (tryForOf_pushes (fun r => type r = ForbiddenImport \/ type r = ServerApi)
              (directStep P tsConfig projectRoot (dirname P filePath) purityConfig)
              (directStep_pushes P tsConfig projectRoot (dirname P filePath) purityConfig)
              (extractImports sourceFile) []) as (e & -> & _ & HQ).
  exact HQ.
Qed.

(** One iteration of the direct check, case by case. A specifier that
    matches [forbiddenImportMatchers] gives a forbidden-import reason when
    the resolver returns, and ends the loop when it throws; else one that
    matches [nextServerImportMatchers] gives a server-api reason, whatever
    the resolver would do; else the resolver decides: a path whose
    normalized form contains a [businessDirMatchers] entry gives a
    forbidden-import reason that names a business logic zone import, any
    other answer gives no reason, and an exception ends the loop. *)
Lemma directStep_first_match_wins (P : Platform) (tsConfig : TsConfigPaths)
    (projectRoot currentFileDir : string) (purityConfig : PurityConfig)
    (reasons : list Reason) (imp : ImportInfo) :
  resolveNonEmpty P ->
  let step := directStep P tsConfig projectRoot currentFileDir purityConfig reasons imp in
  let resolution := resolvePathAlias P (path imp) tsConfig projectRoot currentFileDir in
  let forbidden :=
    checkImportAgainstMatchers (path imp) (forbiddenImportMatchers purityConfig) in
  let server :=
    checkImportAgainstMatchers (path imp) (nextServerImportMatchers purityConfig) in
  let business :=
    exists p matcher,
      resolution = Returns (Some p) /\ In matcher (businessDirMatchers purityConfig)
      /\ Js.includes (Js.backslashesToSlashes p) matcher = true in
  (forbidden = true ->
   match resolution with
   | Returns resolved =>
       step = Returns (reasons ++
                [mkReason ForbiddenImport (path imp) (Js.orUndefined resolved) (Some (line imp))
                   ("Forbidden import: " +:+ Js.dq +:+ path imp +:+ Js.dq)])
   | Throws => step = Throws
   end)
  /\ (forbidden = false -> server = true ->
      step = Returns (reasons ++
               [mkReason ServerApi (path imp) None (Some (line imp))
                  ("Next.js server API: " +:+ Js.dq +:+ path imp +:+ Js.dq)]))
  /\ (forbidden = false -> server = false ->
      match resolution with
      | Returns resolved =>
          (business ->
           step = Returns (reasons ++
                    [mkReason ForbiddenImport (path imp) (Js.orUndefined resolved)
                       (Some (line imp))
                       ("Business logic zone import: " +:+ Js.dq +:+ path imp +:+ Js.dq)]))
          /\ (~ business -> step = Returns reasons)
      | Throws => step = Throws
      end).
Proof.
  intros HP step resolution forbidden server business.
  subst step. unfold directStep. fold forbidden server resolution.
  split; [|split].
  - intros ->. destruct resolution; reflexivity.
  - intros -> ->. reflexivity.
  - intros -> ->. destruct resolution as [resolved|] eqn:Hres; [|reflexivity].
    cbn [bindExc].
    assert (Hbiz : isBusinessDir resolved (businessDirMatchers purityConfig) = true
                   <-> business).
    { subst business. destruct resolved as [p|].
      - rewrite isBusinessDir_true by (eapply resolvePathAlias_nonempty; eassumption).
        split.
        + intros (m & Hin & Hinc). exists p, m. auto.
        + intros (p' & m & [= <-] & Hin & Hinc). exists m. auto.
      - simpl. split; [discriminate | intros (p & m & Hp & _); discriminate]. }
    destruct (isBusinessDir resolved (businessDirMatchers purityConfig)).
    + split; [reflexivity|]. intros Hn. exfalso. apply Hn, Hbiz. reflexivity.
    + split; [|reflexivity]. intros Hb. apply Hbiz in Hb. discriminate.
Qed.

Lemma posix_resolve_nonempty (cwd : string) (segments : list string) :
  Posix.resolve cwd segments <> "".
Proof.
  unfold Posix.resolve.
  destruct (Posix.resolveLoop (rev segments ++ [cwd]) "") as [resolvedPath [|]].
  - discriminate.
  - simpl. destruct (Js.truthy (Posix.normalizeString resolvedPath true)) eqn:E.
    + apply truthy_true. exact E.
    + discriminate.
Qed.

Lemma demo_resolveNonEmpty (disk : list string) (tsconfig : option TsConfigPaths) :
  resolveNonEmpty (Demo.platform disk tsconfig).
Proof. intros segments. apply posix_resolve_nonempty. Qed.

(** C4. A specifier that matches [forbiddenImportMatchers] and gets no
    reason. The alias table read from the project's [tsconfig.json] starts
    with the key [c++/*], which is no regular expression once its star is
    replaced: [resolvePathAlias] throws while the forbidden-import reason
    of the first edge is built, the [catch] around the loop ends it, and
    the file, which imports from two forbidden zones, is reported pure with
    score 0. Under the same table an edge that matches
    [nextServerImportMatchers] is reported, since that branch does not
    resolve; with the table [@/*] alone both edges of the file are. *)
Theorem forbidden_import_unreported :
  let node := Examples.nodeWithTsConfig Examples.brokenAliases in
  let edge := mkImportInfo "@/lib/a" 1 false false in
  loadTsConfig node "/p" = Examples.brokenAliases
  /\ Spec.edgesOf node "/p/ui/x.tsx" Examples.forbiddenContents
     = [edge; mkImportInfo "@/db/b" 2 false false]
  /\ checkImportAgainstMatchers (path edge) (forbiddenImportMatchers Examples.purityConfig) = true
  /\ directStep node Examples.brokenAliases "/p" "/p/ui" Examples.purityConfig [] edge = Throws
  /\ analyzeFileImports node "/p/ui/x.tsx" Examples.forbiddenContents "/p" Examples.brokenAliases
       Examples.purityConfig ∅ = []
  /\ analyzeImportBoundaries node Examples.forbiddenContents "/p" Examples.purityConfig
       !! "ui/x.tsx"
     = Some (mkImportBoundaryReport "ui/x.tsx" true Pure 0 [])
  /\ (exists reason,
        directStep node Examples.brokenAliases "/p" "/p/ui" Examples.purityConfig []
          (mkImportInfo "next/headers" 1 false false) = Returns [reason]
        /\ type reason = ServerApi)
  /\ (exists first second,
        analyzeFileImports (Examples.nodeWithTsConfig Examples.aliases) "/p/ui/x.tsx"
          Examples.forbiddenContents "/p" Examples.aliases Examples.purityConfig ∅
        = [first; second]
        /\ type first = ForbiddenImport /\ importPath first = "@/lib/a"
        /\ type second = ForbiddenImport /\ importPath second = "@/db/b").
Proof.
  cbv zeta.
  split; [vm_compute; reflexivity|]. split; [vm_compute; reflexivity|].
  split; [vm_compute; reflexivity|]. split; [vm_compute; reflexivity|].
  split; [vm_compute; reflexivity|]. split; [vm_compute; reflexivity|].
  split.
  - eexists. split; [vm_compute; reflexivity | reflexivity].
  - eexists. eexists. split; [vm_compute; reflexivity|]. repeat split.
Qed.

(** ** The transitive check *)

Lemma transitiveStep_pushes (P : Platform) (fileContents : FileContents) (projectRoot : string)
    (tsConfig : TsConfigPaths) (purityConfig : PurityConfig) (visited : gset string)
    (currentFileDir : string) (reasons : list Reason) (imp : ImportInfo)
    (reasons' : list Reason) :
  transitiveStep P fileContents projectRoot tsConfig purityConfig visited currentFileDir
    reasons imp = Returns reasons' ->
  exists e, reasons' = reasons ++ e /\ (length e <= 1)%nat
            /\ Forall (fun r => type r = Transitive) e.
Proof.
  assert (Hnone : exists e : list Reason, reasons = reasons ++ e /\ (length e <= 1)%nat
                    /\ Forall (fun r => type r = Transitive) e).
  { exists []. rewrite app_nil_r. split; [reflexivity|]. split; [simpl; lia | constructor]. }
  unfold transitiveStep.
  destruct (negb (Js.startsWith (path imp) ".")); [intros [= <-]; exact Hnone|].
  destruct (resolvePathAlias P (path imp) tsConfig projectRoot currentFileDir)
    as [[resolved|]|]; cbn [bindExc]; [| intros [= <-]; exact Hnone | discriminate].
  destruct (negb (Js.truthy resolved)); [intros [= <-]; exact Hnone|].
  destruct (fst (probe P fileContents resolved extensions)) as [foundFile|];
    [| intros [= <-]; exact Hnone].
  destruct (negb (Js.truthy foundFile)); [intros [= <-]; exact Hnone|].
  destruct (0 <? Z.of_nat (length (analyzeFileImports P foundFile fileContents projectRoot
                                     tsConfig purityConfig visited)));
    intros [= <-]; [|exact Hnone].
  eexists. split; [reflexivity|]. split; [simpl; lia|]. repeat constructor.
Qed.

(** What a call of [checkTransitiveImports] returns and what it does to
    [visited]. *)
Lemma checkTransitiveImports_call (P : Platform) (filePath : string)
    (fileContents : FileContents) (projectRoot : string) (tsConfig : TsConfigPaths)
    (purityConfig : PurityConfig) (visited : gset string) :
  exists reasons visited',
    checkTransitiveImports P filePath fileContents projectRoot tsConfig purityConfig visited
      = (reasons, visited')
    /\ (filePath ∈ visited -> reasons = [] /\ visited' = visited)
    /\ (filePath ∉ visited -> visited' = {[filePath]} ∪ visited)
    /\ checkTransitiveImports P filePath fileContents projectRoot tsConfig purityConfig visited'
       = ([], visited')
    /\ Forall (fun r => type r = Transitive) reasons
    /\ (forall content sourceFile,
          mapGet fileContents filePath = Some content ->
          createSourceFile P filePath content (scriptKindOf P filePath) = Returns sourceFile ->
          (length reasons <= length (extractImports sourceFile))%nat).
Proof.
  assert (Hskip : forall v, filePath ∈ v ->
            checkTransitiveImports P filePath fileContents projectRoot tsConfig purityConfig v
            = ([], v)).
  { intros v Hv. unfold checkTransitiveImports. rewrite bool_decide_eq_true_2 by exact Hv.
    reflexivity. }
  destruct (decide (filePath ∈ visited)) as [Hin|Hout].
  - exists [], visited. rewrite Hskip by exact Hin.
    split; [reflexivity|]. split; [auto|]. split; [intros Hn; contradiction|].
    split; [reflexivity|]. split; [constructor|]. intros; simpl; lia.
  - assert (Hadded : filePath ∈ ({[filePath]} ∪ visited : gset string)) by set_solver.
    unfold checkTransitiveImports at 1. rewrite bool_decide_eq_false_2 by exact Hout.
    destruct (mapGet fileContents filePath) as [content|] eqn:Hget.
    2:{ exists [], ({[filePath]} ∪ visited). split; [reflexivity|].
        split; [intros Hv; contradiction|]. split; [reflexivity|].
        split; [apply Hskip, Hadded|]. split; [constructor|]. intros; simpl; lia. }
    destruct (negb (Js.truthy content)).
    { exists [], ({[filePath]} ∪ visited). split; [reflexivity|].
      split; [intros Hv; contradiction|]. split; [reflexivity|].
      split; [apply Hskip, Hadded|]. split; [constructor|]. intros; simpl; lia. }
    destruct (createSourceFile P filePath content (scriptKindOf P filePath))
      as [sourceFile|] eqn:Hparse.
    2:{ exists [], ({[filePath]} ∪ visited). split; [reflexivity|].
        split; [intros Hv; contradiction|]. split; [reflexivity|].
        split; [apply Hskip, Hadded|]. split; [constructor|]. intros; simpl; lia. }
    destruct (tryForOf_pushes (fun r => type r = Transitive)
                (transitiveStep P fileContents projectRoot tsConfig purityConfig
                   ({[filePath]} ∪ visited) (dirname P filePath))
                (transitiveStep_pushes P fileContents projectRoot tsConfig purityConfig
                   ({[filePath]} ∪ visited) (dirname P filePath))
                (extractImports sourceFile) []) as (e & He & Hlen & HQ).
    exists e, ({[filePath]} ∪ visited). rewrite He. simpl.
    split; [reflexivity|]. split; [intros Hv; contradiction|]. split; [reflexivity|].
    split; [apply Hskip, Hadded|]. split; [exact HQ|].
    intros content' sourceFile' [= <-] Hparse'. rewrite Hparse in Hparse'.
    injection Hparse' as <-. exact Hlen.
Qed.

(** *** The files a traversal analyses *)

Lemma analyzeFileImports_ignores_visited (P : Platform) (filePath : string)
    (fileContents : FileContents) (projectRoot : string) (tsConfig : TsConfigPaths)
    (purityConfig : PurityConfig) (visited visited' : gset string) :
  analyzeFileImports P filePath fileContents projectRoot tsConfig purityConfig visited
  = analyzeFileImports P filePath fileContents projectRoot tsConfig purityConfig visited'.
Proof. reflexivity. Qed.

Lemma probe_found (P : Platform) (fileContents : FileContents) (resolved : string)
    (exts : list string) (foundFile : string) :
  fst (probe P fileContents resolved exts) = Some foundFile ->
  existsSync P foundFile = true /\ mapHas fileContents foundFile = true.
Proof.
  induction exts as [|ext exts IH]; simpl; [discriminate|].
  destruct (existsSync P (candidateFor resolved ext)
            && mapHas fileContents (candidateFor resolved ext)) eqn:Hhit.
  - simpl. intros [= <-]. apply andb_true_iff in Hhit. exact Hhit.
  - destruct (probe P fileContents resolved exts) as [found probed]. simpl in *. exact IH.
Qed.

Lemma transitiveStepTraced_cases (P : Platform) (fileContents : FileContents)
    (projectRoot : string) (tsConfig : TsConfigPaths) (purityConfig : PurityConfig)
    (visited : gset string) (currentFileDir : string) (reasons : list Reason)
    (analysed : list string) (imp : ImportInfo) :
  (transitiveStepTraced P fileContents projectRoot tsConfig purityConfig visited currentFileDir
     (reasons, analysed) imp = Throws
   /\ transitiveStep P fileContents projectRoot tsConfig purityConfig visited currentFileDir
        reasons imp = Throws)
  \/ exists rs fs,
       transitiveStepTraced P fileContents projectRoot tsConfig purityConfig visited
         currentFileDir (reasons, analysed) imp = Returns (reasons ++ rs, analysed ++ fs)
       /\ transitiveStep P fileContents projectRoot tsConfig purityConfig visited currentFileDir
            reasons imp = Returns (reasons ++ rs)
       /\ (length fs <= length (List.filter Spec.isRelative [imp]))%nat
       /\ Forall (fun f => existsSync P f = true /\ mapHas fileContents f = true) fs
       /\ map resolvedPath rs
          = map Some
              (List.filter
                 (Spec.impureTarget P fileContents projectRoot tsConfig purityConfig) fs)
       /\ Forall (fun r => type r = Transitive) rs.
Proof.
  assert (Hnone : forall n : nat,
            exists (rs : list Reason) (fs : list string),
              Returns (reasons, analysed) = Returns (reasons ++ rs, analysed ++ fs)
              /\ Returns reasons = Returns (reasons ++ rs)
              /\ (length fs <= n)%nat
              /\ Forall (fun f => existsSync P f = true /\ mapHas fileContents f = true) fs
              /\ map resolvedPath rs
                 = map Some
                     (List.filter
                        (Spec.impureTarget P fileContents projectRoot tsConfig purityConfig) fs)
              /\ Forall (fun r => type r = Transitive) rs).
  { intros n. exists [], []. rewrite !app_nil_r. simpl.
    repeat split; try constructor. lia. }
  unfold transitiveStepTraced, transitiveStep. cbn [List.filter]. unfold Spec.isRelative.
  destruct (Js.startsWith (path imp) "."); cbn [negb]; [|right; apply Hnone].
  destruct (resolvePathAlias P (path imp) tsConfig projectRoot currentFileDir)
    as [[resolved|]|]; cbn [bindExc]; [| right; apply Hnone | left; split; reflexivity].
  destruct (negb (Js.truthy resolved)); [right; apply Hnone|].
  destruct (fst (probe P fileContents resolved extensions)) as [foundFile|] eqn:Hprobe;
    [| right; apply Hnone].
  destruct (negb (Js.truthy foundFile)); [right; apply Hnone|].
  apply probe_found in Hprobe.
  right.
  destruct (0 <? Z.of_nat (length (analyzeFileImports P foundFile fileContents projectRoot
                                     tsConfig purityConfig visited))) eqn:Himpure.
  - eexists [_], [foundFile]. split; [reflexivity|]. split; [reflexivity|].
    split; [simpl; lia|]. split; [constructor; [exact Hprobe | constructor]|].
    split; [| constructor; [reflexivity | constructor]].
    cbn [List.filter]. unfold Spec.impureTarget.
    rewrite (analyzeFileImports_ignores_visited P foundFile fileContents projectRoot tsConfig
               purityConfig ∅ visited), Himpure.
    reflexivity.
  - exists [], [foundFile]. rewrite app_nil_r. split; [reflexivity|]. split; [reflexivity|].
    split; [simpl; lia|]. split; [constructor; [exact Hprobe | constructor]|].
    split; [| constructor].
    cbn [List.filter]. unfold Spec.impureTarget.
    rewrite (analyzeFileImports_ignores_visited P foundFile fileContents projectRoot tsConfig
               purityConfig ∅ visited), Himpure.
    reflexivity.
Qed.

Lemma transitiveLoopTraced (P : Platform) (fileContents : FileContents)
    (projectRoot : string) (tsConfig : TsConfigPaths) (purityConfig : PurityConfig)
    (visited : gset string) (currentFileDir : string) (imports : list ImportInfo) :
  forall (reasons : list Reason) (analysed : list string),
  exists rs fs,
    tryForOf
      (transitiveStepTraced P fileContents projectRoot tsConfig purityConfig visited
         currentFileDir) imports (reasons, analysed)
    = (reasons ++ rs, analysed ++ fs)
    /\ tryForOf
         (transitiveStep P fileContents projectRoot tsConfig purityConfig visited currentFileDir)
         imports reasons
       = reasons ++ rs
    /\ (length fs <= length (List.filter Spec.isRelative imports))%nat
    /\ Forall (fun f => existsSync P f = true /\ mapHas fileContents f = true) fs
    /\ map resolvedPath rs
       = map Some
           (List.filter (Spec.impureTarget P fileContents projectRoot tsConfig purityConfig) fs)
    /\ Forall (fun r => type r = Transitive) rs.
Proof.
  induction imports as [|imp imports IH]; intros reasons analysed.
  - exists [], []. rewrite !app_nil_r. simpl. repeat split; try constructor.
  - cbn [tryForOf].
    destruct (transitiveStepTraced_cases P fileContents projectRoot tsConfig purityConfig visited
                currentFileDir reasons analysed imp)
      as [[-> ->] | (rs1 & fs1 & -> & -> & Hlen1 & Hfs1 & Hmap1 & Hty1)].
    + exists [], []. rewrite !app_nil_r. simpl. repeat split; try constructor. lia.
    + destruct (IH (reasons ++ rs1) (analysed ++ fs1))
        as (rs2 & fs2 & -> & -> & Hlen2 & Hfs2 & Hmap2 & Hty2).
      exists (rs1 ++ rs2), (fs1 ++ fs2). rewrite <- !app_assoc.
      split; [reflexivity|]. split; [reflexivity|].
      split.
      { change (imp :: imports) with ([imp] ++ imports).
        rewrite List.filter_app, !length_app. lia. }
      split; [apply Forall_app; split; assumption|].
      split; [| apply Forall_app; split; assumption].
      rewrite map_app, List.filter_app, map_app, Hmap1, Hmap2. reflexivity.
Qed.

(** C6. [checkTransitiveImports] returns on every input, whatever the
    import graph. A file already in [visited] is skipped with no reason and
    nothing analysed; otherwise the file itself, and nothing else, enters
    [visited], its import edges are walked once, and each relative edge
    hands at most one file to the direct check, which follows no import and
    does not look at [visited]. So at most as many files are analysed as
    the file has relative edges, each of them exists and is a key of the
    content mapping, and the reasons returned are one transitive reason per
    analysed file in which the direct check finds a reason, in the order of
    the edges; a file reached by two edges is analysed once for each. *)
Theorem checkTransitiveImports_terminates (P : Platform) (filePath : string)
    (fileContents : FileContents) (projectRoot : string) (tsConfig : TsConfigPaths)
    (purityConfig : PurityConfig) (visited : gset string) :
  exists reasons visited' analysed,
    checkTransitiveImportsTraced P filePath fileContents projectRoot tsConfig purityConfig
      visited = (reasons, visited', analysed)
    /\ checkTransitiveImports P filePath fileContents projectRoot tsConfig purityConfig visited
       = (reasons, visited')
    /\ (filePath ∈ visited -> reasons = [] /\ analysed = [] /\ visited' = visited)
    /\ (filePath ∉ visited -> visited' = {[filePath]} ∪ visited)
    /\ (length analysed <= length (Spec.relativeEdges P filePath fileContents))%nat
    /\ Forall (fun f => existsSync P f = true /\ mapHas fileContents f = true) analysed
    /\ map resolvedPath reasons
       = map Some
           (List.filter (Spec.impureTarget P fileContents projectRoot tsConfig purityConfig)
              analysed)
    /\ Forall (fun r => type r = Transitive) reasons.
Proof.
  assert (Hnothing : forall v n,
            ([] : list Reason) = [] /\ (v : gset string) = v
            /\ (length ([] : list string) <= n)%nat
            /\ Forall (fun f => existsSync P f = true /\ mapHas fileContents f = true) []
            /\ map resolvedPath []
               = map Some
                   (List.filter
                      (Spec.impureTarget P fileContents projectRoot tsConfig purityConfig) [])
            /\ Forall (fun r : Reason => type r = Transitive) []).
  { intros v n. simpl. repeat split; try constructor. lia. }
  unfold checkTransitiveImportsTraced, checkTransitiveImports, Spec.relativeEdges, Spec.edgesOf.
  destruct (decide (filePath ∈ visited)) as [Hin|Hout].
  - rewrite !bool_decide_eq_true_2 by exact Hin.
    exists [], visited, []. split; [reflexivity|]. split; [reflexivity|].
    split; [auto|]. split; [intros Hn; contradiction|].
    destruct (Hnothing visited
                (length (List.filter Spec.isRelative
                   match mapGet fileContents filePath with
                   | Some content =>
                       if Js.truthy content
                       then match createSourceFile P filePath content (scriptKindOf P filePath) with
                            | Returns sourceFile => extractImports sourceFile
                            | Throws => []
                            end
                       else []
                   | None => []
                   end))) as (_ & _ & H).
    exact H.
  - rewrite !bool_decide_eq_false_2 by exact Hout.
    destruct (mapGet fileContents filePath) as [content|].
    2:{ exists [], ({[filePath]} ∪ visited), []. split; [reflexivity|]. split; [reflexivity|].
        split; [intros Hv; contradiction|]. split; [reflexivity|].
        destruct (Hnothing visited 0%nat) as (_ & _ & H). exact H. }
    destruct (Js.truthy content); cbn [negb].
    2:{ exists [], ({[filePath]} ∪ visited), []. split; [reflexivity|]. split; [reflexivity|].
        split; [intros Hv; contradiction|]. split; [reflexivity|].
        destruct (Hnothing visited 0%nat) as (_ & _ & H). exact H. }
    destruct (createSourceFile P filePath content (scriptKindOf P filePath)) as [sourceFile|].
    2:{ exists [], ({[filePath]} ∪ visited), []. split; [reflexivity|]. split; [reflexivity|].
        split; [intros Hv; contradiction|]. split; [reflexivity|].
        destruct (Hnothing visited 0%nat) as (_ & _ & H). exact H. }
    destruct (transitiveLoopTraced P fileContents projectRoot tsConfig purityConfig
                ({[filePath]} ∪ visited) (dirname P filePath) (extractImports sourceFile) [] [])
      as (rs & fs & -> & -> & Hlen & Hfs & Hmap & Hty).
    exists rs, ({[filePath]} ∪ visited), fs. simpl.
    split; [reflexivity|]. split; [reflexivity|].
    split; [intros Hv; contradiction|]. split; [reflexivity|].
    repeat split; assumption.
Qed.

(** A relative-import cycle: [a.ts] imports [./b] and [b.ts] imports
    [./a]; both get a report. *)
Example cycle_gets_reports :
  let reports :=
    analyzeImportBoundaries Examples.node Examples.fileContents "/p" Examples.purityConfig in
  reports !! "ui/a.ts" = Some (mkImportBoundaryReport "ui/a.ts" true Pure 0 [])
  /\ reports !! "ui/b.ts" = Some (mkImportBoundaryReport "ui/b.ts" true Pure 0 []).
Proof. vm_compute. split; reflexivity. Qed.

Lemma checkTransitiveImports_terminates_witness :
  checkTransitiveImports Examples.node "/p/ui/a.ts" Examples.fileContents "/p" noTsConfig
    Examples.purityConfig ∅ = ([], {["/p/ui/a.ts"]})
  /\ checkTransitiveImports Examples.node "/p/ui/b.ts" Examples.fileContents "/p" noTsConfig
       Examples.purityConfig ∅ = ([], {["/p/ui/b.ts"]}).
Proof.
  split.
  - destruct (checkTransitiveImports_terminates Examples.node "/p/ui/a.ts" Examples.fileContents
                "/p" noTsConfig Examples.purityConfig ∅)
      as (reasons & visited' & analysed & Htraced & -> & _).
    vm_compute in Htraced. injection Htraced as <- <- <-. vm_compute. reflexivity.
  - destruct (checkTransitiveImports_terminates Examples.node "/p/ui/b.ts" Examples.fileContents
                "/p" noTsConfig Examples.purityConfig ∅)
      as (reasons & visited' & analysed & Htraced & -> & _).
    vm_compute in Htraced. injection Htraced as <- <- <-. vm_compute. reflexivity.
Defined.

(** C6, as the specification has it, fails: [twice.tsx] imports
    [./helper] on two lines; [helper.ts] is handed to the direct check
    twice in one traversal, two transitive reasons name it, and it never
    enters [visited]. *)
Lemma target_analysed_twice :
  exists reason visited',
    checkTransitiveImportsTraced Examples.node "/p/ui/twice.tsx" Examples.twiceContents "/p"
      noTsConfig Examples.purityConfig ∅
    = ([reason; reason], visited', ["/p/ui/helper.ts"; "/p/ui/helper.ts"])
    /\ checkTransitiveImports Examples.node "/p/ui/twice.tsx" Examples.twiceContents "/p"
         noTsConfig Examples.purityConfig ∅ = ([reason; reason], visited')
    /\ resolvedPath reason = Some "/p/ui/helper.ts"
    /\ ("/p/ui/helper.ts" ∉ visited')
    /\ (~ NoDup (snd (checkTransitiveImportsTraced Examples.node "/p/ui/twice.tsx"
                        Examples.twiceContents "/p" noTsConfig Examples.purityConfig ∅))).
Proof.
  eexists. eexists. split; [vm_compute; reflexivity|]. split; [vm_compute; reflexivity|].
  split; [reflexivity|]. split.
  - vm_compute. discriminate.
  - intros H. vm_compute in H. apply NoDup_cons in H as [H _]. apply H. left.
Qed.

(** *** The candidates probed for a relative import *)

Lemma candidateFor_resolved (resolved ext : string) :
  In ext extensions -> candidateFor resolved ext = resolved -> Js.endsWith resolved ext = true.
Proof.
  intros Hext. unfold candidateFor.
  destruct (Js.endsWith resolved ext); [reflexivity|].
  intros H. apply append_same_empty in H. subst ext.
  simpl in Hext. intuition discriminate.
Qed.

Lemma probe_spec (P : Platform) (fileContents : FileContents) (resolved : string)
    (exts : list string) :
  let hit c := existsSync P c && mapHas fileContents c in
  let all := map (candidateFor resolved) exts in
  (exists rest, all = snd (probe P fileContents resolved exts) ++ rest)
  /\ match fst (probe P fileContents resolved exts) with
     | Some f =>
         exists earlier,
           snd (probe P fileContents resolved exts) = earlier ++ [f]
           /\ hit f = true /\ Forall (fun c => hit c = false) earlier
     | None =>
         snd (probe P fileContents resolved exts) = all /\ Forall (fun c => hit c = false) all
     end.
Proof.
  intros hit all. subst all. induction exts as [|ext exts IH]; simpl.
  - split; [exists []; reflexivity|]. split; [reflexivity | constructor].
  - fold (hit (candidateFor resolved ext)).
    destruct (hit (candidateFor resolved ext)) eqn:E; simpl.
    + split; [eexists; reflexivity|].
      exists []. split; [reflexivity|]. split; [exact E | constructor].
    + destruct (probe P fileContents resolved exts) as [found probed]. simpl in *.
      destruct IH as [[rest Hrest] IH]. split.
      * exists rest. rewrite Hrest. reflexivity.
      * destruct found as [f|].
        -- destruct IH as (earlier & -> & Hf & Hearlier).
           exists (candidateFor resolved ext :: earlier).
           split; [reflexivity|]. split; [exact Hf|]. constructor; assumption.
        -- destruct IH as [-> Hall]. split; [reflexivity|]. constructor; assumption.
Qed.

(** C3, as the code has it. For a resolved relative import the candidates
    are, for the suffixes [.ts], [.tsx], [.js], [.jsx] in this order, the
    resolved path itself when it already ends with the suffix and the
    resolved path followed by the suffix otherwise. They are probed in
    order until one exists on disk and is a key of the content mapping;
    that one is [foundFile]. The resolved path as given is probed only
    when it ends with one of the four suffixes. *)
Theorem probe_candidates (P : Platform) (fileContents : FileContents) (resolved : string) :
  let hit c := existsSync P c && mapHas fileContents c in
  let all :=
    [candidateFor resolved ".ts"; candidateFor resolved ".tsx";
     candidateFor resolved ".js"; candidateFor resolved ".jsx"] in
  let foundFile := fst (probe P fileContents resolved extensions) in
  let probed := snd (probe P fileContents resolved extensions) in
  (forall ext, candidateFor resolved ext
               = if Js.endsWith resolved ext then resolved else resolved +:+ ext)
  /\ (exists rest, all = probed ++ rest)
  /\ match foundFile with
     | Some f =>
         exists earlier,
           probed = earlier ++ [f] /\ hit f = true /\ Forall (fun c => hit c = false) earlier
     | None => probed = all /\ Forall (fun c => hit c = false) all
     end
  /\ (In resolved probed -> exists ext, In ext extensions /\ Js.endsWith resolved ext = true).
Proof.
  intros hit all foundFile probed.
  destruct (probe_spec P fileContents resolved extensions) as [Hprefix Hfound].
  split; [reflexivity|]. split; [exact Hprefix|]. split; [exact Hfound|].
  intros Hin. destruct Hprefix as [rest Hrest].
  assert (Hall : In resolved (map (candidateFor resolved) extensions)).
  { rewrite Hrest. apply in_or_app. left. exact Hin. }
  apply in_map_iff in Hall as (ext & Heq & Hext).
  exists ext. split; [exact Hext|]. apply candidateFor_resolved; assumption.
Qed.

Lemma probe_candidates_witness :
  In "/p/ui/helper.ts" (snd (probe Examples.node Examples.fileContents "/p/ui/helper.ts"
                               extensions))
  /\ exists ext, In ext extensions /\ Js.endsWith "/p/ui/helper.ts" ext = true.
Proof.
  assert (Hin : In "/p/ui/helper.ts"
                  (snd (probe Examples.node Examples.fileContents "/p/ui/helper.ts"
                          extensions))).
  { vm_compute. left. reflexivity. }
  split; [exact Hin|].
  exact (proj2 (proj2 (proj2 (probe_candidates Examples.node Examples.fileContents
                                "/p/ui/helper.ts"))) Hin).
Defined.

(** C3, as the specification has it, fails: the import ["./widget"] of a
    file of [/p/ui] resolves to [/p/ui/widget]; the four candidates with
    a suffix appended are probed, the resolved path itself is not. *)
Lemma resolved_path_not_probed :
  resolvePathAlias Examples.node "./widget" noTsConfig "/p" "/p/ui"
    = Returns (Some "/p/ui/widget")
  /\ snd (probe Examples.node Examples.fileContents "/p/ui/widget" extensions)
     = ["/p/ui/widget.ts"; "/p/ui/widget.tsx"; "/p/ui/widget.js"; "/p/ui/widget.jsx"]
  /\ ~ In "/p/ui/widget"
         (snd (probe Examples.node Examples.fileContents "/p/ui/widget" extensions)).
Proof.
  split; [reflexivity|]. split; [reflexivity|].
  vm_compute. intros H. repeat (destruct H as [H|H]; [discriminate H|]). exact H.
Qed.

(** ** Direct and transitive reasons in one report *)

Lemma carries_app (t : ReasonType) (xs ys : list Reason) :
  Spec.carries t (xs ++ ys) <-> Spec.carries t xs \/ Spec.carries t ys.
Proof.
  unfold Spec.carries. split.
  - intros (r & Hin & Ht). apply in_app_or in Hin as [Hin|Hin]; [left | right]; eauto.
  - intros [(r & Hin & Ht) | (r & Hin & Ht)]; exists r; split; auto using in_or_app.
Qed.

Lemma carries_Forall (t : ReasonType) (Q : Reason -> Prop) (xs : list Reason) :
  Forall Q xs -> (forall r, Q r -> type r <> t) -> ~ Spec.carries t xs.
Proof.
  intros HQ Hne (r & Hin & Ht). rewrite List.Forall_forall in HQ.
  apply (Hne r); [apply HQ|]; assumption.
Qed.

(** C1, as the code has it. For every analyzed UI-candidate file the
    transitive check runs whether or not the direct check found reasons:
    the reasons of the report are the direct reasons, then the reasons of
    the transitive check started with an empty [visited], then at most one
    data-fetching reason. So the report carries a transitive reason
    exactly when the transitive check returns one, also when the file has
    direct forbidden-import reasons. *)
Theorem transitive_check_always_runs (P : Platform) (filePath relativePath : string)
    (fileContents : FileContents) (projectRoot : string) (tsConfig : TsConfigPaths)
    (purityConfig : PurityConfig) (report : ImportBoundaryReport) :
  analyzeFile P filePath relativePath fileContents projectRoot tsConfig purityConfig
    = Some report ->
  let direct :=
    analyzeFileImports P filePath fileContents projectRoot tsConfig purityConfig ∅ in
  let transitive :=
    fst (checkTransitiveImports P filePath fileContents projectRoot tsConfig purityConfig ∅) in
  exists fetching,
    reasons report = direct ++ transitive ++ fetching
    /\ (length fetching <= 1)%nat
    /\ Forall (fun r => type r = DataFetching) fetching
    /\ (Spec.carries Transitive (reasons report) <-> transitive <> []).
Proof.
  intros Hreport direct transitive. revert Hreport. unfold analyzeFile.
  destruct (negb (isUiCandidatePath relativePath purityConfig)); [discriminate|].
  destruct (mapGet fileContents filePath) as [content|] eqn:Hget; [|discriminate].
  destruct (negb (Js.truthy content)); [discriminate|].
  intros [= <-]. simpl.
  pose proof (analyzeFileImports_reasons P filePath fileContents projectRoot tsConfig
                purityConfig ∅) as Hdirect. fold direct in Hdirect.
  destruct (checkTransitiveImports_call P filePath fileContents projectRoot tsConfig
              purityConfig ∅) as (ts & visited' & Hcall & _ & _ & _ & Htrans & _).
  assert (Hts : transitive = ts) by (subst transitive; rewrite Hcall; reflexivity).
  assert (Hshape : exists fetching,
            collectReasons P filePath content fileContents projectRoot tsConfig purityConfig
            = direct ++ transitive ++ fetching
            /\ (length fetching <= 1)%nat
            /\ Forall (fun r => type r = DataFetching) fetching).
  { unfold collectReasons. fold direct. rewrite Hcall. rewrite <- Hts.
    destruct (existsb (fun pattern => regExpTest P pattern content) dataFetchingPatterns);
      simpl.
    - eexists. rewrite <- app_assoc. split; [reflexivity|].
      split; [simpl; lia | repeat constructor].
    - exists []. rewrite app_nil_r. split; [reflexivity|]. split; [simpl; lia | constructor]. }
  destruct Hshape as (fetching & -> & Hlen & Hfetch).
  exists fetching. split; [reflexivity|]. split; [exact Hlen|]. split; [exact Hfetch|].
  rewrite !carries_app. split.
  - intros [H | [H | H]].
    + exfalso. revert H. apply (carries_Forall _ _ _ Hdirect).
      intros r [-> | ->]; discriminate.
    + destruct H as (r & Hin & _). intros E. rewrite E in Hin. destruct Hin.
    + exfalso. revert H. apply (carries_Forall _ _ _ Hfetch). intros r ->. discriminate.
  - intros Hne. right. left. rewrite Hts in *.
    destruct ts as [|r ts']; [congruence|].
    exists r. split; [left; reflexivity|]. inversion Htrans; assumption.
Qed.

Lemma transitive_check_always_runs_witness :
  exists report,
    analyzeFile Examples.node "/p/ui/card.tsx" "ui/card.tsx" Examples.fileContents "/p"
      noTsConfig Examples.purityConfig = Some report
    /\ Spec.carries Transitive (reasons report).
Proof.
  eexists. split; [vm_compute; reflexivity|].
  destruct (transitive_check_always_runs Examples.node "/p/ui/card.tsx" "ui/card.tsx"
              Examples.fileContents "/p" noTsConfig Examples.purityConfig _ eq_refl)
    as (fetching & _ & _ & _ & Hiff).
  apply Hiff. vm_compute. discriminate.
Defined.

(** C1, as the specification has it, fails: [card.tsx] has a direct
    forbidden-import reason, and its report carries a transitive reason
    as well. *)
Lemma direct_and_transitive_together :
  exists report,
    analyzeFile Examples.node "/p/ui/card.tsx" "ui/card.tsx" Examples.fileContents "/p"
      noTsConfig Examples.purityConfig = Some report
    /\ Spec.carries ForbiddenImport
         (analyzeFileImports Examples.node "/p/ui/card.tsx" Examples.fileContents "/p"
            noTsConfig Examples.purityConfig ∅)
    /\ Spec.carries ForbiddenImport (reasons report)
    /\ Spec.carries Transitive (reasons report).
Proof.
  eexists. split; [vm_compute; reflexivity|].
  split; [|split]; vm_compute.
  - eexists. split; [left; reflexivity | reflexivity].
  - eexists. split; [left; reflexivity | reflexivity].
  - eexists. split; [right; left; reflexivity | reflexivity].
Qed.

(** ** Alias resolution *)

Lemma aliasLoop_passedOver (P : Platform) (importPath : string) (tsConfig : TsConfigPaths)
    (projectRoot : string) (before rest : list (string * list string)) :
  Forall (Spec.passedOver P importPath) before ->
  aliasLoop P importPath tsConfig projectRoot (before ++ rest)
  = aliasLoop P importPath tsConfig projectRoot rest.
Proof.
  induction 1 as [|[pattern replacements] before Hentry _ IH]; simpl; [reflexivity|].
  destruct Hentry as [Hmiss | (group1 & Hhit & Hnone)].
  - simpl in Hmiss. rewrite Hmiss. simpl. exact IH.
  - unfold Spec.matchesWith in Hhit. simpl in Hhit. rewrite Hhit. simpl.
    unfold Spec.replacementOf in Hnone. simpl in Hnone.
    destruct replacements as [|replacement more]; [exact IH|].
    destruct (Js.truthy replacement); [discriminate | exact IH].
Qed.

(** C7, as the code has it. The alias patterns are tried first, in
    declaration order, and the first one that matches the specifier and
    has a non-empty first replacement wins: the wildcard capture (without
    [$]) replaces every [*] of that replacement, and the result is
    resolved against the project root and the configured base directory
    (the project root if unset); entries that do not match, or that match
    without a replacement, are passed over. When every entry is passed
    over, a specifier starting with [/] resolves relative to the project
    root, one starting with [.] relative to the directory of the current
    file, and any other specifier gives [null]. In each of these cases the
    resolver returns and raises nothing. *)
Theorem resolvePathAlias_order (P : Platform) (importPath : string) (tsConfig : TsConfigPaths)
    (projectRoot currentFileDir : string) :
  (forall before pattern replacement more after group1,
     paths tsConfig = Some (before ++ (pattern, replacement :: more) :: after) ->
     Forall (Spec.passedOver P importPath) before ->
     Spec.matchesWith P importPath (pattern, replacement :: more) group1 ->
     replacement <> "" ->
     Js.dollarFree (Js.orEmpty group1) = true ->
     resolvePathAlias P importPath tsConfig projectRoot currentFileDir
     = Returns (Some (resolve P [projectRoot; Spec.baseOf tsConfig projectRoot;
                                 Js.substituteStar replacement (Js.orEmpty group1)])))
  /\ (forall entries,
        paths tsConfig = Some entries \/ (paths tsConfig = None /\ entries = []) ->
        Forall (Spec.passedOver P importPath) entries ->
        resolvePathAlias P importPath tsConfig projectRoot currentFileDir
        = Returns (if Js.startsWith importPath "/"
                   then Some (resolve P [projectRoot; Js.slice1 importPath])
                   else if Js.startsWith importPath "."
                        then Some (resolve P [currentFileDir; importPath])
                        else None)).
Proof.
  split.
  - intros before pattern replacement more after group1 Hpaths Hbefore Hhit Hrep Hdollar.
    unfold resolvePathAlias. rewrite Hpaths.
    rewrite aliasLoop_passedOver by exact Hbefore. simpl.
    unfold Spec.matchesWith in Hhit. simpl in Hhit. rewrite Hhit. simpl.
    apply truthy_true in Hrep. rewrite Hrep. simpl.
    rewrite replaceStar_dollarFree by exact Hdollar. reflexivity.
  - intros entries Hpaths Hall.
    assert (Hloop : (match paths tsConfig with
                     | Some es => aliasLoop P importPath tsConfig projectRoot es
                     | None => Returns None
                     end) = Returns None).
    { destruct Hpaths as [-> | [-> _]]; [|reflexivity].
      rewrite <- (app_nil_r entries). rewrite aliasLoop_passedOver by exact Hall.
      reflexivity. }
    unfold resolvePathAlias. rewrite Hloop. simpl.
    destruct (Js.startsWith importPath "/"); [rewrite orb_true_r; reflexivity|].
    rewrite orb_false_r. destruct (Js.startsWith importPath "."); reflexivity.
Qed.

Lemma resolvePathAlias_order_witness :
  resolvePathAlias Examples.node "@/lib/db" Examples.aliases "/p" "/p/ui"
    = Returns (Some "/p/src/lib/db")
  /\ resolvePathAlias Examples.node "react" Examples.aliases "/p" "/p/ui" = Returns None.
Proof.
  split.
  - exact (proj1 (resolvePathAlias_order Examples.node "@/lib/db" Examples.aliases "/p" "/p/ui")
             [] "@/*" "src/*" [] [] (Some "lib/db") eq_refl (List.Forall_nil _) eq_refl
             ltac:(discriminate) eq_refl).
  - refine (proj2 (resolvePathAlias_order Examples.node "react" Examples.aliases "/p" "/p/ui")
              [("@/*", ["src/*"])] (or_introl eq_refl) _).
    constructor; [left; reflexivity | constructor].
Defined.

(** C7, as the specification has it, fails: the first pattern of the
    table, [@/*], matches ["@/lib/db"], but it has no replacement and the
    second entry decides the result. *)
Lemma first_match_does_not_win :
  regExpMatch Examples.node (aliasRegExpSource "@/*") "@/lib/db" = Returns (Some (Some "lib/db"))
  /\ paths Examples.aliasesWithGap = Some [("@/*", []); ("@/lib/*", ["src/lib/*"])]
  /\ resolvePathAlias Examples.node "@/lib/db" Examples.aliasesWithGap "/p" "/p/ui"
     = Returns (Some (resolve Examples.node ["/p"; "/p"; Js.substituteStar "src/lib/*" "db"])).
Proof. split; [|split]; reflexivity. Qed.

(** ** Native element counts *)

Lemma objSet_lookup_eq {V : Type} (key : string) (value : V) (obj : gmap string V) :
  key <> "__proto__" -> objSet key value obj !! key = Some value.
Proof.
  intros Hkey. unfold objSet.
  destruct (String.eqb_spec key "__proto__"); [contradiction|]. apply lookup_insert_eq.
Qed.

Lemma objSet_lookup_other {V : Type} (key k : string) (value : V) (obj : gmap string V) :
  k <> key \/ key = "__proto__" -> objSet key value obj !! k = obj !! k.
Proof.
  intros H. unfold objSet.
  destruct (String.eqb_spec key "__proto__") as [Hp|Hp]; [reflexivity|].
  destruct H as [H|H]; [|contradiction]. apply lookup_insert_ne. congruence.
Qed.


Lemma countElements_lookup (P : Platform) (content : string) (elements : list string) :
  forall counts0 counts,
    BusinessLogic.countElements P content elements counts0 = Returns counts ->
    forall e,
      (In e elements -> e <> "__proto__" -> counts !! e = Some (Spec.occurrences P content e))
      /\ (~ (In e elements /\ e <> "__proto__") -> counts !! e = counts0 !! e).
Proof.
  induction elements as [|element rest IH]; intros counts0 counts Hrun e; simpl in Hrun.
  - injection Hrun as <-. split; [intros []|reflexivity].
  - destruct (regExpMatchAll P (BusinessLogic.nativePattern element) content) as [ms|] eqn:E;
      simpl in Hrun; [|discriminate].
    destruct (IH _ _ Hrun e) as [Hin Hout].
    destruct (in_dec string_dec e rest) as [Hrest|Hrest].
    + split.
      * intros _ Hp. apply Hin; assumption.
      * intros Hn. destruct (string_dec e "__proto__") as [->|Hp].
        -- rewrite Hout by (intros [_ Hq]; apply Hq; reflexivity).
           apply objSet_lookup_other.
           destruct (string_dec element "__proto__") as [Hq|Hq]; [right; exact Hq|].
           left. congruence.
        -- exfalso. apply Hn. split; [right; exact Hrest | exact Hp].
    + split.
      * intros [<- | Hr] Hp; [|contradiction].
        rewrite Hout by tauto. rewrite objSet_lookup_eq by exact Hp.
        unfold Spec.occurrences. rewrite E. reflexivity.
      * intros Hn. rewrite Hout by tauto. apply objSet_lookup_other.
        destruct (string_dec element "__proto__") as [Hp|Hp]; [right; exact Hp|].
        left. intros ->. apply Hn. split; [left; reflexivity | exact Hp].
Qed.



Lemma occurrences_nonneg (P : Platform) (content element : string) :
  0 <= Spec.occurrences P content element.
Proof.
  unfold Spec.occurrences.
  destruct (regExpMatchAll P (BusinessLogic.nativePattern element) content); lia.
Qed.



(** ** Worked examples *)

Example posix_paths :
  Posix.resolve "/work" ["/p/ui"; "./helper"] = "/p/ui/helper"
  /\ Posix.resolve "/work" ["/p/ui"; "../lib//db/."] = "/p/lib/db"
  /\ Posix.resolve "/work" ["src"; "a.ts"] = "/work/src/a.ts"
  /\ Posix.dirname "/p/ui/card.tsx" = "/p/ui"
  /\ Posix.extname "/p/ui/card.tsx" = ".tsx"
  /\ Posix.relative "/work" "/p" "/p/ui/card.tsx" = "ui/card.tsx"
  /\ Posix.join ["/p"; "tsconfig.json"] = "/p/tsconfig.json".
Proof. repeat split; reflexivity. Qed.

Example alias_patterns :
  aliasRegExpSource "@/*" = "^@/(.+)$"
  /\ MiniRegExp.regExpMatch "^@/(.+)$" "@/lib/db" = Returns (Some (Some "lib/db"))
  /\ MiniRegExp.regExpMatch "^@/(.+)$" "react" = Returns None
  /\ MiniRegExp.regExpMatch (aliasRegExpSource "c++/*") "react" = Throws.
Proof. repeat split; reflexivity. Qed.

(** [$&] in a capture is expanded by [replace]: the star comes back. *)
Example dollar_in_capture :
  Js.replaceStar "src/*" "a$&b" = "src/a*b"
  /\ Js.substituteStar "src/*" "a$&b" = "src/a$&b".
Proof. split; reflexivity. Qed.

(** Four forbidden imports weigh 120; the score is 100. *)
Example clamped_score :
  let content :=
    "import a from '@/lib/a';" +:+ Examples.nl +:+ "import b from '@/lib/b';" +:+ Examples.nl
    +:+ "import c from '@/db/c';" +:+ Examples.nl +:+ "import d from '@/db/d';" in
  exists report,
    analyzeFile Examples.node "/p/ui/big.tsx" "ui/big.tsx" [("/p/ui/big.tsx", content)] "/p"
      noTsConfig Examples.purityConfig = Some report
    /\ Spec.weightSum (reasons report) = 120
    /\ score report = 100
    /\ purity report = Impure.
Proof. eexists. split; [vm_compute; reflexivity|]. repeat split. Qed.

(** An import that only the allowed matchers would name is no reason. *)
Example pure_component :
  analyzeFile Examples.node "/p/ui/pure.tsx" "ui/pure.tsx"
    [("/p/ui/pure.tsx", "import React from 'react';")] "/p" noTsConfig Examples.purityConfig
  = Some (mkImportBoundaryReport "ui/pure.tsx" true Pure 0 []).
Proof. reflexivity. Qed.

Example risk_tiers :
  BusinessLogic.riskLevel
    (BusinessLogic.assessRisk Examples.noSignals 0 120 Examples.thresholds) = BusinessLogic.Safe
  /\ BusinessLogic.riskLevel
       (BusinessLogic.assessRisk (BusinessLogic.mkBusinessSignals 4 0 0 false false false)
          0 120 Examples.thresholds) = BusinessLogic.PageLevel
  /\ BusinessLogic.assessRisk Examples.noSignals 1 120 Examples.thresholds
     = BusinessLogic.mkComplexity BusinessLogic.Careful 2 ["1 native HTML element"].
Proof. repeat split; reflexivity. Qed.

(** * Further properties of the analyzers *)

(** ** Import extraction *)

Lemma Node_induction (Q : Node -> Prop) :
  (forall node, Forall Q (nodeChildren node) -> Q node) -> forall node, Q node.
Proof.
  intros H. fix IH 1. intros node. apply H.
  destruct node as [l spec cs | l callee arg cs | cs]; simpl;
    (induction cs as [|child cs IHcs]; [constructor | constructor; [apply IH | exact IHcs]]).
Qed.

Lemma visit_children (node : Node) (imports : list ImportInfo) :
  visit node imports
  = fold_left (fun acc child => visit child acc) (nodeChildren node)
      (imports ++ importsOfNode node).
Proof.
  assert (Hloop : forall cs acc,
    (fix forEachChild (cs : list Node) (acc : list ImportInfo) : list ImportInfo :=
       match cs with
       | [] => acc
       | child :: cs' => forEachChild cs' (visit child acc)
       end) cs acc
    = fold_left (fun acc child => visit child acc) cs acc).
  { induction cs as [|child cs IH]; intros acc; simpl; [reflexivity | apply IH]. }
  destruct node; simpl; apply Hloop.
Qed.

Lemma visit_appends (node : Node) :
  forall imports, visit node imports = imports ++ extractImports node.
Proof.
  induction node as [node IH] using Node_induction. intros imports.
  unfold extractImports. rewrite !visit_children. simpl.
  generalize (importsOfNode node). intros own.
  assert (Hfold : forall acc1 acc2,
    fold_left (fun acc child => visit child acc) (nodeChildren node) (acc1 ++ acc2)
    = acc1 ++ fold_left (fun acc child => visit child acc) (nodeChildren node) acc2).
  { induction IH as [|child cs Hchild _ IHcs]; intros acc1 acc2; simpl; [reflexivity|].
    rewrite (Hchild (acc1 ++ acc2)), (Hchild acc2), <- app_assoc. apply IHcs. }
  apply Hfold.
Qed.

Lemma fold_visit_concat (cs : list Node) (acc : list ImportInfo) :
  fold_left (fun acc child => visit child acc) cs acc
  = acc ++ concat (map extractImports cs).
Proof.
  revert acc. induction cs as [|child cs IH]; intros acc; simpl.
  - rewrite app_nil_r. reflexivity.
  - rewrite IH, visit_appends, <- app_assoc. reflexivity.
Qed.

Lemma extractImports_unfold (node : Node) :
  extractImports node
  = importsOfNode node ++ concat (map extractImports (nodeChildren node)).
Proof. unfold extractImports. rewrite visit_children, fold_visit_concat. reflexivity. Qed.

(** X1. The import edges of a tree come in document order: the edge of a
    node itself, then the edges of its children from first to last; and
    visiting a node only appends to the edges collected so far. *)
Theorem extractImports_preorder (node : Node) :
  extractImports node
  = importsOfNode node ++ concat (map extractImports (nodeChildren node))
  /\ forall imports, visit node imports = imports ++ extractImports node.
Proof.
  split; [apply extractImports_unfold | apply visit_appends].
Qed.

Lemma nodeCount_unfold (node : Node) :
  Spec.nodeCount node = S (list_sum (map Spec.nodeCount (nodeChildren node))).
Proof.
  assert (Hloop : forall cs,
    (fix countAll (cs : list Node) : nat :=
       match cs with
       | [] => O
       | child :: cs' => (Spec.nodeCount child + countAll cs')%nat
       end) cs
    = list_sum (map Spec.nodeCount cs)).
  { induction cs as [|child cs IH]; simpl; [reflexivity | rewrite IH; reflexivity]. }
  destruct node; simpl; rewrite Hloop; reflexivity.
Qed.

Lemma importsOfNode_one (node : Node) :
  (length (importsOfNode node) <= 1)%nat
  /\ Forall (fun imp => isDynamic imp && isRequire imp = false) (importsOfNode node).
Proof.
  destruct node as [l spec cs | l callee arg cs | cs]; simpl.
  - destruct (stringLiteralText spec); simpl; split; try lia; repeat constructor.
  - destruct callee as [| name |]; destruct (stringLiteralText arg); simpl;
      try (split; [lia | repeat constructor]).
    destruct (String.eqb name "require"); simpl; split; try lia; repeat constructor.
  - split; [lia | constructor].
Qed.

(** X2. Every node of the tree yields at most one import edge, so there
    are no more edges than nodes; and no edge is both a dynamic import
    and a [require]. *)
Theorem extractImports_one_per_node (node : Node) :
  (length (extractImports node) <= Spec.nodeCount node)%nat
  /\ Forall (fun imp => isDynamic imp && isRequire imp = false) (extractImports node).
Proof.
  induction node as [node IH] using Node_induction.
  rewrite extractImports_unfold, nodeCount_unfold.
  destruct (importsOfNode_one node) as [Hlen Hown].
  assert (Hchildren :
    (length (concat (map extractImports (nodeChildren node)))
     <= list_sum (map Spec.nodeCount (nodeChildren node)))%nat
    /\ Forall (fun imp => isDynamic imp && isRequire imp = false)
         (concat (map extractImports (nodeChildren node)))).
  { induction IH as [|child cs [Hc1 Hc2] _ [IH1 IH2]]; simpl.
    - split; [lia | constructor].
    - split; [rewrite length_app; lia | apply Forall_app; split; assumption]. }
  destruct Hchildren as [Hclen Hcall].
  split; [rewrite length_app; lia | apply Forall_app; split; assumption].
Qed.

(** ** Matchers *)

Lemma prefix_exists (p s : string) :
  String.prefix p s = true <-> exists rest, s = p +:+ rest.
Proof.
  revert s. induction p as [|c p IH]; intros s; simpl.
  - destruct s; (split; [intros _; eexists; reflexivity | reflexivity]).
  - destruct s as [|d s].
    + split; [discriminate | intros [rest [=]]].
    + simpl. destruct (ascii_dec c d) as [->|Hne].
      * destruct (IH s) as [IH1 IH2]. split.
        -- intros H. apply IH1 in H as [rest ->]. exists rest. reflexivity.
        -- intros [rest H]. apply IH2. exists rest. injection H as ->. reflexivity.
      * split; [discriminate | intros [rest [= ? ?]]; congruence].
Qed.

Lemma append_assoc (a b c : string) : (a +:+ b) +:+ c = a +:+ (b +:+ c).
Proof.
  induction a as [|x a IH]; [reflexivity|].
  change (String x ((a +:+ b) +:+ c) = String x (a +:+ (b +:+ c))). f_equal. exact IH.
Qed.

(** X3. A specifier matches a list of matchers exactly when one of them
    accepts it: a matcher ending in a slash accepts what it is a prefix
    of; any other matcher accepts itself and what continues it after a
    slash, and nothing else (so [react] does not accept [react-dom]). *)
Theorem checkImportAgainstMatchers_accepts (importPath : string) (matchers : list string) :
  checkImportAgainstMatchers importPath matchers = true
  <-> exists matcher, In matcher matchers /\ Spec.matcherAccepts matcher importPath.
Proof.
  unfold checkImportAgainstMatchers. rewrite existsb_exists.
  split; intros (matcher & Hin & H); exists matcher; (split; [exact Hin|]);
    unfold Spec.matcherAccepts in *; destruct (Js.endsWith matcher "/").
  - apply prefix_exists. exact H.
  - apply orb_true_iff in H as [H|H].
    + left. apply String.eqb_eq. exact H.
    + right. apply prefix_exists in H as [rest ->]. exists rest. apply append_assoc.
  - apply prefix_exists. exact H.
  - apply orb_true_iff. destruct H as [-> | [rest ->]].
    + left. apply String.eqb_refl.
    + right. apply prefix_exists. exists rest. symmetry. apply append_assoc.
Qed.

Example react_is_not_react_dom :
  checkImportAgainstMatchers "react-dom" ["react"] = false
  /\ checkImportAgainstMatchers "react/jsx-runtime" ["react"] = true
  /\ checkImportAgainstMatchers "@/lib/db" ["@/lib/"] = true
  /\ checkImportAgainstMatchers "@/lib" ["@/lib/"] = false.
Proof. repeat split; reflexivity. Qed.

Lemma backslashesToSlashes_idempotent (s : string) :
  Js.backslashesToSlashes (Js.backslashesToSlashes s) = Js.backslashesToSlashes s.
Proof.
  induction s as [|c s IH]; simpl; [reflexivity|]. rewrite IH.
  destruct (Ascii.eqb c "\") eqn:E; [reflexivity | rewrite E; reflexivity].
Qed.

Lemma backslashesToSlashes_truthy (s : string) :
  Js.truthy (Js.backslashesToSlashes s) = Js.truthy s.
Proof. destruct s; reflexivity. Qed.

(** X4. Whether a resolved path lies in a business directory does not
    depend on the direction of its slashes: a path written with
    backslashes is classified like the same path written with forward
    slashes. An unresolved specifier is never in a business directory. *)
Theorem isBusinessDir_slash_insensitive (resolvedPath : string) (matchers : list string) :
  isBusinessDir (Some resolvedPath) matchers
  = isBusinessDir (Some (Js.backslashesToSlashes resolvedPath)) matchers
  /\ isBusinessDir None matchers = false.
Proof.
  split; [|reflexivity]. unfold isBusinessDir.
  rewrite backslashesToSlashes_truthy.
  destruct (negb (Js.truthy resolvedPath)); [reflexivity|].
  induction matchers as [|m ms IH]; simpl; [reflexivity|].
  rewrite backslashesToSlashes_idempotent, IH. reflexivity.
Qed.

Example windows_path_in_business_dir :
  isBusinessDir (Some "C:\proj\src\lib\db.ts") ["lib/"] = true.
Proof. reflexivity. Qed.

(** ** Specifiers the resolver leaves alone *)

Lemma resolvePathAlias_passedOver (P : Platform) (importPath : string)
    (tsConfig : TsConfigPaths) (projectRoot currentFileDir : string)
    (entries : list (string * list string)) :
  paths tsConfig = Some entries \/ (paths tsConfig = None /\ entries = []) ->
  Forall (Spec.passedOver P importPath) entries ->
  Js.startsWith importPath "." = false ->
  Js.startsWith importPath "/" = false ->
  resolvePathAlias P importPath tsConfig projectRoot currentFileDir = Returns None.
Proof.
  intros Hpaths Hall Hdot Hslash. unfold resolvePathAlias.
  assert (Hloop : (match paths tsConfig with
                   | Some es => aliasLoop P importPath tsConfig projectRoot es
                   | None => Returns None
                   end) = Returns None).
  { destruct Hpaths as [-> | [-> _]]; [|reflexivity].
    rewrite <- (app_nil_r entries). rewrite aliasLoop_passedOver by exact Hall. reflexivity. }
  rewrite Hloop. simpl. rewrite Hdot, Hslash. reflexivity.
Qed.

(** X5. A bare specifier (one that starts with neither [.] nor [/]) that
    no alias entry rewrites resolves to [null]. The direct check can then
    flag it only through the two matcher lists, never as a business
    directory import, and the transitive check never follows it. *)
Theorem bare_specifier_only_by_matchers (P : Platform) (fileContents : FileContents)
    (tsConfig : TsConfigPaths) (projectRoot currentFileDir : string)
    (purityConfig : PurityConfig) (visited : gset string) (reasons : list Reason)
    (imp : ImportInfo) (entries : list (string * list string)) :
  paths tsConfig = Some entries \/ (paths tsConfig = None /\ entries = []) ->
  Forall (Spec.passedOver P (path imp)) entries ->
  Js.startsWith (path imp) "." = false ->
  Js.startsWith (path imp) "/" = false ->
  resolvePathAlias P (path imp) tsConfig projectRoot currentFileDir = Returns None
  /\ (checkImportAgainstMatchers (path imp) (forbiddenImportMatchers purityConfig) = false ->
      checkImportAgainstMatchers (path imp) (nextServerImportMatchers purityConfig) = false ->
      directStep P tsConfig projectRoot currentFileDir purityConfig reasons imp
      = Returns reasons)
  /\ transitiveStep P fileContents projectRoot tsConfig purityConfig visited currentFileDir
       reasons imp = Returns reasons.
Proof.
  intros Hpaths Hall Hdot Hslash.
  pose proof (resolvePathAlias_passedOver P (path imp) tsConfig projectRoot currentFileDir
                entries Hpaths Hall Hdot Hslash) as Hnull.
  split; [exact Hnull|]. split.
  - intros Hf Hs. unfold directStep. rewrite Hf, Hs, Hnull. reflexivity.
  - unfold transitiveStep. rewrite Hdot. reflexivity.
Qed.

Lemma bare_specifier_only_by_matchers_witness :
  resolvePathAlias Examples.node "lodash/merge" Examples.aliases "/p" "/p/ui" = Returns None
  /\ directStep Examples.node Examples.aliases "/p" "/p/ui" Examples.purityConfig []
       (mkImportInfo "lodash/merge" 1 false false) = Returns [].
Proof.
  destruct (bare_specifier_only_by_matchers Examples.node Examples.fileContents
              Examples.aliases "/p" "/p/ui" Examples.purityConfig ∅ []
              (mkImportInfo "lodash/merge" 1 false false) [("@/*", ["src/*"])])
    as (Hnull & Hdirect & _).
  - left. reflexivity.
  - constructor; [left; reflexivity | constructor].
  - reflexivity.
  - reflexivity.
  - split; [exact Hnull | apply Hdirect; reflexivity].
Defined.

(** ** What an exception of the resolver costs *)

Lemma tryForOf_cut {A S : Type} (body : S -> A -> Exc S) (before after : list A) (x : A) :
  (forall s, body s x = Throws) ->
  forall s, tryForOf body (before ++ x :: after) s = tryForOf body before s.
Proof.
  intros Hx. induction before as [|y before IH]; intros s; simpl.
  - rewrite Hx. reflexivity.
  - destruct (body s y); [apply IH | reflexivity].
Qed.

(** X6. When the alias resolver throws on an import edge that matches the
    forbidden matchers, or that does not match the server matchers, the
    direct check stops there: it returns what the edges before it gave,
    and neither this edge nor any later one is reported. *)
Theorem resolver_exception_cuts_direct_check (P : Platform) (filePath : string)
    (fileContents : FileContents) (projectRoot : string) (tsConfig : TsConfigPaths)
    (purityConfig : PurityConfig) (visited : gset string) (content : string)
    (sourceFile : Node) (before after : list ImportInfo) (imp : ImportInfo) :
  mapGet fileContents filePath = Some content ->
  content <> "" ->
  createSourceFile P filePath content (scriptKindOf P filePath) = Returns sourceFile ->
  extractImports sourceFile = before ++ imp :: after ->
  resolvePathAlias P (path imp) tsConfig projectRoot (dirname P filePath) = Throws ->
  checkImportAgainstMatchers (path imp) (forbiddenImportMatchers purityConfig) = true
  \/ checkImportAgainstMatchers (path imp) (nextServerImportMatchers purityConfig) = false ->
  analyzeFileImports P filePath fileContents projectRoot tsConfig purityConfig visited
  = tryForOf (directStep P tsConfig projectRoot (dirname P filePath) purityConfig) before []
  /\ (length (analyzeFileImports P filePath fileContents projectRoot tsConfig purityConfig
                visited) <= length before)%nat.
Proof.
  intros Hget Hcontent Hparse Himports Hthrow Hmatch.
  assert (Hcut : analyzeFileImports P filePath fileContents projectRoot tsConfig purityConfig
                   visited
                 = tryForOf (directStep P tsConfig projectRoot (dirname P filePath)
                               purityConfig) before []).
  { unfold analyzeFileImports. rewrite Hget. apply truthy_true in Hcontent.
    rewrite Hcontent. simpl. rewrite Hparse, Himports. apply tryForOf_cut.
    intros s. unfold directStep. rewrite Hthrow.
    destruct (checkImportAgainstMatchers (path imp) (forbiddenImportMatchers purityConfig));
      [reflexivity|].
    destruct Hmatch as [Hm | Hm]; [discriminate|]. rewrite Hm. reflexivity. }
  split; [exact Hcut|]. rewrite Hcut.
  destruct (tryForOf_pushes (fun _ => True)
              (directStep P tsConfig projectRoot (dirname P filePath) purityConfig)) with
    (xs := before) (s := @nil Reason) as (e & -> & Hlen & _).
  - intros s x s' H. apply directStep_pushes in H as (e & He & Hlen & _).
    exists e. split; [exact He|]. split; [exact Hlen|].
    clear. induction e; constructor; auto.
  - exact Hlen.
Qed.

Lemma resolver_exception_cuts_direct_check_witness :
  checkImportAgainstMatchers "@/lib/a" (forbiddenImportMatchers Examples.purityConfig) = true
  /\ analyzeFileImports Examples.node "/p/ui/x.tsx"
       [("/p/ui/x.tsx", "import a from '@/lib/a';" +:+ Examples.nl +:+ "import b from '@/db/b';")]
       "/p" Examples.brokenAliases Examples.purityConfig ∅ = [].
Proof.
  split; [reflexivity|].
  refine (proj1 (resolver_exception_cuts_direct_check Examples.node "/p/ui/x.tsx"
                   [("/p/ui/x.tsx",
                     "import a from '@/lib/a';" +:+ Examples.nl +:+ "import b from '@/db/b';")]
                   "/p" Examples.brokenAliases Examples.purityConfig ∅
                   ("import a from '@/lib/a';" +:+ Examples.nl +:+ "import b from '@/db/b';")
                   (OtherNode [ImportDeclaration 0 (Some (StringLiteral "@/lib/a")) [];
                               ImportDeclaration 1 (Some (StringLiteral "@/db/b")) []])
                   [] [mkImportInfo "@/db/b" 2 false false]
                   (mkImportInfo "@/lib/a" 1 false false)
                   eq_refl _ eq_refl eq_refl eq_refl (or_introl eq_refl))).
  discriminate.
Defined.

(** ** Where the reasons come from *)

Lemma tryForOf_pushes_in {A R : Type} (Q : R -> Prop) (body : list R -> A -> Exc (list R))
    (xs : list A) :
  (forall s x s', In x xs -> body s x = Returns s' ->
     exists e, s' = s ++ e /\ (length e <= 1)%nat /\ Forall Q e) ->
  forall s, exists e, tryForOf body xs s = s ++ e /\ (length e <= length xs)%nat /\ Forall Q e.
Proof.
  induction xs as [|x xs IH]; intros Hbody s; simpl.
  - exists []. rewrite app_nil_r. repeat split; [simpl; lia | constructor].
  - destruct (body s x) as [s'|] eqn:E.
    + apply Hbody in E as (e1 & -> & Hlen1 & HQ1); [|left; reflexivity].
      destruct (IH (fun s x s' Hin => Hbody s x s' (or_intror Hin)) (s ++ e1))
        as (e2 & -> & Hlen2 & HQ2).
      exists (e1 ++ e2). rewrite <- app_assoc. split; [reflexivity|].
      split; [rewrite length_app; lia | apply Forall_app; split; assumption].
    + exists []. rewrite app_nil_r. repeat split; [simpl; lia | constructor].
Qed.

Lemma directStep_pushes_edge (P : Platform) (tsConfig : TsConfigPaths)
    (projectRoot currentFileDir : string) (purityConfig : PurityConfig)
    (reasons : list Reason) (imp : ImportInfo) (reasons' : list Reason) :
  directStep P tsConfig projectRoot currentFileDir purityConfig reasons imp = Returns reasons' ->
  exists e, reasons' = reasons ++ e /\ (length e <= 1)%nat
            /\ Forall (fun r => importPath r = path imp /\ atLine r = Some (line imp)
                                /\ (type r = ForbiddenImport
                                    \/ (type r = ServerApi /\ resolvedPath r = None))) e.
Proof.
  unfold directStep.
  destruct (checkImportAgainstMatchers (path imp) (forbiddenImportMatchers purityConfig)).
  { destruct (resolvePathAlias P (path imp) tsConfig projectRoot currentFileDir); simpl;
      [|discriminate].
    intros [= <-]. eexists. split; [reflexivity|]. split; [simpl; lia|].
    constructor; [simpl; auto | constructor]. }
  destruct (checkImportAgainstMatchers (path imp) (nextServerImportMatchers purityConfig)).
  { intros [= <-]. eexists. split; [reflexivity|]. split; [simpl; lia|].
    constructor; [simpl; auto | constructor]. }
  destruct (resolvePathAlias P (path imp) tsConfig projectRoot currentFileDir) as [resolved|];
    simpl; [|discriminate].
  destruct (isBusinessDir resolved (businessDirMatchers purityConfig)); intros [= <-].
  - eexists. split; [reflexivity|]. split; [simpl; lia|].
    constructor; [simpl; auto | constructor].
  - exists []. rewrite app_nil_r. split; [reflexivity|]. split; [simpl; lia | constructor].
Qed.

(** X7. Every reason of the direct check comes from an import edge of
    the file: the file is in the content mapping with a text that is not
    empty, it parses, and the reason carries the specifier and the line
    of one of its edges; its type is forbidden-import or server-api, a
    server-api reason has no resolved path, and there are no more reasons
    than edges. *)
Theorem analyzeFileImports_provenance (P : Platform) (filePath : string)
    (fileContents : FileContents) (projectRoot : string) (tsConfig : TsConfigPaths)
    (purityConfig : PurityConfig) (visited : gset string) (r : Reason) :
  In r (analyzeFileImports P filePath fileContents projectRoot tsConfig purityConfig visited) ->
  exists content sourceFile imp,
    mapGet fileContents filePath = Some content
    /\ content <> ""
    /\ createSourceFile P filePath content (scriptKindOf P filePath) = Returns sourceFile
    /\ In imp (extractImports sourceFile)
    /\ importPath r = path imp
    /\ atLine r = Some (line imp)
    /\ (type r = ForbiddenImport \/ (type r = ServerApi /\ resolvedPath r = None))
    /\ (length (analyzeFileImports P filePath fileContents projectRoot tsConfig purityConfig
                  visited) <= length (extractImports sourceFile))%nat.
Proof.
  unfold analyzeFileImports.
  destruct (mapGet fileContents filePath) as [content|] eqn:Hget; [|intros []].
  destruct (Js.truthy content) eqn:Htruthy; simpl; [|intros []].
  destruct (createSourceFile P filePath content (scriptKindOf P filePath))
    as [sourceFile|] eqn:Hparse; [|intros []].
  set (Q := fun r => exists imp, In imp (extractImports sourceFile)
                       /\ importPath r = path imp /\ atLine r = Some (line imp)
                       /\ (type r = ForbiddenImport
                           \/ (type r = ServerApi /\ resolvedPath r = None))).
  destruct (tryForOf_pushes_in Q
              (directStep P tsConfig projectRoot (dirname P filePath) purityConfig)
              (extractImports sourceFile)) with (s := @nil Reason) as (e & -> & Hlen & HQ).
  { intros s x s' Hin H. apply directStep_pushes_edge in H as (e & He & Hlen & Hall).
    exists e. split; [exact He|]. split; [exact Hlen|].
    eapply List.Forall_impl; [|exact Hall]. intros r' (Hp & Hl & Ht). exists x. auto. }
  simpl. intros Hin. rewrite List.Forall_forall in HQ.
  destruct (HQ r Hin) as (imp & Himp & Hpath & Hline & Htype).
  exists content, sourceFile, imp. apply truthy_true in Htruthy.
  split; [reflexivity|]. split; [exact Htruthy|]. split; [exact Hparse|].
  split; [exact Himp|]. split; [exact Hpath|]. split; [exact Hline|].
  split; [exact Htype | exact Hlen].
Qed.

Lemma analyzeFileImports_provenance_witness :
  exists r imp,
    In r (analyzeFileImports Examples.node "/p/ui/helper.ts" Examples.fileContents "/p"
            noTsConfig Examples.purityConfig ∅)
    /\ importPath r = path imp /\ atLine r = Some (line imp).
Proof.
  destruct (analyzeFileImports_provenance Examples.node "/p/ui/helper.ts"
              Examples.fileContents "/p" noTsConfig Examples.purityConfig ∅
              (mkReason ForbiddenImport "@/db/client" None (Some 1)
                 ("Forbidden import: " +:+ Js.dq +:+ "@/db/client" +:+ Js.dq)))
    as (content & sourceFile & imp & _ & _ & _ & _ & Hpath & Hline & _).
  { left. reflexivity. }
  eexists _, imp. split; [left; reflexivity|]. split; assumption.
Defined.

Lemma transitiveStep_pushes_found (P : Platform) (fileContents : FileContents)
    (projectRoot : string) (tsConfig : TsConfigPaths) (purityConfig : PurityConfig)
    (visited : gset string) (currentFileDir : string) (reasons : list Reason)
    (imp : ImportInfo) (reasons' : list Reason) :
  transitiveStep P fileContents projectRoot tsConfig purityConfig visited currentFileDir
    reasons imp = Returns reasons' ->
  exists e, reasons' = reasons ++ e /\ (length e <= 1)%nat
    /\ Forall (fun r =>
         type r = Transitive /\ importPath r = path imp
         /\ Js.startsWith (importPath r) "." = true
         /\ exists foundFile,
              resolvedPath r = Some foundFile
              /\ existsSync P foundFile = true
              /\ mapHas fileContents foundFile = true
              /\ analyzeFileImports P foundFile fileContents projectRoot tsConfig
                   purityConfig ∅ <> []) e.
Proof.
  set (Q := fun r : Reason => _).
  assert (Hnone : exists e : list Reason, reasons = reasons ++ e /\ (length e <= 1)%nat
                    /\ Forall Q e).
  { exists []. rewrite app_nil_r. split; [reflexivity|]. split; [simpl; lia | constructor]. }
  unfold transitiveStep.
  destruct (Js.startsWith (path imp) ".") eqn:Hdot; cbn [negb];
    [|intros [= <-]; exact Hnone].
  destruct (resolvePathAlias P (path imp) tsConfig projectRoot currentFileDir)
    as [[resolved|]|]; cbn [bindExc]; [| intros [= <-]; exact Hnone | discriminate].
  destruct (negb (Js.truthy resolved)); [intros [= <-]; exact Hnone|].
  pose proof (probe_spec P fileContents resolved extensions) as [_ Hfound].
  destruct (fst (probe P fileContents resolved extensions)) as [foundFile|];
    [| intros [= <-]; exact Hnone].
  destruct Hfound as (_ & _ & Hhit & _). apply andb_true_iff in Hhit as [Hdisk Hkey].
  destruct (negb (Js.truthy foundFile)); [intros [= <-]; exact Hnone|].
  change (analyzeFileImports P foundFile fileContents projectRoot tsConfig purityConfig visited)
    with (analyzeFileImports P foundFile fileContents projectRoot tsConfig purityConfig ∅).
  destruct (analyzeFileImports P foundFile fileContents projectRoot tsConfig purityConfig ∅)
    as [|r0 rs] eqn:Hdirect; simpl; intros [= <-]; [exact Hnone|].
  eexists. split; [reflexivity|]. split; [simpl; lia|].
  constructor; [|constructor]. unfold Q. simpl.
  split; [reflexivity|]. split; [reflexivity|]. split; [exact Hdot|].
  exists foundFile. rewrite Hdirect. repeat split; auto; discriminate.
Qed.

(** X8. A transitive reason is one hop deep: its specifier is a relative
    import (it starts with [.]) of the file under analysis, and its
    resolved path is a file that exists on disk, is a key of the content
    mapping and has at least one reason of its own in the direct check.
    A helper whose own imports are clean never makes its importer
    impure, whatever the helper's imports import. *)
Theorem transitive_reason_is_one_hop (P : Platform) (filePath : string)
    (fileContents : FileContents) (projectRoot : string) (tsConfig : TsConfigPaths)
    (purityConfig : PurityConfig) (visited : gset string) (r : Reason) :
  In r (fst (checkTransitiveImports P filePath fileContents projectRoot tsConfig purityConfig
               visited)) ->
  type r = Transitive
  /\ Js.startsWith (importPath r) "." = true
  /\ (exists content sourceFile imp,
        mapGet fileContents filePath = Some content
        /\ createSourceFile P filePath content (scriptKindOf P filePath) = Returns sourceFile
        /\ In imp (extractImports sourceFile) /\ importPath r = path imp)
  /\ exists foundFile,
       resolvedPath r = Some foundFile
       /\ existsSync P foundFile = true
       /\ mapHas fileContents foundFile = true
       /\ analyzeFileImports P foundFile fileContents projectRoot tsConfig purityConfig ∅
          <> [].
Proof.
  unfold checkTransitiveImports.
  destruct (bool_decide (filePath ∈ visited)); [intros []|].
  destruct (mapGet fileContents filePath) as [content|] eqn:Hget; [|intros []].
  destruct (negb (Js.truthy content)); [intros []|].
  destruct (createSourceFile P filePath content (scriptKindOf P filePath))
    as [sourceFile|] eqn:Hparse; [|intros []].
  simpl.
  set (Q := fun r : Reason =>
    type r = Transitive /\ Js.startsWith (importPath r) "." = true
    /\ (exists imp, In imp (extractImports sourceFile) /\ importPath r = path imp)
    /\ exists foundFile,
         resolvedPath r = Some foundFile /\ existsSync P foundFile = true
         /\ mapHas fileContents foundFile = true
         /\ analyzeFileImports P foundFile fileContents projectRoot tsConfig purityConfig ∅
            <> []).
  destruct (tryForOf_pushes_in Q
              (transitiveStep P fileContents projectRoot tsConfig purityConfig
                 ({[filePath]} ∪ visited) (dirname P filePath))
              (extractImports sourceFile)) with (s := @nil Reason) as (e & -> & _ & HQ).
  { intros s x s' Hin H. apply transitiveStep_pushes_found in H as (e & He & Hlen & Hall).
    exists e. split; [exact He|]. split; [exact Hlen|].
    eapply List.Forall_impl; [|exact Hall].
    intros r' (Ht & Hp & Hd & Hf). unfold Q. repeat split; auto. exists x. auto. }
  simpl. intros Hin. rewrite List.Forall_forall in HQ.
  destruct (HQ r Hin) as (Ht & Hd & (imp & Himp & Hpath) & Hf).
  split; [exact Ht|]. split; [exact Hd|]. split; [|exact Hf].
  exists content, sourceFile, imp. auto.
Qed.

Lemma transitive_reason_is_one_hop_witness :
  exists r,
    In r (fst (checkTransitiveImports Examples.node "/p/ui/card.tsx" Examples.fileContents
                 "/p" noTsConfig Examples.purityConfig ∅))
    /\ resolvedPath r = Some "/p/ui/helper.ts"
    /\ Js.startsWith (importPath r) "." = true.
Proof.
  eexists. split; [vm_compute; left; reflexivity|]. split; [reflexivity|].
  refine (proj1 (proj2 (transitive_reason_is_one_hop Examples.node "/p/ui/card.tsx"
                          Examples.fileContents "/p" noTsConfig Examples.purityConfig ∅ _ _))).
  vm_compute. left. reflexivity.
Defined.

(** ** The shape of a purity report *)

Lemma collectReasons_shape (P : Platform) (filePath content : string)
    (fileContents : FileContents) (projectRoot : string) (tsConfig : TsConfigPaths)
    (purityConfig : PurityConfig) :
  collectReasons P filePath content fileContents projectRoot tsConfig purityConfig
  = analyzeFileImports P filePath fileContents projectRoot tsConfig purityConfig ∅
    ++ fst (checkTransitiveImports P filePath fileContents projectRoot tsConfig purityConfig ∅)
    ++ (if existsb (fun pattern => regExpTest P pattern content) dataFetchingPatterns
        then [mkReason DataFetching "" None None "Data fetching detected (fetch/axios)"]
        else []).
Proof.
  unfold collectReasons.
  destruct (checkTransitiveImports P filePath fileContents projectRoot tsConfig purityConfig ∅)
    as [transitive visited'].
  destruct (existsb (fun pattern => regExpTest P pattern content) dataFetchingPatterns); simpl.
  - rewrite <- app_assoc. reflexivity.
  - rewrite app_nil_r. reflexivity.
Qed.

Lemma analyzeFile_report (P : Platform) (filePath relativePath : string)
    (fileContents : FileContents) (projectRoot : string) (tsConfig : TsConfigPaths)
    (purityConfig : PurityConfig) (report : ImportBoundaryReport) :
  analyzeFile P filePath relativePath fileContents projectRoot tsConfig purityConfig
    = Some report ->
  exists content,
    isUiCandidatePath relativePath purityConfig = true
    /\ mapGet fileContents filePath = Some content
    /\ content <> ""
    /\ report
       = let reasons :=
           collectReasons P filePath content fileContents projectRoot tsConfig purityConfig in
         mkImportBoundaryReport relativePath true
           (if 0 <? Z.min 100 (rawScore reasons) then Impure else Pure)
           (Z.min 100 (rawScore reasons)) reasons.
Proof.
  unfold analyzeFile.
  destruct (isUiCandidatePath relativePath purityConfig); simpl; [|discriminate].
  destruct (mapGet fileContents filePath) as [content|]; [|discriminate].
  destruct (Js.truthy content) eqn:E; simpl; [|discriminate].
  intros [= <-]. exists content. apply truthy_true in E. auto.
Qed.

Lemma countOfType_app (t : ReasonType) (xs ys : list Reason) :
  Spec.countOfType t (xs ++ ys) = Spec.countOfType t xs + Spec.countOfType t ys.
Proof. unfold Spec.countOfType. rewrite List.filter_app, length_app. lia. Qed.

Lemma countOfType_none (t : ReasonType) (xs : list Reason) :
  Forall (fun r => type r <> t) xs -> Spec.countOfType t xs = 0.
Proof.
  unfold Spec.countOfType. induction 1 as [|r xs Hr _ IH]; simpl; [reflexivity|].
  destruct (Spec.reasonTypeEqb (type r) t) eqn:E; [|exact IH].
  exfalso. apply Hr. destruct (type r), t; (reflexivity || discriminate).
Qed.

(** X9. A UI-candidate file that is in the content mapping with some
    text but cannot be parsed still gets a report. The report has no
    import reason: it is pure with score 0, or carries the single
    data-fetching reason with score 10. *)
Theorem unparsable_file_still_reported (P : Platform) (filePath relativePath : string)
    (fileContents : FileContents) (projectRoot : string) (tsConfig : TsConfigPaths)
    (purityConfig : PurityConfig) (content : string) :
  isUiCandidatePath relativePath purityConfig = true ->
  mapGet fileContents filePath = Some content ->
  content <> "" ->
  createSourceFile P filePath content (scriptKindOf P filePath) = Throws ->
  exists report,
    analyzeFile P filePath relativePath fileContents projectRoot tsConfig purityConfig
      = Some report
    /\ ((reasons report = [] /\ score report = 0 /\ purity report = Pure)
        \/ (exists r, reasons report = [r] /\ type r = DataFetching
                      /\ score report = 10 /\ purity report = Impure)).
Proof.
  intros Hcand Hget Hcontent Hparse. apply truthy_true in Hcontent.
  unfold analyzeFile. rewrite Hcand, Hget, Hcontent. simpl.
  eexists. split; [reflexivity|]. simpl.
  rewrite collectReasons_shape.
  assert (Hdirect : analyzeFileImports P filePath fileContents projectRoot tsConfig
                      purityConfig ∅ = []).
  { unfold analyzeFileImports. rewrite Hget, Hcontent. simpl. rewrite Hparse. reflexivity. }
  assert (Htrans : fst (checkTransitiveImports P filePath fileContents projectRoot tsConfig
                          purityConfig ∅) = []).
  { unfold checkTransitiveImports. rewrite bool_decide_eq_false_2 by set_solver.
    rewrite Hget, Hcontent. simpl. rewrite Hparse. reflexivity. }
  rewrite Hdirect, Htrans.
  destruct (existsb (fun pattern => regExpTest P pattern content) dataFetchingPatterns).
  - right. eexists. repeat split.
  - left. repeat split.
Qed.

Lemma unparsable_file_still_reported_witness :
  exists report,
    analyzeFile Examples.nodeWithFailingParser "/p/ui/card.tsx" "ui/card.tsx"
      Examples.fileContents "/p" noTsConfig Examples.purityConfig = Some report
    /\ reasons report = [].
Proof.
  destruct (unparsable_file_still_reported Examples.nodeWithFailingParser "/p/ui/card.tsx"
              "ui/card.tsx" Examples.fileContents "/p" noTsConfig Examples.purityConfig
              ("import { db } from '@/lib/db';" +:+ Examples.nl
               +:+ "import { fmt } from './helper';"))
    as (report & Hreport & Hreasons).
  - reflexivity.
  - reflexivity.
  - discriminate.
  - reflexivity.
  - exists report. split; [exact Hreport|].
    vm_compute in Hreport. injection Hreport as <-. reflexivity.
Defined.

(** X10. A report carries the data-fetching reason at most once, however
    often the text calls [fetch] or [axios]: exactly once when one of the
    two patterns is found in the text of the file, and not at all
    otherwise; when present it is the last reason. *)
Theorem data_fetching_reason_at_most_once (P : Platform) (filePath relativePath : string)
    (fileContents : FileContents) (projectRoot : string) (tsConfig : TsConfigPaths)
    (purityConfig : PurityConfig) (report : ImportBoundaryReport) :
  analyzeFile P filePath relativePath fileContents projectRoot tsConfig purityConfig
    = Some report ->
  exists content,
    mapGet fileContents filePath = Some content
    /\ Spec.countOfType DataFetching (reasons report)
       = (if regExpTest P "\bfetch\s*\(" content || regExpTest P "\baxios\." content
          then 1 else 0)
    /\ (Spec.countOfType DataFetching (reasons report) = 1 ->
        exists r, type r = DataFetching /\ last (reasons report) = Some r).
Proof.
  intros Hreport. apply analyzeFile_report in Hreport as (content & _ & Hget & _ & ->).
  exists content. split; [exact Hget|]. simpl.
  rewrite collectReasons_shape, !countOfType_app.
  rewrite (countOfType_none DataFetching (analyzeFileImports _ _ _ _ _ _ _)).
  2:{ eapply List.Forall_impl; [|apply analyzeFileImports_reasons].
      intros r [-> | ->]; discriminate. }
  rewrite (countOfType_none DataFetching (fst _)).
  2:{ destruct (checkTransitiveImports_call P filePath fileContents projectRoot tsConfig
                  purityConfig ∅) as (ts & v & -> & _ & _ & _ & Hts & _).
      eapply List.Forall_impl; [|exact Hts]. intros r ->. discriminate. }
  assert (Htest : existsb (fun pattern => regExpTest P pattern content) dataFetchingPatterns
                  = regExpTest P "\bfetch\s*\(" content || regExpTest P "\baxios\." content).
  { simpl. rewrite orb_false_r. reflexivity. }
  rewrite Htest.
  destruct (regExpTest P "\bfetch\s*\(" content || regExpTest P "\baxios\." content).
  - split; [reflexivity|]. intros _. eexists. split; [|rewrite !app_assoc; apply last_snoc].
    reflexivity.
  - split; [reflexivity|]. simpl. discriminate.
Qed.

Lemma data_fetching_reason_at_most_once_witness :
  exists report,
    analyzeFile Examples.node "/p/ui/f.tsx" "ui/f.tsx"
      [("/p/ui/f.tsx", "fetch('/a'); fetch('/b'); axios.get('/c');")] "/p" noTsConfig
      Examples.purityConfig = Some report
    /\ Spec.countOfType DataFetching (reasons report) = 1.
Proof.
  eexists. split; [vm_compute; reflexivity|].
  destruct (data_fetching_reason_at_most_once Examples.node "/p/ui/f.tsx" "ui/f.tsx"
              [("/p/ui/f.tsx", "fetch('/a'); fetch('/b'); axios.get('/c');")] "/p" noTsConfig
              Examples.purityConfig _ eq_refl) as (content & Hget & Hcount & _).
  injection Hget as <-. exact Hcount.
Defined.

Lemma weightSum_lower (reasons : list Reason) :
  10 * Z.of_nat (length reasons) <= Spec.weightSum reasons.
Proof.
  rewrite <- rawScore_weightSum. unfold rawScore.
  assert (H : forall start, start + 10 * Z.of_nat (length reasons)
                            <= fold_left (fun score reason => score + weight (type reason))
                                 reasons start).
  { induction reasons as [|r rs IH]; intros start; simpl length; simpl fold_left; [lia|].
    specialize (IH (start + weight (type r))). destruct (type r); simpl in *; lia. }
  specialize (H 0). lia.
Qed.

(** X11. A report is pure exactly when it has no reason at all, and its
    score is then 0; an impure report has a score of at least 10. *)
Theorem pure_iff_no_reason (P : Platform) (filePath relativePath : string)
    (fileContents : FileContents) (projectRoot : string) (tsConfig : TsConfigPaths)
    (purityConfig : PurityConfig) (report : ImportBoundaryReport) :
  analyzeFile P filePath relativePath fileContents projectRoot tsConfig purityConfig
    = Some report ->
  (purity report = Pure <-> reasons report = [])
  /\ (purity report = Pure -> score report = 0)
  /\ (purity report = Impure -> 10 <= score report).
Proof.
  intros Hreport. apply analyzeFile_report in Hreport as (content & _ & _ & _ & ->).
  simpl. rewrite rawScore_weightSum.
  set (rs := collectReasons P filePath content fileContents projectRoot tsConfig purityConfig).
  pose proof (weightSum_lower rs) as Hlow. pose proof (weightSum_nonneg rs) as Hnn.
  destruct (Z.ltb_spec 0 (Z.min 100 (Spec.weightSum rs))) as [Hpos|Hle].
  - split; [split; [discriminate|]|split; [discriminate|intros _]].
    + intros E. rewrite E in Hpos. unfold Spec.weightSum, Spec.countOfType in Hpos.
      simpl in Hpos. lia.
    + destruct rs as [|r rs']; [unfold Spec.weightSum, Spec.countOfType in Hpos;
                                simpl in Hpos; lia|].
      simpl length in Hlow. lia.
  - split; [split; [intros _|reflexivity]|split; [intros _; lia|discriminate]].
    destruct rs as [|r rs']; [reflexivity|]. simpl length in Hlow. lia.
Qed.

Lemma pure_iff_no_reason_witness :
  exists report,
    analyzeFile Examples.node "/p/ui/a.ts" "ui/a.ts" Examples.fileContents "/p" noTsConfig
      Examples.purityConfig = Some report
    /\ purity report = Pure /\ reasons report = [].
Proof.
  eexists. split; [vm_compute; reflexivity|]. split; [reflexivity|].
  refine (proj1 (proj1 (pure_iff_no_reason Examples.node "/p/ui/a.ts" "ui/a.ts"
                          Examples.fileContents "/p" noTsConfig Examples.purityConfig _ _)) _).
  - vm_compute. reflexivity.
  - reflexivity.
Defined.

(** ** The purity-report mapping as a whole *)

Lemma lookup_objSet_own {V : Type} (key k : string) (value : V) (obj : gmap string V) (v : V) :
  objSet key value obj !! k = Some v ->
  obj !! k = Some v \/ (k = key /\ v = value /\ key <> "__proto__").
Proof.
  unfold objSet. destruct (String.eqb_spec key "__proto__") as [Hp|Hp]; [auto|].
  destruct (decide (key = k)) as [->|Hne].
  - rewrite lookup_insert_eq. intros [= <-]. auto.
  - rewrite lookup_insert_ne by assumption. auto.
Qed.

(** X12. Every entry of the purity-report mapping is the report of a file
    of the content mapping: the key is the relative path of that file and
    equals the [path] of the report, the key starts with a UI-candidate
    directory, the file has a text that is not empty, the report says
    [isUiCandidate: true], and the key is never [__proto__]. With purity
    analysis disabled the mapping is empty. *)
Theorem report_mapping_entries (P : Platform) (fileContents : FileContents)
    (projectRoot : string) (purityConfig : PurityConfig) (key : string)
    (report : ImportBoundaryReport) :
  analyzeImportBoundaries P fileContents projectRoot purityConfig !! key = Some report ->
  enabled purityConfig = true
  /\ key <> "__proto__"
  /\ reportPath report = key
  /\ isUiCandidate report = true
  /\ isUiCandidatePath key purityConfig = true
  /\ exists filePath content,
       relative P projectRoot filePath = key
       /\ mapGet fileContents filePath = Some content
       /\ content <> ""
       /\ analyzeFile P filePath key fileContents projectRoot (loadTsConfig P projectRoot)
            purityConfig = Some report.
Proof.
  intros Hlookup.
  assert (Henabled : enabled purityConfig = true).
  { unfold analyzeImportBoundaries in Hlookup. destruct (enabled purityConfig); [reflexivity|].
    simpl in Hlookup. rewrite lookup_empty in Hlookup. discriminate. }
  assert (Hkey : key <> "__proto__").
  { revert Hlookup. unfold analyzeImportBoundaries. rewrite Henabled. simpl.
    set (step := fun reports (entry : string * string) => _).
    assert (Hgen : forall entries reports0,
              fold_left step entries reports0 !! key = Some report ->
              reports0 !! key = Some report \/ key <> "__proto__").
    { induction entries as [|[filePath content] entries IH]; intros reports0 H; simpl in H.
      - left. exact H.
      - apply IH in H as [H | H]; [|right; exact H]. unfold step in H.
        destruct (analyzeFile P filePath (relative P projectRoot filePath) fileContents
                    projectRoot (loadTsConfig P projectRoot) purityConfig) as [rep|].
        + apply lookup_objSet_own in H as [H | (-> & _ & Hne)]; [left | right]; assumption.
        + left. exact H. }
    intros H. apply Hgen in H as [H | H]; [rewrite lookup_empty in H; discriminate | exact H]. }
  apply analyzeImportBoundaries_entry in Hlookup as (filePath & content0 & _ & Hrel & Han).
  pose proof Han as Han'.
  apply analyzeFile_report in Han' as (content & Hcand & Hget & Hcontent & ->).
  split; [exact Henabled|]. split; [exact Hkey|]. split; [reflexivity|].
  split; [reflexivity|]. split; [exact Hcand|].
  exists filePath, content. auto.
Qed.

Lemma report_mapping_entries_witness :
  exists report,
    analyzeImportBoundaries Examples.node Examples.fileContents "/p" Examples.purityConfig
      !! "ui/helper.ts" = Some report
    /\ reportPath report = "ui/helper.ts" /\ isUiCandidate report = true.
Proof.
  eexists. split; [vm_compute; reflexivity|].
  destruct (report_mapping_entries Examples.node Examples.fileContents "/p"
              Examples.purityConfig "ui/helper.ts" _ eq_refl) as (_ & _ & Hpath & Hui & _).
  split; assumption.
Defined.

Lemma fold_reports_key (P : Platform) (fileContents : FileContents) (projectRoot : string)
    (purityConfig : PurityConfig) (tsConfig : TsConfigPaths) (filePath key : string) :
  key = relative P projectRoot filePath ->
  key <> "__proto__" ->
  forall (entries : FileContents) (reports0 : gmap string ImportBoundaryReport),
    (forall other content, In (other, content) entries ->
       relative P projectRoot other = key -> other = filePath) ->
    fold_left
      (fun reports '(filePath, _) =>
         let relativePath := relative P projectRoot filePath in
         match
           analyzeFile P filePath relativePath fileContents projectRoot tsConfig purityConfig
         with
         | Some report => objSet relativePath report reports
         | None => reports
         end)
      entries reports0 !! key
    = match analyzeFile P filePath key fileContents projectRoot tsConfig purityConfig with
      | Some report =>
          if existsb (String.eqb filePath) (map fst entries) then Some report
          else reports0 !! key
      | None => reports0 !! key
      end.
Proof.
  intros Hkey Hproto. induction entries as [|[f c] entries IH]; intros reports0 Hunique.
  - simpl. destruct (analyzeFile P filePath key fileContents projectRoot tsConfig purityConfig);
      reflexivity.
  - simpl fold_left.
    rewrite IH
      by (intros o c' Hin Hrel; apply (Hunique o c'); [right; exact Hin | exact Hrel]).
    simpl map. simpl existsb.
    destruct (string_dec (relative P projectRoot f) key) as [Hrel|Hrel].
    + assert (f = filePath) as -> by (apply (Hunique f c); [left; reflexivity | exact Hrel]).
      rewrite String.eqb_refl. simpl. rewrite <- Hkey.
      destruct (analyzeFile P filePath key fileContents projectRoot tsConfig purityConfig)
        as [report|]; [|reflexivity].
      rewrite objSet_lookup_eq by exact Hproto.
      destruct (existsb (String.eqb filePath) (map fst entries)); reflexivity.
    + assert (Hne : filePath <> f) by (intros ->; apply Hrel; symmetry; exact Hkey).
      apply String.eqb_neq in Hne. rewrite Hne. simpl.
      assert (Hsame :
        (match analyzeFile P f (relative P projectRoot f) fileContents projectRoot tsConfig
                 purityConfig with
         | Some report => objSet (relative P projectRoot f) report reports0
         | None => reports0
         end) !! key = reports0 !! key).
      { destruct (analyzeFile P f (relative P projectRoot f) fileContents projectRoot tsConfig
                    purityConfig); [|reflexivity].
        apply objSet_lookup_other. left. congruence. }
      rewrite Hsame. reflexivity.
Qed.

(** X13. With purity analysis enabled, a file of the content mapping
    whose relative path is shared by no other file and is not
    [__proto__] is found in the mapping under that path with exactly what
    [analyzeFile] gives for it: its report, or no entry when [analyzeFile]
    gives [null]. *)
Theorem file_reported_under_its_path (P : Platform) (fileContents : FileContents)
    (projectRoot : string) (purityConfig : PurityConfig) (filePath content : string) :
  enabled purityConfig = true ->
  In (filePath, content) fileContents ->
  relative P projectRoot filePath <> "__proto__" ->
  (forall other content', In (other, content') fileContents ->
     relative P projectRoot other = relative P projectRoot filePath -> other = filePath) ->
  analyzeImportBoundaries P fileContents projectRoot purityConfig
    !! relative P projectRoot filePath
  = analyzeFile P filePath (relative P projectRoot filePath) fileContents projectRoot
      (loadTsConfig P projectRoot) purityConfig.
Proof.
  intros Henabled Hin Hproto Hunique. unfold analyzeImportBoundaries.
  rewrite Henabled. simpl.
  rewrite (fold_reports_key P fileContents projectRoot purityConfig (loadTsConfig P projectRoot)
             filePath (relative P projectRoot filePath) eq_refl Hproto fileContents ∅ Hunique).
  destruct (analyzeFile P filePath (relative P projectRoot filePath) fileContents projectRoot
              (loadTsConfig P projectRoot) purityConfig) as [report|];
    [|apply lookup_empty].
  assert (Hex : existsb (String.eqb filePath) (map fst fileContents) = true).
  { apply existsb_exists. exists filePath. split; [|apply String.eqb_refl].
    apply in_map_iff. exists (filePath, content). auto. }
  rewrite Hex. reflexivity.
Qed.

Lemma file_reported_under_its_path_witness :
  analyzeImportBoundaries Examples.node Examples.fileContents "/p" Examples.purityConfig
    !! "ui/card.tsx"
  = analyzeFile Examples.node "/p/ui/card.tsx" "ui/card.tsx" Examples.fileContents "/p"
      noTsConfig Examples.purityConfig.
Proof.
  refine (file_reported_under_its_path Examples.node Examples.fileContents "/p"
            Examples.purityConfig "/p/ui/card.tsx" _ eq_refl _ _ _).
  - left. reflexivity.
  - vm_compute. discriminate.
  - intros other content' Hin Hrel.
    repeat (destruct Hin as [[= <- <-] | Hin]; [vm_compute in Hrel; congruence|]).
    destruct Hin.
Defined.

(** ** The risk score and the order of the tiers *)

Lemma riskFactors_weights (signals : BusinessLogic.BusinessSignals)
    (nativeHtmlCount fileLines : Z) :
  fst (BusinessLogic.riskFactors signals nativeHtmlCount fileLines)
  = 15 * Z.max 0 (BusinessLogic.apiCalls signals)
    + 5 * Z.max 0 (BusinessLogic.useStateCount signals)
    + 10 * Z.max 0 (BusinessLogic.useEffectCount signals)
    + (if BusinessLogic.fileUploads signals then 25 else 0)
    + (if BusinessLogic.authFlows signals then 30 else 0)
    + (if BusinessLogic.formHandling signals then 10 else 0)
    + 2 * Z.max 0 nativeHtmlCount
    + (if 300 <? fileLines then 10 else 0).
Proof.
  unfold BusinessLogic.riskFactors.
  destruct (Z.ltb_spec 0 (BusinessLogic.apiCalls signals));
  destruct (Z.ltb_spec 0 (BusinessLogic.useStateCount signals));
  destruct (Z.ltb_spec 0 (BusinessLogic.useEffectCount signals));
  destruct (BusinessLogic.fileUploads signals);
  destruct (BusinessLogic.authFlows signals);
  destruct (BusinessLogic.formHandling signals);
  destruct (Z.ltb_spec 0 nativeHtmlCount);
  destruct (300 <? fileLines); simpl; lia.
Qed.

Lemma riskFactors_signals (signals : BusinessLogic.BusinessSignals)
    (nativeHtmlCount fileLines : Z) :
  (length (snd (BusinessLogic.riskFactors signals nativeHtmlCount fileLines)) <= 8)%nat
  /\ (snd (BusinessLogic.riskFactors signals nativeHtmlCount fileLines) = []
      <-> fst (BusinessLogic.riskFactors signals nativeHtmlCount fileLines) = 0).
Proof.
  unfold BusinessLogic.riskFactors.
  destruct (Z.ltb_spec 0 (BusinessLogic.apiCalls signals));
  destruct (Z.ltb_spec 0 (BusinessLogic.useStateCount signals));
  destruct (Z.ltb_spec 0 (BusinessLogic.useEffectCount signals));
  destruct (BusinessLogic.fileUploads signals);
  destruct (BusinessLogic.authFlows signals);
  destruct (BusinessLogic.formHandling signals);
  destruct (Z.ltb_spec 0 nativeHtmlCount);
  destruct (300 <? fileLines); cbn [fst snd app length];
    (split; [lia | split; [first [discriminate | intros _; lia] | first [reflexivity | lia]]]).
Qed.

(** X14. The score [assessRisk] reports is the weighted score clamped to
    100 (the tier is decided on the unclamped one) and lies between 0 and
    100; the list of detected signals has at most eight entries and is
    empty exactly when the weighted score is 0. *)
Theorem assessRisk_score_and_signals (signals : BusinessLogic.BusinessSignals)
    (nativeHtmlCount fileLines : Z) (thresholds : BusinessLogic.RiskThresholds) :
  0 <= BusinessLogic.apiCalls signals ->
  0 <= BusinessLogic.useStateCount signals ->
  0 <= BusinessLogic.useEffectCount signals ->
  0 <= nativeHtmlCount ->
  let complexity := BusinessLogic.assessRisk signals nativeHtmlCount fileLines thresholds in
  let weighted := Spec.weightedScore signals nativeHtmlCount fileLines in
  BusinessLogic.score complexity = Z.min 100 weighted
  /\ 0 <= BusinessLogic.score complexity <= 100
  /\ (length (BusinessLogic.signals complexity) <= 8)%nat
  /\ (BusinessLogic.signals complexity = [] <-> weighted = 0).
Proof.
  intros Ha Hs He Hn complexity weighted. subst complexity weighted.
  pose proof (riskFactors_score signals nativeHtmlCount fileLines Ha Hs He Hn) as Hscore.
  pose proof (riskFactors_signals signals nativeHtmlCount fileLines) as [Hlen Hempty].
  pose proof (riskFactors_weights signals nativeHtmlCount fileLines) as Hw.
  unfold BusinessLogic.assessRisk.
  destruct (BusinessLogic.riskFactors signals nativeHtmlCount fileLines) as [sc detected].
  simpl in *. subst sc.
  split; [reflexivity|].
  split; [destruct (BusinessLogic.fileUploads signals), (BusinessLogic.authFlows signals),
            (BusinessLogic.formHandling signals), (300 <? fileLines); lia|].
  split; [exact Hlen | exact Hempty].
Qed.

Lemma assessRisk_score_and_signals_witness :
  BusinessLogic.score
    (BusinessLogic.assessRisk (BusinessLogic.mkBusinessSignals 9 0 0 false false false) 0 10
       Examples.thresholds) = 100.
Proof.
  refine (eq_trans (proj1 (assessRisk_score_and_signals
                             (BusinessLogic.mkBusinessSignals 9 0 0 false false false) 0 10
                             Examples.thresholds _ _ _ _)) _);
    simpl; (lia || reflexivity).
Defined.

Lemma riskLevel_rank (signals : BusinessLogic.BusinessSignals)
    (nativeHtmlCount fileLines : Z) (thresholds : BusinessLogic.RiskThresholds) :
  let tier :=
    BusinessLogic.riskLevel
      (BusinessLogic.assessRisk signals nativeHtmlCount fileLines thresholds) in
  let sc := fst (BusinessLogic.riskFactors signals nativeHtmlCount fileLines) in
  let pageLevel :=
    BusinessLogic.maxApiCalls (BusinessLogic.careful thresholds) < BusinessLogic.apiCalls signals
    \/ BusinessLogic.maxStateHooks (BusinessLogic.careful thresholds)
         < BusinessLogic.useStateCount signals
    \/ BusinessLogic.maxEffects (BusinessLogic.careful thresholds)
         < BusinessLogic.useEffectCount signals
    \/ BusinessLogic.fileUploads signals = true
    \/ BusinessLogic.authFlows signals = true
    \/ 50 <= sc in
  let careful :=
    BusinessLogic.maxApiCalls (BusinessLogic.safe thresholds) < BusinessLogic.apiCalls signals
    \/ BusinessLogic.maxStateHooks (BusinessLogic.safe thresholds)
         < BusinessLogic.useStateCount signals
    \/ BusinessLogic.maxEffects (BusinessLogic.safe thresholds)
         < BusinessLogic.useEffectCount signals
    \/ 0 < nativeHtmlCount
    \/ 20 <= sc in
  0 <= Spec.tierRank tier <= 2
  /\ (Spec.tierRank tier = 2 <-> pageLevel)
  /\ (1 <= Spec.tierRank tier <-> pageLevel \/ careful).
Proof.
  intros tier sc pageLevel careful. subst tier sc pageLevel careful.
  unfold BusinessLogic.assessRisk.
  destruct (BusinessLogic.riskFactors signals nativeHtmlCount fileLines) as [sc detected].
  cbn [fst BusinessLogic.riskLevel].
  destruct (Z.ltb_spec (BusinessLogic.maxApiCalls (BusinessLogic.careful thresholds))
              (BusinessLogic.apiCalls signals));
  destruct (Z.ltb_spec (BusinessLogic.maxStateHooks (BusinessLogic.careful thresholds))
              (BusinessLogic.useStateCount signals));
  destruct (Z.ltb_spec (BusinessLogic.maxEffects (BusinessLogic.careful thresholds))
              (BusinessLogic.useEffectCount signals));
  destruct (BusinessLogic.fileUploads signals);
  destruct (BusinessLogic.authFlows signals);
  destruct (Z.leb_spec 50 sc); cbn [orb Spec.tierRank];
    try (split; [lia|]; split; (split; [intros _; tauto | intros _; lia])).
  destruct (Z.ltb_spec (BusinessLogic.maxApiCalls (BusinessLogic.safe thresholds))
              (BusinessLogic.apiCalls signals));
  destruct (Z.ltb_spec (BusinessLogic.maxStateHooks (BusinessLogic.safe thresholds))
              (BusinessLogic.useStateCount signals));
  destruct (Z.ltb_spec (BusinessLogic.maxEffects (BusinessLogic.safe thresholds))
              (BusinessLogic.useEffectCount signals));
  destruct (Z.ltb_spec 0 nativeHtmlCount);
  destruct (Z.leb_spec 20 sc); cbn [orb Spec.tierRank];
    (split; [lia|]; split;
     [split; [intros; lia | intros [?|[?|[?|[?|[?|?]]]]]; (lia || discriminate)]|]);
    try (split; [intros _; tauto | intros _; lia]).
  split; [intros; lia|].
  intros [[?|[?|[?|[?|[?|?]]]]] | [?|[?|[?|[?|?]]]]]; (lia || discriminate).
Qed.

(** X15. More signals never lower the risk tier: when every count and
    flag of one file is at least that of another, with at least as many
    native elements and lines and the same thresholds, its tier is the
    same or a higher one in the order safe, careful, page-level. *)
Theorem more_signals_never_lower_tier (a b : BusinessLogic.BusinessSignals)
    (nativeA nativeB linesA linesB : Z) (thresholds : BusinessLogic.RiskThresholds) :
  Spec.signalsLe a b ->
  nativeA <= nativeB ->
  linesA <= linesB ->
  Spec.tierRank (BusinessLogic.riskLevel (BusinessLogic.assessRisk a nativeA linesA thresholds))
  <= Spec.tierRank
       (BusinessLogic.riskLevel (BusinessLogic.assessRisk b nativeB linesB thresholds)).
Proof.
  intros (Hapi & Hstate & Heffect & Hup & Hauth & Hform) Hnative Hlines.
  pose proof (riskLevel_rank a nativeA linesA thresholds) as HA. cbv zeta in HA.
  pose proof (riskLevel_rank b nativeB linesB thresholds) as HB. cbv zeta in HB.
  destruct HA as (HrA & HpA & HcA). destruct HB as (HrB & HpB & HcB).
  assert (Hscore : fst (BusinessLogic.riskFactors a nativeA linesA)
                   <= fst (BusinessLogic.riskFactors b nativeB linesB)).
  { rewrite !riskFactors_weights.
    assert ((if BusinessLogic.fileUploads a then 25 else 0)
            <= (if BusinessLogic.fileUploads b then 25 else 0)).
    { destruct (BusinessLogic.fileUploads a); [rewrite Hup by reflexivity; lia|].
      destruct (BusinessLogic.fileUploads b); lia. }
    assert ((if BusinessLogic.authFlows a then 30 else 0)
            <= (if BusinessLogic.authFlows b then 30 else 0)).
    { destruct (BusinessLogic.authFlows a); [rewrite Hauth by reflexivity; lia|].
      destruct (BusinessLogic.authFlows b); lia. }
    assert ((if BusinessLogic.formHandling a then 10 else 0)
            <= (if BusinessLogic.formHandling b then 10 else 0)).
    { destruct (BusinessLogic.formHandling a); [rewrite Hform by reflexivity; lia|].
      destruct (BusinessLogic.formHandling b); lia. }
    assert ((if 300 <? linesA then 10 else 0) <= (if 300 <? linesB then 10 else 0)).
    { destruct (Z.ltb_spec 300 linesA), (Z.ltb_spec 300 linesB); lia. }
    lia. }
  set (ra := Spec.tierRank
               (BusinessLogic.riskLevel
                  (BusinessLogic.assessRisk a nativeA linesA thresholds))) in *.
  set (rb := Spec.tierRank
               (BusinessLogic.riskLevel
                  (BusinessLogic.assessRisk b nativeB linesB thresholds))) in *.
  destruct (Z.eq_dec ra 2) as [E2|N2].
  { assert (rb = 2); [|lia]. apply HpB. apply HpA in E2.
    destruct E2 as [?|[?|[?|[?|[?|?]]]]];
      first [ left; lia
            | right; left; lia
            | right; right; left; lia
            | right; right; right; left; solve [auto]
            | right; right; right; right; left; solve [auto]
            | right; right; right; right; right; lia ]. }
  destruct (Z_le_dec 1 ra) as [E1|N1]; [|lia].
  assert (1 <= rb); [|lia]. apply HcB. apply HcA in E1.
  destruct E1 as [[?|[?|[?|[?|[?|?]]]]] | [?|[?|[?|[?|?]]]]];
    first [ left; left; lia
          | left; right; left; lia
          | left; right; right; left; lia
          | left; right; right; right; left; solve [auto]
          | left; right; right; right; right; left; solve [auto]
          | left; right; right; right; right; right; lia
          | right; left; lia
          | right; right; left; lia
          | right; right; right; left; lia
          | right; right; right; right; left; lia
          | right; right; right; right; right; lia ].
Qed.

Lemma more_signals_never_lower_tier_witness :
  Spec.tierRank
    (BusinessLogic.riskLevel (BusinessLogic.assessRisk Examples.noSignals 1 10
                                Examples.thresholds))
  <= Spec.tierRank
       (BusinessLogic.riskLevel
          (BusinessLogic.assessRisk (BusinessLogic.mkBusinessSignals 1 0 0 false true false)
             2 400 Examples.thresholds)).
Proof.
  apply more_signals_never_lower_tier.
  - unfold Spec.signalsLe. simpl. repeat split; (lia || discriminate).
  - lia.
  - lia.
Defined.

(** ** Native element records *)

Lemma countElements_throws_iff (P : Platform) (content : string) (elements : list string) :
  forall counts0,
    BusinessLogic.countElements P content elements counts0 = Throws
    <-> exists e, In e elements
                  /\ regExpMatchAll P (BusinessLogic.nativePattern e) content = Throws.
Proof.
  induction elements as [|element rest IH]; intros counts0; simpl.
  - split; [discriminate | intros (e & [] & _)].
  - destruct (regExpMatchAll P (BusinessLogic.nativePattern element) content) as [ms|] eqn:E;
      simpl.
    + rewrite IH. split.
      * intros (e & Hin & He). exists e. auto.
      * intros (e & [<- | Hin] & He); [congruence | exists e; auto].
    + split; [intros _; exists element; auto | reflexivity].
Qed.

Lemma detect_lookup (P : Platform) (content : string) (elements : list string)
    (record : gmap string Z) :
  BusinessLogic.detectNativeHtmlElements P content elements = Returns record ->
  exists counts,
    BusinessLogic.countElements P content elements ∅ = Returns counts
    /\ record = <["total" := BusinessLogic.sumValues counts]> counts
    /\ forall e,
         (In e elements /\ e <> "__proto__" ->
          counts !! e = Some (Spec.occurrences P content e))
         /\ (~ (In e elements /\ e <> "__proto__") -> counts !! e = None).
Proof.
  unfold BusinessLogic.detectNativeHtmlElements.
  destruct (BusinessLogic.countElements P content elements ∅) as [counts|] eqn:E; simpl;
    [|discriminate].
  intros [= <-]. exists counts. split; [reflexivity|]. split; [reflexivity|].
  intros e. destruct (countElements_lookup P content elements ∅ counts E e) as [Hin Hout].
  split.
  - intros [H1 H2]. apply Hin; assumption.
  - intros Hn. rewrite Hout by exact Hn. apply lookup_empty.
Qed.

(** X16. The native element record depends only on which element names
    are configured, not on their order nor on how often a name is listed:
    two lists with the same names give the same record, or both throw. *)
Theorem detectNativeHtmlElements_same_names (P : Platform) (content : string)
    (elements1 elements2 : list string) :
  (forall e, In e elements1 <-> In e elements2) ->
  BusinessLogic.detectNativeHtmlElements P content elements1
  = BusinessLogic.detectNativeHtmlElements P content elements2.
Proof.
  intros Hsame.
  destruct (BusinessLogic.detectNativeHtmlElements P content elements1) as [r1|] eqn:E1;
  destruct (BusinessLogic.detectNativeHtmlElements P content elements2) as [r2|] eqn:E2.
  - apply detect_lookup in E1 as (c1 & _ & -> & H1).
    apply detect_lookup in E2 as (c2 & _ & -> & H2).
    assert (c1 = c2) as ->; [|reflexivity].
    apply map_eq. intros e. destruct (H1 e) as [Hin1 Hout1]. destruct (H2 e) as [Hin2 Hout2].
    destruct (in_dec string_dec e elements1) as [Hi|Hi];
      destruct (string_dec e "__proto__") as [Hp|Hp].
    + rewrite Hout1, Hout2 by tauto. reflexivity.
    + rewrite Hin1 by tauto. rewrite Hin2; [reflexivity|]. split; [apply Hsame; exact Hi|exact Hp].
    + rewrite Hout1, Hout2 by tauto. reflexivity.
    + rewrite Hout1 by tauto. rewrite Hout2; [reflexivity|]. rewrite <- Hsame. tauto.
  - exfalso. unfold BusinessLogic.detectNativeHtmlElements in E1, E2.
    destruct (BusinessLogic.countElements P content elements2 ∅) eqn:C2; [discriminate|].
    apply countElements_throws_iff in C2 as (e & Hin & He).
    destruct (BusinessLogic.countElements P content elements1 ∅) eqn:C1; [|discriminate].
    assert (Hthrow : BusinessLogic.countElements P content elements1 ∅ = Throws).
    { apply countElements_throws_iff. exists e. rewrite Hsame. auto. }
    congruence.
  - exfalso. unfold BusinessLogic.detectNativeHtmlElements in E1, E2.
    destruct (BusinessLogic.countElements P content elements1 ∅) eqn:C1; [discriminate|].
    apply countElements_throws_iff in C1 as (e & Hin & He).
    destruct (BusinessLogic.countElements P content elements2 ∅) eqn:C2; [|discriminate].
    assert (Hthrow : BusinessLogic.countElements P content elements2 ∅ = Throws).
    { apply countElements_throws_iff. exists e. rewrite <- Hsame. auto. }
    congruence.
  - reflexivity.
Qed.

Lemma detectNativeHtmlElements_same_names_witness :
  BusinessLogic.detectNativeHtmlElements Examples.node "<div><p/>" ["div"; "p"; "div"]
  = BusinessLogic.detectNativeHtmlElements Examples.node "<div><p/>" ["p"; "div"].
Proof.
  apply detectNativeHtmlElements_same_names.
  intros e. simpl. tauto.
Defined.

(** ** Risk reports *)

Lemma matchCount_nonneg (P : Platform) (source content : string) :
  0 <= BusinessLogic.matchCount P source content.
Proof. unfold BusinessLogic.matchCount. destruct (regExpMatchAll P source content); lia. Qed.

Lemma detectBusinessLogicSignals_nonneg (P : Platform) (content : string) :
  0 <= BusinessLogic.apiCalls (BusinessLogic.detectBusinessLogicSignals P content)
  /\ 0 <= BusinessLogic.useStateCount (BusinessLogic.detectBusinessLogicSignals P content)
  /\ 0 <= BusinessLogic.useEffectCount (BusinessLogic.detectBusinessLogicSignals P content).
Proof.
  unfold BusinessLogic.detectBusinessLogicSignals. simpl.
  repeat split; try apply matchCount_nonneg.
  repeat match goal with
         | |- context [BusinessLogic.matchCount P ?s content] =>
             let H := fresh in
             pose proof (matchCount_nonneg P s content) as H;
             generalize dependent (BusinessLogic.matchCount P s content); intros
         end.
  lia.
Qed.

Lemma sumValues_nonneg (counts : gmap string Z) :
  (forall k v, counts !! k = Some v -> 0 <= v) -> 0 <= BusinessLogic.sumValues counts.
Proof.
  unfold BusinessLogic.sumValues.
  apply (map_fold_weak_ind
           (fun (r : Z) (m : gmap string Z) => (forall k v, m !! k = Some v -> 0 <= v) -> 0 <= r)).
  - intros _. lia.
  - intros i x m r Hnone IH Hall.
    assert (0 <= x) by (apply (Hall i); apply lookup_insert_eq).
    assert (0 <= r).
    { apply IH. intros k v Hk. apply (Hall k).
      rewrite lookup_insert_ne; [exact Hk|]. intros ->. congruence. }
    lia.
Qed.

Lemma detect_total (P : Platform) (content : string) (elements : list string)
    (record : gmap string Z) :
  BusinessLogic.detectNativeHtmlElements P content elements = Returns record ->
  is_Some (record !! "total") /\ 0 <= BusinessLogic.totalOf record.
Proof.
  intros H. apply detect_lookup in H as (counts & _ & -> & Hcounts).
  unfold BusinessLogic.totalOf. rewrite lookup_insert_eq. simpl.
  split; [eauto|]. apply sumValues_nonneg. intros k v Hk.
  destruct (Hcounts k) as [Hin Hout].
  destruct (in_dec string_dec k elements) as [Hi|Hi];
    destruct (string_dec k "__proto__") as [Hp|Hp];
    try (rewrite Hout in Hk by tauto; discriminate).
  rewrite Hin in Hk by tauto. injection Hk as <-. apply occurrences_nonneg.
Qed.

Lemma business_analyzeFile_report (P : Platform) (content relativePath : string)
    (config : BusinessLogic.BusinessLogicAnalysisConfig)
    (report : BusinessLogic.BusinessLogicReport) :
  BusinessLogic.analyzeFile P content relativePath config = Returns (Some report) ->
  existsb (fun dir => Js.startsWith relativePath dir) (BusinessLogic.excludeDirectories config)
  = false
  /\ exists native,
       (if BusinessLogic.Config.enabled (BusinessLogic.nativeHtmlElements config)
        then BusinessLogic.detectNativeHtmlElements P content
               (BusinessLogic.Config.elements (BusinessLogic.nativeHtmlElements config))
        else Returns {["total" := 0]}) = Returns native
       /\ report
          = let complexity :=
              BusinessLogic.assessRisk (BusinessLogic.detectBusinessLogicSignals P content)
                (BusinessLogic.totalOf native) (BusinessLogic.lineCount content)
                (BusinessLogic.riskThresholds config) in
            BusinessLogic.mkBusinessLogicReport relativePath native
              (BusinessLogic.detectBusinessLogicSignals P content) complexity
              (BusinessLogic.mkSuggestedRefactor (BusinessLogic.riskLevel complexity)
                 (BusinessLogic.rationaleFor (BusinessLogic.riskLevel complexity))
                 (BusinessLogic.actionsFor (BusinessLogic.riskLevel complexity))).
Proof.
  unfold BusinessLogic.analyzeFile.
  destruct (existsb _ (BusinessLogic.excludeDirectories config)); [discriminate|].
  destruct (if BusinessLogic.Config.enabled (BusinessLogic.nativeHtmlElements config)
            then _ else _) as [native|]; simpl; [|discriminate].
  intros [= <-]. split; [reflexivity|]. exists native. split; reflexivity.
Qed.

(** X17. A risk report is consistent with itself: its path is the
    relative path analyzed, which starts with no excluded directory; the
    category of the suggested refactor is the risk tier; there are one,
    three or five suggested actions for safe, careful and page-level; the
    native element record has a [total] that is not negative; and the
    score is the weighted score of the report's own signals, native total
    and line count, clamped to 100, so between 0 and 100. *)
Theorem risk_report_consistent (P : Platform) (content relativePath : string)
    (config : BusinessLogic.BusinessLogicAnalysisConfig)
    (report : BusinessLogic.BusinessLogicReport) :
  BusinessLogic.analyzeFile P content relativePath config = Returns (Some report) ->
  BusinessLogic.path report = relativePath
  /\ (forall dir, In dir (BusinessLogic.excludeDirectories config) ->
        Js.startsWith relativePath dir = false)
  /\ BusinessLogic.category (BusinessLogic.suggestedRefactor report)
     = BusinessLogic.riskLevel (BusinessLogic.complexity report)
  /\ length (BusinessLogic.suggestedActions (BusinessLogic.suggestedRefactor report))
     = match BusinessLogic.riskLevel (BusinessLogic.complexity report) with
       | BusinessLogic.Safe => 1%nat
       | BusinessLogic.Careful => 3%nat
       | BusinessLogic.PageLevel => 5%nat
       end
  /\ is_Some (BusinessLogic.nativeHtmlCounts report !! "total")
  /\ 0 <= BusinessLogic.totalOf (BusinessLogic.nativeHtmlCounts report)
  /\ BusinessLogic.score (BusinessLogic.complexity report)
     = Z.min 100
         (Spec.weightedScore (BusinessLogic.businessLogicSignals report)
            (BusinessLogic.totalOf (BusinessLogic.nativeHtmlCounts report))
            (BusinessLogic.lineCount content))
  /\ 0 <= BusinessLogic.score (BusinessLogic.complexity report) <= 100.
Proof.
  intros H. apply business_analyzeFile_report in H as (Hexcl & native & Hnative & ->).
  cbn [BusinessLogic.path BusinessLogic.suggestedRefactor BusinessLogic.category
       BusinessLogic.suggestedActions BusinessLogic.nativeHtmlCounts
       BusinessLogic.businessLogicSignals BusinessLogic.complexity].
  assert (Htotal : is_Some (native !! "total") /\ 0 <= BusinessLogic.totalOf native).
  { destruct (BusinessLogic.Config.enabled (BusinessLogic.nativeHtmlElements config)).
    - eapply detect_total. exact Hnative.
    - injection Hnative as <-. unfold BusinessLogic.totalOf.
      rewrite lookup_singleton_eq. simpl. split; [eauto | lia]. }
  destruct Htotal as [Hsome Hnn].
  destruct (detectBusinessLogicSignals_nonneg P content) as (Ha & Hs & He).
  pose proof (riskFactors_score (BusinessLogic.detectBusinessLogicSignals P content)
                (BusinessLogic.totalOf native) (BusinessLogic.lineCount content)
                Ha Hs He Hnn) as Hscore.
  pose proof (riskFactors_weights (BusinessLogic.detectBusinessLogicSignals P content)
                (BusinessLogic.totalOf native) (BusinessLogic.lineCount content)) as Hw.
  split; [reflexivity|]. split.
  { intros dir Hdir. destruct (Js.startsWith relativePath dir) eqn:E; [|reflexivity].
    assert (Hex : existsb (fun dir => Js.startsWith relativePath dir)
                    (BusinessLogic.excludeDirectories config) = true)
      by (apply existsb_exists; eauto).
    congruence. }
  split; [reflexivity|]. split.
  { destruct (BusinessLogic.riskLevel _); reflexivity. }
  split; [exact Hsome|]. split; [exact Hnn|].
  assert (Hsc : BusinessLogic.score
                  (BusinessLogic.assessRisk (BusinessLogic.detectBusinessLogicSignals P content)
                     (BusinessLogic.totalOf native) (BusinessLogic.lineCount content)
                     (BusinessLogic.riskThresholds config))
                = Z.min 100
                    (Spec.weightedScore (BusinessLogic.detectBusinessLogicSignals P content)
                       (BusinessLogic.totalOf native) (BusinessLogic.lineCount content))).
  { unfold BusinessLogic.assessRisk.
    destruct (BusinessLogic.riskFactors _ _ _) as [sc detected]. simpl in *. subst sc.
    reflexivity. }
  split; [exact Hsc|]. rewrite Hsc. rewrite <- Hscore, Hw.
  destruct (BusinessLogic.fileUploads _), (BusinessLogic.authFlows _),
    (BusinessLogic.formHandling _), (300 <? BusinessLogic.lineCount content); lia.
Qed.

Lemma risk_report_consistent_witness :
  exists report,
    BusinessLogic.analyzeFile Examples.node "<button>Go</button>" "ui/x.tsx"
      Examples.riskConfig = Returns (Some report)
    /\ BusinessLogic.category (BusinessLogic.suggestedRefactor report) = BusinessLogic.Careful
    /\ BusinessLogic.score (BusinessLogic.complexity report) = 2
    /\ 0 <= BusinessLogic.score (BusinessLogic.complexity report) <= 100.
Proof.
  eexists. split; [vm_compute; reflexivity|]. split; [reflexivity|]. split; [reflexivity|].
  refine (proj2 (proj2 (proj2 (proj2 (proj2 (proj2 (proj2
            (risk_report_consistent Examples.node "<button>Go</button>" "ui/x.tsx"
               Examples.riskConfig _ _)))))))).
  vm_compute. reflexivity.
Defined.

(** ** The risk-report mapping *)

Lemma reportLoop_entry (P : Platform) (scanDir : string)
    (config : BusinessLogic.BusinessLogicAnalysisConfig) (key : string)
    (report : BusinessLogic.BusinessLogicReport) :
  forall (entries : list (string * string)) reports0 reports,
    BusinessLogic.reportLoop P scanDir config entries reports0 = Returns reports ->
    reports !! key = Some report ->
    reports0 !! key = Some report
    \/ (key <> "__proto__"
        /\ exists filePath content,
             In (filePath, content) entries
             /\ relative P scanDir filePath = key
             /\ BusinessLogic.analyzeFile P content key config = Returns (Some report)).
Proof.
  induction entries as [|[filePath content] entries IH]; intros reports0 reports Hloop Hkey;
    simpl in Hloop.
  - injection Hloop as <-. left. exact Hkey.
  - destruct (BusinessLogic.analyzeFile P content (relative P scanDir filePath) config)
      as [[rep|]|] eqn:Han; simpl in Hloop; [| |discriminate].
    + destruct (IH _ _ Hloop Hkey) as [H | (Hp & f & c & Hin & Hrel & Hf)].
      * apply lookup_objSet_own in H as [H | (-> & -> & Hp)]; [left; exact H|].
        right. split; [exact Hp|]. exists filePath, content.
        split; [left; reflexivity|]. split; [reflexivity | exact Han].
      * right. split; [exact Hp|]. exists f, c.
        split; [right; exact Hin|]. split; assumption.
    + destruct (IH _ _ Hloop Hkey) as [H | (Hp & f & c & Hin & Hrel & Hf)].
      * left. exact H.
      * right. split; [exact Hp|]. exists f, c.
        split; [right; exact Hin|]. split; assumption.
Qed.

(** X18. Every entry of the risk-report mapping is the report of a file
    of the content mapping, stored under the relative path of that file,
    which is also the [path] of the report; the key is never [__proto__]
    and starts with no excluded directory, so an excluded file has no
    entry. With the analysis disabled the mapping is empty. *)
Theorem risk_mapping_entries {FileReport : Type} (P : Platform)
    (fileReports : list FileReport) (fileContents : list (string * string))
    (scanDir : string) (config : BusinessLogic.BusinessLogicAnalysisConfig)
    (reports : gmap string BusinessLogic.BusinessLogicReport) (key : string)
    (report : BusinessLogic.BusinessLogicReport) :
  BusinessLogic.analyzeBusinessLogic P fileReports fileContents scanDir config
    = Returns reports ->
  reports !! key = Some report ->
  BusinessLogic.enabled config = true
  /\ key <> "__proto__"
  /\ BusinessLogic.path report = key
  /\ (forall dir, In dir (BusinessLogic.excludeDirectories config) ->
        Js.startsWith key dir = false)
  /\ exists filePath content,
       In (filePath, content) fileContents
       /\ relative P scanDir filePath = key
       /\ BusinessLogic.analyzeFile P content key config = Returns (Some report).
Proof.
  unfold BusinessLogic.analyzeBusinessLogic.
  destruct (BusinessLogic.enabled config); simpl.
  2:{ intros [= <-]. rewrite lookup_empty. discriminate. }
  intros Hloop Hkey.
  destruct (reportLoop_entry P scanDir config key report fileContents ∅ reports Hloop Hkey)
    as [H | (Hp & f & c & Hin & Hrel & Hf)]; [rewrite lookup_empty in H; discriminate|].
  pose proof (business_analyzeFile_report P c key config report Hf)
    as (Hexcl & native & _ & Hrep).
  split; [reflexivity|]. split; [exact Hp|]. split; [rewrite Hrep; reflexivity|].
  split.
  { intros dir Hdir. destruct (Js.startsWith key dir) eqn:E; [|reflexivity].
    assert (Hex : existsb (fun dir => Js.startsWith key dir)
                    (BusinessLogic.excludeDirectories config) = true)
      by (apply existsb_exists; eauto).
    congruence. }
  exists f, c. auto.
Qed.

Lemma reportLoop_throws_iff (P : Platform) (scanDir : string)
    (config : BusinessLogic.BusinessLogicAnalysisConfig) :
  forall (entries : list (string * string)) reports0,
    BusinessLogic.reportLoop P scanDir config entries reports0 = Throws
    <-> exists filePath content,
          In (filePath, content) entries
          /\ BusinessLogic.analyzeFile P content (relative P scanDir filePath) config = Throws.
Proof.
  induction entries as [|[filePath content] entries IH]; intros reports0; simpl.
  - split; [discriminate | intros (f & c & [] & _)].
  - destruct (BusinessLogic.analyzeFile P content (relative P scanDir filePath) config)
      as [[rep|]|] eqn:Han; simpl.
    + rewrite IH. split.
      * intros (f & c & Hin & Hf). exists f, c. auto.
      * intros (f & c & [[= <- <-] | Hin] & Hf); [congruence | exists f, c; auto].
    + rewrite IH. split.
      * intros (f & c & Hin & Hf). exists f, c. auto.
      * intros (f & c & [[= <- <-] | Hin] & Hf); [congruence | exists f, c; auto].
    + split; [intros _; exists filePath, content; auto | reflexivity].
Qed.

Lemma business_analyzeFile_throws_iff (P : Platform) (content relativePath : string)
    (config : BusinessLogic.BusinessLogicAnalysisConfig) :
  BusinessLogic.analyzeFile P content relativePath config = Throws
  <-> existsb (fun dir => Js.startsWith relativePath dir)
        (BusinessLogic.excludeDirectories config) = false
      /\ BusinessLogic.Config.enabled (BusinessLogic.nativeHtmlElements config) = true
      /\ exists element,
           In element (BusinessLogic.Config.elements (BusinessLogic.nativeHtmlElements config))
           /\ regExpMatchAll P (BusinessLogic.nativePattern element) content = Throws.
Proof.
  unfold BusinessLogic.analyzeFile.
  destruct (existsb _ (BusinessLogic.excludeDirectories config));
    [split; [discriminate | intros [? _]; discriminate]|].
  destruct (BusinessLogic.Config.enabled (BusinessLogic.nativeHtmlElements config)); simpl.
  2:{ split; [discriminate | intros (_ & ? & _); discriminate]. }
  unfold BusinessLogic.detectNativeHtmlElements.
  destruct (BusinessLogic.countElements P content
              (BusinessLogic.Config.elements (BusinessLogic.nativeHtmlElements config)) ∅)
    as [counts|] eqn:E; simpl.
  - split; [discriminate|]. intros (_ & _ & He).
    apply (countElements_throws_iff P content _ ∅) in He. congruence.
  - split; [|reflexivity]. intros _. split; [reflexivity|]. split; [reflexivity|].
    apply (countElements_throws_iff P content _ ∅). exact E.
Qed.

(** X19. [analyzeBusinessLogic] throws, and gives no mapping at all,
    exactly when the analysis and the native element detection are
    enabled and some configured element name does not make a regular
    expression for some file that is not excluded. In every other case
    it returns a mapping; in particular it always returns when the native
    element detection is disabled. *)
Theorem analyzeBusinessLogic_throws_iff {FileReport : Type} (P : Platform)
    (fileReports : list FileReport) (fileContents : list (string * string))
    (scanDir : string) (config : BusinessLogic.BusinessLogicAnalysisConfig) :
  BusinessLogic.analyzeBusinessLogic P fileReports fileContents scanDir config = Throws
  <-> BusinessLogic.enabled config = true
      /\ BusinessLogic.Config.enabled (BusinessLogic.nativeHtmlElements config) = true
      /\ exists filePath content element,
           In (filePath, content) fileContents
           /\ existsb (fun dir => Js.startsWith (relative P scanDir filePath) dir)
                (BusinessLogic.excludeDirectories config) = false
           /\ In element
                (BusinessLogic.Config.elements (BusinessLogic.nativeHtmlElements config))
           /\ regExpMatchAll P (BusinessLogic.nativePattern element) content = Throws.
Proof.
  unfold BusinessLogic.analyzeBusinessLogic.
  destruct (BusinessLogic.enabled config); simpl.
  2:{ split; [discriminate | intros [? _]; discriminate]. }
  rewrite reportLoop_throws_iff. split.
  - intros (f & c & Hin & Hthrow).
    apply business_analyzeFile_throws_iff in Hthrow as (Hexcl & Hen & e & He & Hre).
    split; [reflexivity|]. split; [exact Hen|]. exists f, c, e. auto.
  - intros (_ & Hen & f & c & e & Hin & Hexcl & He & Hre).
    exists f, c. split; [exact Hin|]. apply business_analyzeFile_throws_iff.
    split; [exact Hexcl|]. split; [exact Hen|]. exists e. auto.
Qed.

Example malformed_element_aborts_batch :
  BusinessLogic.analyzeBusinessLogic Examples.node ([] : list unit)
    [("/p/ui/a.tsx", "<button>Go</button>"); ("/p/ui/b.tsx", "<div/>")] "/p"
    Examples.brokenRiskConfig = Throws
  /\ exists reports,
       BusinessLogic.analyzeBusinessLogic Examples.node ([] : list unit)
         [("/p/ui/a.tsx", "<button>Go</button>"); ("/p/ui/b.tsx", "<div/>")] "/p"
         Examples.riskConfig = Returns reports
       /\ is_Some (reports !! "ui/a.tsx") /\ is_Some (reports !! "ui/b.tsx").
Proof.
  split; [reflexivity|]. eexists. split; [vm_compute; reflexivity|].
  split; vm_compute; eauto.
Qed.

Lemma risk_mapping_entries_witness :
  exists reports report,
    BusinessLogic.analyzeBusinessLogic Examples.node ([] : list unit)
      [("/p/ui/a.tsx", "<button>Go</button>"); ("/p/dist/b.js", "<div/>")] "/p"
      Examples.riskConfig = Returns reports
    /\ reports !! "ui/a.tsx" = Some report
    /\ BusinessLogic.path report = "ui/a.tsx"
    /\ reports !! "dist/b.js" = None.
Proof.
  eexists. eexists. split; [vm_compute; reflexivity|]. split; [vm_compute; reflexivity|].
  split.
  - refine (proj1 (proj2 (proj2 (risk_mapping_entries Examples.node ([] : list unit)
                                   [("/p/ui/a.tsx", "<button>Go</button>");
                                    ("/p/dist/b.js", "<div/>")] "/p" Examples.riskConfig
                                   _ "ui/a.tsx" _ _ _)))).
    + vm_compute. reflexivity.
    + vm_compute. reflexivity.
  - vm_compute. reflexivity.
Defined.

Lemma reportLoop_key (P : Platform) (scanDir : string)
    (config : BusinessLogic.BusinessLogicAnalysisConfig) (filePath content key : string) :
  key = relative P scanDir filePath ->
  key <> "__proto__" ->
  forall (entries : list (string * string)) reports0 reports,
    (forall other content', In (other, content') entries ->
       relative P scanDir other = key -> other = filePath /\ content' = content) ->
    BusinessLogic.reportLoop P scanDir config entries reports0 = Returns reports ->
    reports !! key
    = match BusinessLogic.analyzeFile P content key config with
      | Returns (Some report) =>
          if existsb (String.eqb filePath) (map fst entries) then Some report
          else reports0 !! key
      | _ => reports0 !! key
      end.
Proof.
  intros Hkey Hproto.
  induction entries as [|[f c] entries IH]; intros reports0 reports Hunique Hloop;
    simpl in Hloop.
  - injection Hloop as <-. simpl.
    destruct (BusinessLogic.analyzeFile P content key config) as [[rep|]|]; reflexivity.
  - assert (Hunique' : forall other content', In (other, content') entries ->
              relative P scanDir other = key -> other = filePath /\ content' = content).
    { intros o c' Hin Hrel. apply (Hunique o c'); [right; exact Hin | exact Hrel]. }
    simpl map. simpl existsb.
    destruct (string_dec (relative P scanDir f) key) as [Hrel|Hrel].
    + destruct (Hunique f c (or_introl eq_refl) Hrel) as [-> ->].
      rewrite String.eqb_refl. simpl. rewrite <- Hkey in Hloop.
      destruct (BusinessLogic.analyzeFile P content key config) as [[rep|]|];
        simpl in Hloop; [| |discriminate].
      * rewrite (IH _ _ Hunique' Hloop). rewrite objSet_lookup_eq by exact Hproto.
        destruct (existsb (String.eqb filePath) (map fst entries)); reflexivity.
      * rewrite (IH _ _ Hunique' Hloop). reflexivity.
    + assert (Hne : filePath <> f) by (intros ->; apply Hrel; symmetry; exact Hkey).
      apply String.eqb_neq in Hne. rewrite Hne. simpl.
      destruct (BusinessLogic.analyzeFile P c (relative P scanDir f) config) as [[rep|]|];
        simpl in Hloop; [| |discriminate].
      * rewrite (IH _ _ Hunique' Hloop).
        rewrite (objSet_lookup_other (relative P scanDir f) key) by (left; congruence).
        reflexivity.
      * rewrite (IH _ _ Hunique' Hloop). reflexivity.
Qed.

(** X20. When [analyzeBusinessLogic] returns, a file of the content
    mapping whose relative path no other file shares, is not [__proto__]
    and starts with no excluded directory has its report in the mapping,
    under that path. This holds for a file whose text is empty as well:
    unlike the purity analyzer, the risk analyzer reports empty files. *)
Theorem file_has_risk_report {FileReport : Type} (P : Platform)
    (fileReports : list FileReport) (fileContents : list (string * string))
    (scanDir : string) (config : BusinessLogic.BusinessLogicAnalysisConfig)
    (reports : gmap string BusinessLogic.BusinessLogicReport) (filePath content : string) :
  BusinessLogic.enabled config = true ->
  BusinessLogic.analyzeBusinessLogic P fileReports fileContents scanDir config
    = Returns reports ->
  In (filePath, content) fileContents ->
  relative P scanDir filePath <> "__proto__" ->
  (forall other content', In (other, content') fileContents ->
     relative P scanDir other = relative P scanDir filePath ->
     other = filePath /\ content' = content) ->
  (forall dir, In dir (BusinessLogic.excludeDirectories config) ->
     Js.startsWith (relative P scanDir filePath) dir = false) ->
  exists report,
    reports !! relative P scanDir filePath = Some report
    /\ BusinessLogic.analyzeFile P content (relative P scanDir filePath) config
       = Returns (Some report).
Proof.
  intros Henabled Hrun Hin Hproto Hunique Hexcl.
  unfold BusinessLogic.analyzeBusinessLogic in Hrun. rewrite Henabled in Hrun. simpl in Hrun.
  pose proof (reportLoop_key P scanDir config filePath content (relative P scanDir filePath)
                eq_refl Hproto fileContents ∅ reports Hunique Hrun) as Hkey.
  assert (Hex : existsb (String.eqb filePath) (map fst fileContents) = true).
  { apply existsb_exists. exists filePath. split; [|apply String.eqb_refl].
    apply in_map_iff. exists (filePath, content). auto. }
  rewrite Hex in Hkey.
  destruct (BusinessLogic.analyzeFile P content (relative P scanDir filePath) config)
    as [[report|]|] eqn:Han.
  - exists report. auto.
  - exfalso. unfold BusinessLogic.analyzeFile in Han.
    assert (Hno : existsb (fun dir => Js.startsWith (relative P scanDir filePath) dir)
                    (BusinessLogic.excludeDirectories config) = false).
    { destruct (existsb _ (BusinessLogic.excludeDirectories config)) eqn:E; [|reflexivity].
      apply existsb_exists in E as (dir & Hdir & Hstarts).
      rewrite (Hexcl dir Hdir) in Hstarts. discriminate. }
    rewrite Hno in Han.
    destruct (if BusinessLogic.Config.enabled (BusinessLogic.nativeHtmlElements config)
              then _ else _); simpl in Han; discriminate.
  - exfalso.
    assert (Hthrows : BusinessLogic.reportLoop P scanDir config fileContents ∅ = Throws).
    { apply reportLoop_throws_iff. exists filePath, content. auto. }
    congruence.
Qed.

Lemma file_has_risk_report_witness :
  exists reports report,
    BusinessLogic.analyzeBusinessLogic Examples.node ([] : list unit)
      [("/p/ui/a.tsx", "<button>Go</button>"); ("/p/ui/empty.tsx", "")] "/p"
      Examples.riskConfig = Returns reports
    /\ reports !! "ui/empty.tsx" = Some report.
Proof.
  eexists.
  destruct (file_has_risk_report Examples.node ([] : list unit)
              [("/p/ui/a.tsx", "<button>Go</button>"); ("/p/ui/empty.tsx", "")] "/p"
              Examples.riskConfig _ "/p/ui/empty.tsx" "" eq_refl eq_refl)
    as (report & Hlookup & _).
  - right. left. reflexivity.
  - vm_compute. discriminate.
  - intros other content' Hin Hrel.
    repeat (destruct Hin as [[= <- <-] | Hin];
            [vm_compute in Hrel; first [discriminate | split; reflexivity]|]).
    destruct Hin.
  - intros dir [<- | [<- | []]]; reflexivity.
  - exists report. split; [reflexivity | exact Hlookup].
Defined.

(** ** Projects without a usable tsconfig *)

(** X21. When the project has no [tsconfig.json], or reading it throws
    or reports an error, [loadTsConfig] gives the empty configuration and
    the resolver does plain path arithmetic without ever throwing: a
    specifier starting with [/] resolves against the project root, one
    starting with [.] against the directory of the current file, and any
    other specifier gives [null]. *)
Theorem no_tsconfig_plain_resolution (P : Platform) (projectRoot : string) :
  existsSync P (join P [projectRoot; "tsconfig.json"]) = false
  \/ readTsConfig P (join P [projectRoot; "tsconfig.json"]) projectRoot = Throws
  \/ readTsConfig P (join P [projectRoot; "tsconfig.json"]) projectRoot = Returns None ->
  loadTsConfig P projectRoot = noTsConfig
  /\ forall importPath currentFileDir,
       resolvePathAlias P importPath (loadTsConfig P projectRoot) projectRoot currentFileDir
       = Returns (if Js.startsWith importPath "/"
                  then Some (resolve P [projectRoot; Js.slice1 importPath])
                  else if Js.startsWith importPath "."
                       then Some (resolve P [currentFileDir; importPath])
                       else None).
Proof.
  intros H.
  assert (Hload : loadTsConfig P projectRoot = noTsConfig).
  { unfold loadTsConfig.
    destruct (existsSync P (join P [projectRoot; "tsconfig.json"])); simpl; [|reflexivity].
    destruct H as [H | [H | H]]; [discriminate | rewrite H; reflexivity
                                  | rewrite H; reflexivity]. }
  split; [exact Hload|]. intros importPath currentFileDir. rewrite Hload.
  unfold resolvePathAlias. simpl.
  destruct (Js.startsWith importPath "/"); [rewrite orb_true_r; reflexivity|].
  rewrite orb_false_r. destruct (Js.startsWith importPath "."); reflexivity.
Qed.

Lemma no_tsconfig_plain_resolution_witness :
  loadTsConfig Examples.node "/p" = noTsConfig
  /\ resolvePathAlias Examples.node "./helper" (loadTsConfig Examples.node "/p") "/p" "/p/ui"
     = Returns (Some "/p/ui/helper").
Proof.
  destruct (no_tsconfig_plain_resolution Examples.node "/p" (or_introl eq_refl))
    as [Hload Hresolve].
  split; [exact Hload|]. rewrite Hresolve. reflexivity.
Defined.

Lemma checkImportAgainstMatchers_accepts_witness :
  checkImportAgainstMatchers "next/headers/edge" ["next/headers"; "next/cache"] = true.
Proof.
  apply (proj2 (checkImportAgainstMatchers_accepts "next/headers/edge"
                  ["next/headers"; "next/cache"])).
  exists "next/headers". split; [left; reflexivity|].
  unfold Spec.matcherAccepts. simpl. right. exists "edge". reflexivity.
Defined.

Lemma analyzeBusinessLogic_throws_iff_witness :
  BusinessLogic.analyzeBusinessLogic Examples.node ([] : list unit)
    [("/p/ui/a.tsx", "<button>Go</button>"); ("/p/ui/b.tsx", "<div/>")] "/p"
    Examples.brokenRiskConfig = Throws.
Proof.
  apply (proj2 (analyzeBusinessLogic_throws_iff Examples.node ([] : list unit)
                  [("/p/ui/a.tsx", "<button>Go</button>"); ("/p/ui/b.tsx", "<div/>")] "/p"
                  Examples.brokenRiskConfig)).
  split; [reflexivity|]. split; [reflexivity|].
  exists "/p/ui/a.tsx", "<button>Go</button>", "h(1".
  split; [left; reflexivity|]. split; [reflexivity|].
  split; [right; left; reflexivity | reflexivity].
Defined.
